(** * github_sync.py: the change-detection and upload loop

    A shallow embedding of [github_sync.py] (the GitHub library sync agent):
    the directory scanner [collect_files], the fingerprint [file_md5], the
    GitHub client [GitHubAPI] and the reconciliation loop of [run_sync],
    followed by the properties that the specification states about them.
    The configuration file, the setup wizard [run_setup], [main] and the
    cron installer of [install_scheduler.py] come after the loop, with the
    properties that the code shows for them.

    Conventions.
    - Python values are modelled by the closest Rocq type: [str] by [string],
      [bytes] by [list byte], unbounded [int] by [Z], a JSON number by [Q],
      [dict] by [gmap], [Optional] by [option].
    - A call that can raise returns a [result]; stateful code runs in the
      monad [M], which keeps the state reached when an exception escapes.
    - What lies outside the program (the file system, the GitHub service, the
      standard library's digest and encoder) is a parameter of the model. *)

From Stdlib Require Import ZArith QArith Qround String Ascii List Lia.
From Stdlib.Strings Require Import Byte.
From Equations Require Import Equations.
From stdpp Require Import gmap strings list.

Local Open Scope string_scope.
Local Open Scope list_scope.
Local Open Scope Z_scope.

(** ** Python values and exceptions *)

Definition bytes := list byte.

(** A path is the list of its components, outermost first. *)
Definition path := list string.

Inductive exn :=
| OSError                 (* open(), read() or read_bytes() failed *)
| RequestException        (* requests.get/put/post could not complete *)
| BodyError               (* r.json().get(..) on a body that is no JSON object *)
| FormatError             (* str.format on a malformed template *)
| SystemExit (code : Z).  (* sys.exit(code) *)

Inductive result (A : Type) :=
| Ok (a : A)
| Raise (e : exn).
Arguments Ok {A} a.
Arguments Raise {A} e.

(** [int(x)] on a finite number: truncation toward zero.  A number of the
    configuration is an [int] or a finite [float]; either is a rational, and
    the two products by 1024 that the scanner takes are exact on floats
    (scalings by a power of two) short of overflow. *)
Definition py_int (x : Q) : Z := Z.quot (Qnum x) (Zpos (Qden x)).

(** [str.lower()], on ASCII letters. *)
Definition lower_ascii (c : ascii) : ascii :=
  let n := nat_of_ascii c in
  if ((65 <=? n) && (n <=? 90))%nat then ascii_of_nat (n + 32) else c.

Fixpoint lower (s : string) : string :=
  match s with
  | EmptyString => EmptyString
  | String c s' => String (lower_ascii c) (lower s')
  end.

(** [s.rfind(".")]: the index of the last dot of [s], if any. *)
Fixpoint rfind_dot (s : string) : option nat :=
  match s with
  | EmptyString => None
  | String c s' =>
      match rfind_dot s' with
      | Some i => Some (S i)
      | None => if Ascii.eqb c "." then Some 0%nat else None
      end
  end.

Fixpoint string_drop (n : nat) (s : string) : string :=
  match n, s with
  | O, _ => s
  | S n', String _ s' => string_drop n' s'
  | S _, EmptyString => EmptyString
  end.

(** [Path(fname).suffix]: the last dot and what follows it, unless that dot
    starts or ends the name. *)
Definition suffix (fname : string) : string :=
  match rfind_dot fname with
  | Some i =>
      if ((0 <? i) && (i <? String.length fname - 1))%nat
      then string_drop i fname else ""
  | None => ""
  end.

(** [s.replace("\\", "/")]. *)
Fixpoint replace_backslash (s : string) : string :=
  match s with
  | EmptyString => EmptyString
  | String c s' =>
      String (if Ascii.eqb c "\" then "/"%char else c) (replace_backslash s')
  end.

(** [str(p)] for a relative path: the components joined by the separator. *)
Definition str_path (p : path) : string := String.concat "/" p.

(** [p.relative_to(base)], for a [p] that lies under [base]. *)
Definition relative_to (p base : path) : path := drop (length base) p.

(** ** hashlib.md5

    The digest object is the standard library's.  The model takes its
    interface together with the contract hashlib documents: feeding data in
    pieces is the same as feeding their concatenation. *)

Class Hashlib := {
  md5_state : Type;
  md5_new : md5_state;                           (* hashlib.md5() *)
  md5_update : md5_state -> bytes -> md5_state;  (* h.update(data) *)
  md5_hexdigest : md5_state -> string;           (* h.hexdigest() *)
  md5_update_nil : forall h, md5_update h [] = h;
  md5_update_app : forall h a b,
      md5_update h (a ++ b) = md5_update (md5_update h a) b
}.

(** [hashlib.md5(data).hexdigest()]: the digest of a byte string at once. *)
Definition md5_hex `{Hashlib} (data : bytes) : string :=
  md5_hexdigest (md5_update md5_new data).

(** An instance, for running the model: the object remembers what it was
    fed, and the digest spells these bytes out as text. *)
Definition toy_hexdigest (data : bytes) : string :=
  string_of_list_ascii (map ascii_of_byte data).

#[export, refine] Instance toy_hashlib : Hashlib := {|
  md5_state := bytes;
  md5_new := [];
  md5_update h data := h ++ data;
  md5_hexdigest := toy_hexdigest
|}.
Proof.
  - intros h. apply app_nil_r.
  - intros h a b. apply app_assoc.
Defined.

(** ** file_md5 *)

(** [f.read(size)] on a binary file whose unread content is [rest]: the next
    [size] bytes (fewer at the end of the file) and what remains. *)
Definition read (size : nat) (rest : bytes) : bytes * bytes :=
  (take size rest, drop size rest).

(** A value together with the equation that names it, so that the loop below
    can use what the test of a chunk tells about the rest of the file. *)
Definition inspect {A : Type} (a : A) : {b : A | a = b} := exist _ a eq_refl.

Section FileMd5.
Context `{Hashlib}.

(** [for chunk in iter(lambda: f.read(size), b""): h.update(chunk)] *)
Equations? feed_chunks (size : nat) (h : md5_state) (rest : bytes)
  : md5_state by wf (length rest) lt :=
  feed_chunks size h rest with inspect (read size rest) := {
    | exist _ ([], _) _ := h;
    | exist _ (c :: chunk, rest') E :=
        feed_chunks size (md5_update h (c :: chunk)) rest' }.
Proof.
  unfold read in E. inversion E as [[E1 E2]].
  destruct size as [|n]; [discriminate|].
  destruct rest as [|b rest]; [discriminate|].
  rewrite length_drop. simpl. lia.
Qed.

Definition CHUNK : nat := Z.to_nat 65536.

(** [file_md5] on the content that [open(path, "rb")] delivers. *)
Definition file_md5_of (content : bytes) : string :=
  md5_hexdigest (feed_chunks CHUNK md5_new content).

Definition file_md5 (opened : result bytes) : result string :=
  match opened with
  | Ok content => Ok (file_md5_of content)
  | Raise e => Raise e
  end.
End FileMd5.

(** ** The local file system

    A file is described by what the program's three accesses deliver:
    [stat] for the scanner, [open]/[read] for the fingerprint and
    [read_bytes] for the upload.  The last two may fail, and need not agree
    with each other or with the size if the file changes under the run.
    [stat] is taken to succeed on every file that a directory lists, and a
    directory that cannot be listed counts as empty, as [os.walk] has it.
    Symbolic links to directories are not followed by [os.walk] and have no
    node of their own. *)

Record file := {
  st_size : Z;                 (* abs_path.stat().st_size *)
  open_rb : result bytes;      (* open(path, "rb") and reading to the end *)
  read_bytes : result bytes    (* abs_path.read_bytes() *)
}.

#[warnings="-register-all"]
Inductive node :=
| File (name : string) (f : file)
| Dir (name : string) (entries : list node).

(** The two lists that [os.walk] builds from the entries of a directory. *)
Definition dir_names (entries : list node) : list string :=
  flat_map (fun n => match n with Dir d _ => [d] | File _ _ => [] end) entries.

Definition dir_files (entries : list node) : list (string * file) :=
  flat_map (fun n => match n with File s f => [(s, f)] | Dir _ _ => [] end)
           entries.

(** [os.walk(top)], top-down, where the consumer replaces [dirs] in place by
    the names that [keep] accepts before the walk descends.  The name of
    [top] itself is not looked at: [top] is the path the caller gave. *)
Fixpoint os_walk (keep : string -> bool) (top : path) (n : node)
  : list (path * list string * list (string * file)) :=
  match n with
  | File _ _ => []
  | Dir _ entries =>
      (top, filter (fun d => keep d = true) (dir_names entries),
       dir_files entries)
      :: flat_map (fun c =>
                     match c with
                     | Dir d _ =>
                         if keep d then os_walk keep (top ++ [d]) c else []
                     | File _ _ => []
                     end) entries
  end.

(** ** collect_files *)

(** What the scanner yields: the absolute path (with the file it names) and
    the path inside the repository. *)
Record entry := {
  abs_path : path;
  target : file;
  repo_path : string
}.

Section CollectFiles.
Variables (library_path : path) (library : node).
Variables (extensions ignore_dirs : list string) (max_mb : Q).

Definition exts : option (gset string) :=
  match extensions with
  | [] => None
  | _ => Some (list_to_set (map lower extensions))
  end.

Definition ignore : gset string := list_to_set ignore_dirs.

Definition max_bytes : Z := py_int (max_mb * 1024 * 1024)%Q.

(** [if exts and Path(fname).suffix.lower() not in exts: continue] *)
Definition ext_rejected (fname : string) : bool :=
  match exts with
  | Some e => negb (bool_decide (lower (suffix fname) ∈ e))
  | None => false
  end.

(** The body of [for fname in files], for one name. *)
Definition scan_file (root : path) (fname : string) (f : file) : list entry :=
  if ext_rejected fname then []
  else
    let abs_path := root ++ [fname] in
    if st_size f >? max_bytes then []
    else
      let rel := relative_to abs_path library_path in
      [ {| abs_path := abs_path; target := f;
           repo_path := replace_backslash (str_path rel) |} ].

Definition collect_files : list entry :=
  flat_map (fun '(root, _, files) =>
              flat_map (fun '(fname, f) => scan_file root fname f) files)
           (os_walk (fun d => negb (bool_decide (d ∈ ignore)))
                    library_path library).
End CollectFiles.

(** ** Configuration *)

Record config := {
  github_token : string;
  github_username : string;
  repo_name : string;
  library_path : string;
  branch : string;
  commit_message : string;
  extensions : list string;
  ignore_dirs : list string;
  max_file_size_mb : Q;
  dry_run : bool
}.

(** ** The GitHub service, as [requests] sees it *)

(** The JSON document of a [PUT .../contents/...]; [pl_sha] is [None] when
    the document has no ["sha"] member. *)
Record put_payload := {
  pl_message : string;
  pl_content : string;
  pl_branch : string;
  pl_sha : option string
}.

(** Every request also carries the headers of the client (the access token);
    they are the same for all requests of a run and are left out. *)
Inductive request :=
| HttpGet (url : string) (ref : option string)
| HttpPut (url : string) (json : put_payload)
| HttpPost (url : string) (name : string) (private auto_init : bool).

Record response := {
  status_code : Z;
  json_sha : result (option string);   (* r.json().get("sha") *)
  text : string
}.

(** ** The environment of a run *)

Class Environment := {
  resolve : string -> path;               (* Path(s).expanduser().resolve() *)
  fs_node : path -> option node;          (* what the file system has at a path *)
  format_date : string -> result string;  (* template.format(date=date_str) *)
  b64encode : bytes -> string;            (* base64.b64encode(b).decode() *)
  Remote : Type;                          (* the state of the service *)
  send : Remote -> request -> Remote * result response
}.

(** The fingerprint cache: [dict] from repository path to hex digest. *)
Abbreviation cache := (gmap string string).

Section World.
Context `{Environment}.

(** What a run can change: the service, the file [.sync_cache.json]
    ([None] while it does not exist) and, as a record of the run, the
    requests it sent with what came back, oldest first. *)
Record world := {
  remote : Remote;
  cache_file : option cache;
  sent : list (request * result response)
}.

(** Computations that may raise and that keep the world they reached. *)
Definition M (A : Type) : Type := world -> result A * world.

Definition ret {A} (a : A) : M A := fun w => (Ok a, w).

Definition bind {A B} (m : M A) (k : A -> M B) : M B :=
  fun w => match m w with
           | (Ok a, w') => k a w'
           | (Raise e, w') => (Raise e, w')
           end.

Definition lift {A} (r : result A) : M A := fun w => (r, w).

Definition raise {A} (e : exn) : M A := lift (Raise e).

(** [requests.get], [requests.put], [requests.post]. *)
Definition http (rq : request) : M response :=
  fun w =>
    let '(remote', out) := send (remote w) rq in
    (out, {| remote := remote'; cache_file := cache_file w;
             sent := sent w ++ [(rq, out)] |}).

(** [json.loads(cache_file.read_text()) if cache_file.exists() else {}].
    The file is only ever written by [write_cache], so what it holds is a
    map from strings to strings. *)
Definition load_cache : M cache :=
  fun w => (Ok (default ∅ (cache_file w)), w).

(** [cache_file.write_text(json.dumps(cache, indent=2))] *)
Definition write_cache (c : cache) : M unit :=
  fun w => (Ok tt, {| remote := remote w; cache_file := Some c;
                      sent := sent w |}).
End World.

Declare Scope sync_scope.
Delimit Scope sync_scope with sync.
Notation "x <- m ;; k" := (bind m (fun x => k))
  (at level 100, m at next level, right associativity) : sync_scope.
Notation "m ;;; k" := (bind m (fun _ => k))
  (at level 100, right associativity) : sync_scope.
Local Open Scope sync_scope.

(** [for x in l: s = body(x, s)] *)
Fixpoint for_each `{Environment} {A S : Type}
    (body : A -> S -> M S) (l : list A) (s : S) : M S :=
  match l with
  | [] => ret s
  | x :: l' => s' <- body x s ;; for_each body l' s'
  end.

(** ** GitHubAPI *)

Record GitHubAPI := {
  username : string;
  repo : string;
  api_branch : string
}.

Definition BASE : string := "https://api.github.com".

Section GitHub.
Context `{Environment}.
Variable self : GitHubAPI.

Definition _url (p : string) : string := BASE +:+ p.

Definition contents_url (repo_path : string) : string :=
  _url ("/repos/" +:+ username self +:+ "/" +:+ repo self +:+
        "/contents/" +:+ repo_path).

Definition get_file_sha (repo_path : string) : M (option string) :=
  r <- http (HttpGet (contents_url repo_path) (Some (api_branch self))) ;;
  if status_code r =? 200 then lift (json_sha r) else ret None.

(** [if sha:] on an [Optional[str]]: [None] and the empty string are false. *)
Definition truthy (sha : option string) : bool :=
  match sha with
  | Some s => negb (String.eqb s "")
  | None => false
  end.

(** The [payload] of [put_file]: ["sha"] is set only under [if sha:]. *)
Definition payload (content_bytes : bytes) (message : string)
    (sha : option string) : put_payload :=
  {| pl_message := message;
     pl_content := b64encode content_bytes;
     pl_branch := api_branch self;
     pl_sha := if truthy sha then sha else None |}.

Definition put_file (repo_path : string) (content_bytes : bytes)
    (message : string) (sha : option string) : M bool :=
  r <- http (HttpPut (contents_url repo_path)
                     (payload content_bytes message sha)) ;;
  ret ((status_code r =? 200) || (status_code r =? 201)).

Definition ensure_repo_exists : M bool :=
  r <- http (HttpGet (_url ("/repos/" +:+ username self +:+ "/" +:+ repo self))
                     None) ;;
  ret (status_code r =? 200).

Definition create_repo (private : bool) : M bool :=
  r <- http (HttpPost (_url "/user/repos") (repo self) private true) ;;
  ret (status_code r =? 201).
End GitHub.

(** ** run_sync *)

Record stats := {
  uploaded : Z;
  skipped : Z;
  failed : Z;
  total : Z
}.

Definition no_stats : stats :=
  {| uploaded := 0; skipped := 0; failed := 0; total := 0 |}.

(** [stats["total"] += 1] and its three siblings. *)
Definition count_total (s : stats) : stats :=
  {| uploaded := uploaded s; skipped := skipped s; failed := failed s;
     total := total s + 1 |}.
Definition count_uploaded (s : stats) : stats :=
  {| uploaded := uploaded s + 1; skipped := skipped s; failed := failed s;
     total := total s |}.
Definition count_skipped (s : stats) : stats :=
  {| uploaded := uploaded s; skipped := skipped s + 1; failed := failed s;
     total := total s |}.
Definition count_failed (s : stats) : stats :=
  {| uploaded := uploaded s; skipped := skipped s; failed := failed s + 1;
     total := total s |}.

Section RunSync.
Context `{Hashlib} `{Environment}.
Variable cfg : config.

(** One turn of the loop of [run_sync], on the local variables [stats]
    and [cache]. *)
Definition sync_file (api : GitHubAPI) (commit_msg : string)
    (e : entry) (s : stats * cache) : M (stats * cache) :=
  let st := count_total (fst s) in
  let cache := snd s in
  md5 <- lift (file_md5 (open_rb (target e))) ;;
  if bool_decide (cache !! repo_path e = Some md5) then
    ret (count_skipped st, cache)
  else if dry_run cfg then
    ret (count_uploaded st, cache)
  else
    sha <- get_file_sha api (repo_path e) ;;
    content <- lift (read_bytes (target e)) ;;
    ok <- put_file api (repo_path e) content commit_msg sha ;;
    if ok then ret (count_uploaded st, <[repo_path e := md5]> cache)
    else ret (count_failed st, cache).

(** [if not cfg.get(field)] for the four required fields. *)
Definition missing_field : bool :=
  String.eqb (github_token cfg) "" || String.eqb (github_username cfg) "" ||
  String.eqb (repo_name cfg) "" || String.eqb (library_path cfg) "".

(** The files the loop of a run goes through, when the library is there.
    [collect_files] is a generator, resumed once per turn of the loop; the
    file system is fixed during a run, so the files it yields are those of
    the scan done ahead of the loop. *)
Definition scanned (library : path) (n : node) : list entry :=
  collect_files library n (extensions cfg) (ignore_dirs cfg)
                (max_file_size_mb cfg).

(** The start of [run_sync], up to the check of the repository: the commit
    message, the library and the client, unless the run exits. *)
Definition preflight : M (string * path * node * GitHubAPI) :=
  commit_msg <- lift (format_date (commit_message cfg)) ;;
  if missing_field then raise (SystemExit 1)
  else
    let library := resolve (library_path cfg) in
    match fs_node library with
    | Some (Dir _ _ as n) =>
        let api := {| username := github_username cfg;
                      repo := repo_name cfg;
                      api_branch := branch cfg |} in
        found <- ensure_repo_exists api ;;
        (if found then ret tt
         else
           created <- create_repo api false ;;
           if created then ret tt else raise (SystemExit 1)) ;;;
        ret (commit_msg, library, n, api)
    | _ => raise (SystemExit 1)
    end.

(** The rest of [run_sync]: the cache is loaded, the loop goes through the
    scanned files, the cache is written back and the counters returned. *)
Definition reconcile (commit_msg : string) (library : path) (n : node)
    (api : GitHubAPI) : M stats :=
  cache <- load_cache ;;
  s <- for_each (sync_file api commit_msg) (scanned library n)
                (no_stats, cache) ;;
  (if dry_run cfg then ret tt else write_cache (snd s)) ;;;
  ret (fst s).

Definition run_sync : M stats :=
  x <- preflight ;;
  let '(commit_msg, library, n, api) := x in
  reconcile commit_msg library n api.
End RunSync.

(** ** Where a file sits in a tree *)

(** [dir_at n ds entries]: descending from the directory [n] through the
    sub-directories named [ds] leads to a directory with these entries. *)
Inductive dir_at : node -> path -> list node -> Prop :=
| dir_here d entries : dir_at (Dir d entries) [] entries
| dir_below d entries d' entries' ds found :
    In (Dir d' entries') entries ->
    dir_at (Dir d' entries') ds found ->
    dir_at (Dir d entries) (d' :: ds) found.

(** [file_at n ds fname f]: the file [f] is listed under the name [fname] in
    the directory that [ds] leads to. *)
Definition file_at (n : node) (ds : path) (fname : string) (f : file) : Prop :=
  exists entries, dir_at n ds entries /\ In (File fname f) entries.

(** The entry of the file [ds/fname] of a library at [library_path]. *)
Definition entry_of (library_path ds : path) (fname : string) (f : file) : entry :=
  {| abs_path := library_path ++ ds ++ [fname];
     target := f;
     repo_path := replace_backslash (str_path (ds ++ [fname])) |}.

(** ** One turn of the loop, case by case

    The turns that [sync_file] can take, told apart by what the file
    system and the service deliver.  [sync_file_turn] below shows that these
    are all the turns there are. *)

Definition fingerprint `{Hashlib} (e : entry) : result string :=
  file_md5 (open_rb (target e)).

(** What [get_file_sha] makes of the reply to its request. *)
Definition lookup_reply (out : result response) : result (option string) :=
  match out with
  | Ok r => if status_code r =? 200 then json_sha r else Ok None
  | Raise ex => Raise ex
  end.

(** What [put_file] makes of the reply to its request. *)
Definition write_reply (out : result response) : result bool :=
  match out with
  | Ok r => Ok ((status_code r =? 200) || (status_code r =? 201))
  | Raise ex => Raise ex
  end.

Section Turn.
Context `{Hashlib} `{Environment}.
Variables (cfg : config) (api : GitHubAPI) (commit_msg : string).

(** The two requests that the loop sends for a file. *)
Definition lookup_of (e : entry) : request :=
  HttpGet (contents_url api (repo_path e)) (Some (api_branch api)).

Definition write_of (e : entry) (content : bytes) (sha : option string)
  : request :=
  HttpPut (contents_url api (repo_path e)) (payload api content commit_msg sha).

Inductive turn (e : entry) (s : stats * cache) (w : world)
  : result (stats * cache) -> world -> Prop :=
| turn_unreadable ex :
    fingerprint e = Raise ex ->
    turn e s w (Raise ex) w
| turn_skipped md5 :
    fingerprint e = Ok md5 ->
    snd s !! repo_path e = Some md5 ->
    turn e s w (Ok (count_skipped (count_total (fst s)), snd s)) w
| turn_preview md5 :
    fingerprint e = Ok md5 ->
    snd s !! repo_path e <> Some md5 ->
    dry_run cfg = true ->
    turn e s w (Ok (count_uploaded (count_total (fst s)), snd s)) w
| turn_lookup_raised md5 out ex w1 :
    fingerprint e = Ok md5 ->
    snd s !! repo_path e <> Some md5 ->
    dry_run cfg = false ->
    http (lookup_of e) w = (out, w1) ->
    lookup_reply out = Raise ex ->
    turn e s w (Raise ex) w1
| turn_read_raised md5 out sha ex w1 :
    fingerprint e = Ok md5 ->
    snd s !! repo_path e <> Some md5 ->
    dry_run cfg = false ->
    http (lookup_of e) w = (out, w1) ->
    lookup_reply out = Ok sha ->
    read_bytes (target e) = Raise ex ->
    turn e s w (Raise ex) w1
| turn_write_raised md5 out sha content out' ex w1 w2 :
    fingerprint e = Ok md5 ->
    snd s !! repo_path e <> Some md5 ->
    dry_run cfg = false ->
    http (lookup_of e) w = (out, w1) ->
    lookup_reply out = Ok sha ->
    read_bytes (target e) = Ok content ->
    http (write_of e content sha) w1 = (out', w2) ->
    write_reply out' = Raise ex ->
    turn e s w (Raise ex) w2
| turn_uploaded md5 out sha content out' w1 w2 :
    fingerprint e = Ok md5 ->
    snd s !! repo_path e <> Some md5 ->
    dry_run cfg = false ->
    http (lookup_of e) w = (out, w1) ->
    lookup_reply out = Ok sha ->
    read_bytes (target e) = Ok content ->
    http (write_of e content sha) w1 = (out', w2) ->
    write_reply out' = Ok true ->
    turn e s w (Ok (count_uploaded (count_total (fst s)),
                    <[repo_path e := md5]> (snd s))) w2
| turn_failed md5 out sha content out' w1 w2 :
    fingerprint e = Ok md5 ->
    snd s !! repo_path e <> Some md5 ->
    dry_run cfg = false ->
    http (lookup_of e) w = (out, w1) ->
    lookup_reply out = Ok sha ->
    read_bytes (target e) = Ok content ->
    http (write_of e content sha) w1 = (out', w2) ->
    write_reply out' = Ok false ->
    turn e s w (Ok (count_failed (count_total (fst s)), snd s)) w2.
End Turn.

(** Exactly one of the three outcome counters went up by one. *)
Definition one_outcome (st st' : stats) : Prop :=
  (uploaded st' = uploaded st + 1 /\ skipped st' = skipped st /\
   failed st' = failed st) \/
  (uploaded st' = uploaded st /\ skipped st' = skipped st + 1 /\
   failed st' = failed st) \/
  (uploaded st' = uploaded st /\ skipped st' = skipped st /\
   failed st' = failed st + 1).

(** ** Kinds of request *)

(** A request that changes the remote side: a file write or the creation of
    the repository. *)
Definition mutates (rq : request) : bool :=
  match rq with
  | HttpPut _ _ | HttpPost _ _ _ _ => true
  | HttpGet _ _ => false
  end.

(** The requests of the start of a run: the check of the repository and its
    creation. *)
Definition is_preflight (rq : request) : bool :=
  match rq with
  | HttpGet _ None | HttpPost _ _ _ _ => true
  | _ => false
  end.

(** The world after [cache_file.write_text]. *)
Definition persisted `{Environment} (w : world) (c : cache) : world :=
  {| remote := remote w; cache_file := Some c; sent := sent w |}.


(** The counters after [n] more files were all skipped. *)
Definition skip_more (st : stats) (n : Z) : stats :=
  {| uploaded := uploaded st; skipped := skipped st + n; failed := failed st;
     total := total st + n |}.

(** The two requests of the start of a run. *)
Definition repo_check (cfg : config) : request :=
  HttpGet (_url ("/repos/" +:+ github_username cfg +:+ "/" +:+ repo_name cfg))
          None.

Definition repo_create (cfg : config) : request :=
  HttpPost (_url "/user/repos") (repo_name cfg) false true.

(** What the start of a run can send: nothing, the check alone, or the check
    answered with something other than 200 and then the creation. *)
Definition preflight_shape (cfg : config)
    (evs : list (request * result response)) : Prop :=
  evs = [] \/
  (exists out, evs = [(repo_check cfg, out)]) \/
  (exists r out', evs = [(repo_check cfg, Ok r); (repo_create cfg, out')] /\
                  status_code r <> 200).

(** ** Well-formed trees *)

Definition node_name (n : node) : string :=
  match n with File s _ => s | Dir d _ => d end.

(** A name without a separator character, [/] or [\]. *)
Fixpoint sep_free (s : string) : Prop :=
  match s with
  | EmptyString => True
  | String c s' => c <> "/"%char /\ c <> "\"%char /\ sep_free s'
  end.

(** The names of the entries of a directory are distinct and free of
    separators, all the way down. *)
#[warnings="-register-all"]
Inductive wf_node : node -> Prop :=
| wf_file s f : sep_free s -> wf_node (File s f)
| wf_dir d entries :
    sep_free d ->
    NoDup (map node_name entries) ->
    Forall wf_node entries ->
    wf_node (Dir d entries).

(** The scanner started at any directory [top] of the library. *)
Definition collect_from (library_path : path) (extensions : list string)
    (max_mb : Q) (keep : string -> bool) (top : path) (n : node) : list entry :=
  flat_map (fun '(root, _, files) =>
              flat_map (fun '(fname, f) =>
                          scan_file library_path extensions max_mb root fname f)
                       files)
           (os_walk keep top n).

(** ** Characters of a string *)

(** [c in s], for a character [c]. *)
Fixpoint has_char (c : ascii) (s : string) : bool :=
  match s with
  | EmptyString => false
  | String c' s' => Ascii.eqb c' c || has_char c s'
  end.
(** ** The chunks of a file *)

Section Chunks.
(** [iter(lambda: f.read(size), b"")]: the chunks that [file_md5] reads, up
    to the first empty one. *)
Equations? read_chunks (size : nat) (rest : bytes) : list bytes
  by wf (length rest) lt :=
  read_chunks size rest with inspect (read size rest) := {
    | exist _ ([], _) _ := [];
    | exist _ (c :: chunk, rest') E := (c :: chunk) :: read_chunks size rest' }.
Proof.
  unfold read in E. inversion E as [[E1 E2]].
  destruct size as [|n]; [discriminate|].
  destruct rest as [|b rest]; [discriminate|].
  rewrite length_drop. simpl. lia.
Qed.
End Chunks.
(** ** The loop as a sequence of turns *)

(** The client that [run_sync] builds from the configuration. *)
Definition api_of (cfg : config) : GitHubAPI :=
  {| username := github_username cfg; repo := repo_name cfg;
     api_branch := branch cfg |}.

Section LoopRun.
Context `{Hashlib} `{Environment}.
Variables (cfg : config) (api : GitHubAPI) (commit_msg : string).

(** [loop_run files s w res w']: the loop goes through [files] turn by turn,
    from the local variables [s] and the world [w], and stops at the first
    turn that raises. *)
Inductive loop_run
  : list entry -> stats * cache -> world -> result (stats * cache) -> world
    -> Prop :=
| loop_done s w : loop_run [] s w (Ok s) w
| loop_raised e files s w ex w1 :
    turn cfg api commit_msg e s w (Raise ex) w1 ->
    loop_run (e :: files) s w (Raise ex) w1
| loop_turn e files s w s1 w1 res w' :
    turn cfg api commit_msg e s w (Ok s1) w1 ->
    loop_run files s1 w1 res w' ->
    loop_run (e :: files) s w res w'.
End LoopRun.

(** A file has changed when the cache does not hold its fingerprint. *)
Definition changed `{Hashlib} (c : cache) (e : entry) : bool :=
  match fingerprint e with
  | Ok md5 => negb (bool_decide (c !! repo_path e = Some md5))
  | Raise _ => true
  end.

(** How many of the files have changed. *)
Definition count_changed `{Hashlib} (c : cache) (files : list entry) : Z :=
  Z.of_nat (length (List.filter (changed c) files)).
(** The service answers, and a lookup answered with 200 has a body to read
    the blob from. *)
Definition service_answers `{Environment} : Prop :=
  forall r rq, exists r' resp,
    send r rq = (r', Ok resp) /\
    (status_code resp = 200 -> exists sha, json_sha resp = Ok sha).

(** ** The configuration file

    [config.json] holds a JSON object, and a configuration is the [dict]
    read from it: keys to JSON values.  A number is a rational, as in the
    scanner.  A file that holds anything else makes [json.load] or the
    merge with the defaults raise, and is not modelled. *)

#[warnings="-register-all"]
Inductive value :=
| VNull
| VBool (b : bool)
| VNum (q : Q)
| VStr (s : string)
| VList (l : list value)
| VDict (l : list (string * value)).

Abbreviation dict := (gmap string value).

Definition DEFAULT_CONFIG : dict :=
  list_to_map
    [ ("github_token", VStr "");
      ("github_username", VStr "");
      ("repo_name", VStr "");
      ("library_path", VStr "");
      ("branch", VStr "main");
      ("commit_message", VStr "🤖 Auto-sync: {date}");
      ("extensions",
       VList (map VStr [ ".py"; ".js"; ".ts"; ".java"; ".c"; ".cpp";
                         ".go"; ".rs"; ".rb"; ".sh"; ".html"; ".css";
                         ".md"; ".json"; ".yaml"; ".yml"; ".toml";
                         ".r"; ".sql"; ".swift"; ".kt"; ".cs" ]));
      ("ignore_dirs",
       VList (map VStr [ ".git"; "__pycache__"; "node_modules"; ".venv";
                         "venv"; "env"; ".idea"; ".vscode"; "dist"; "build" ]));
      ("max_file_size_mb", VNum 10);
      ("dry_run", VBool false) ].

(** [load_config], from what [CONFIG_FILE] holds ([None]: there is no such
    file).  [{**DEFAULT_CONFIG, **saved}]: the saved keys win. *)
Definition load_config (config_json : option dict) : dict :=
  match config_json with
  | Some saved => saved ∪ DEFAULT_CONFIG
  | None => DEFAULT_CONFIG
  end.

(** The configuration file and the lines waiting on the standard input. *)
Record console := {
  config_json : option dict;
  stdin : list string
}.

(** [save_config]: the file is written over. *)
Definition save_config (cfg : dict) (c : console) : console :=
  {| config_json := Some cfg; stdin := stdin c |}.

(** *** str.strip

    A [str] is the string of its UTF-8 bytes; the characters that
    [str.strip()] removes are those of [str.isspace]. *)

Definition utf8 (codes : list nat) : string :=
  string_of_list_ascii (map ascii_of_nat codes).

Definition WHITESPACE : list string :=
  map utf8
    [ [9]; [10]; [11]; [12]; [13]; [28]; [29]; [30]; [31]; [32];
      [194; 133]; [194; 160]; [225; 154; 128];
      [226; 128; 128]; [226; 128; 129]; [226; 128; 130]; [226; 128; 131];
      [226; 128; 132]; [226; 128; 133]; [226; 128; 134]; [226; 128; 135];
      [226; 128; 136]; [226; 128; 137]; [226; 128; 138];
      [226; 128; 168]; [226; 128; 169]; [226; 128; 175];
      [226; 129; 159]; [227; 128; 128] ]%nat.

(** [s] without the prefix [p], when it starts with it. *)
Fixpoint without_prefix (p s : string) : option string :=
  match p, s with
  | EmptyString, _ => Some s
  | String a p', String b s' =>
      if Ascii.eqb a b then without_prefix p' s' else None
  | String _ _, EmptyString => None
  end.

(** [s] without the first of [seps] that it starts with. *)
Fixpoint without_first (seps : list string) (s : string) : option string :=
  match seps with
  | [] => None
  | p :: seps' =>
      match without_prefix p s with
      | Some rest => Some rest
      | None => without_first seps' s
      end
  end.

Fixpoint lstrip_from (seps : list string) (fuel : nat) (s : string) : string :=
  match fuel with
  | O => s
  | S fuel' =>
      match without_first seps s with
      | Some rest => lstrip_from seps fuel' rest
      | None => s
      end
  end.

Definition lstrip (s : string) : string :=
  lstrip_from WHITESPACE (String.length s) s.

Definition rstrip (s : string) : string :=
  String.rev (lstrip_from (map String.rev WHITESPACE) (String.length s)
                          (String.rev s)).

Definition strip (s : string) : string := rstrip (lstrip s).

(** *** run_setup *)

(** How a command of the program ends. *)
Inductive ending :=
| Done                  (* it returns *)
| EOFError              (* input() found the standard input at its end *)
| Escaped (e : exn).    (* an exception of run_sync left main *)

(** [input(..)]: the next line of the standard input, without its line
    end. *)
Definition input (c : console) : option string * console :=
  match stdin c with
  | line :: rest =>
      (Some line, {| config_json := config_json c; stdin := rest |})
  | [] => (None, c)
  end.

(** [ask(prompt, key, secret)] on the local [cfg] of [run_setup].  The
    prompt, with the current value or [set]/[not set] for a secret, is only
    printed. *)
Definition ask (key : string) (cfg : dict) (c : console)
  : option dict * console :=
  match input c with
  | (Some line, c') =>
      let val := strip line in
      (Some (if String.eqb val "" then cfg else <[key := VStr val]> cfg), c')
  | (None, c') => (None, c')
  end.

Definition run_setup (c : console) : ending * console :=
  let cfg := load_config (config_json c) in
  match ask "github_token" cfg c with
  | (None, c) => (EOFError, c)
  | (Some cfg, c) =>
  match ask "github_username" cfg c with
  | (None, c) => (EOFError, c)
  | (Some cfg, c) =>
  match ask "repo_name" cfg c with
  | (None, c) => (EOFError, c)
  | (Some cfg, c) =>
  match ask "library_path" cfg c with
  | (None, c) => (EOFError, c)
  | (Some cfg, c) =>
  match ask "branch" cfg c with
  | (None, c) => (EOFError, c)
  | (Some cfg, c) => (Done, save_config cfg c)
  end end end end end.

(** *** main *)

(** [bool(v)]. *)
Definition truth (v : value) : bool :=
  match v with
  | VNull => false
  | VBool b => b
  | VNum q => negb (Qeq_bool q 0)
  | VStr s => negb (String.eqb s "")
  | VList l => match l with [] => false | _ => true end
  | VDict l => match l with [] => false | _ => true end
  end.

Definition as_str (v : value) : option string :=
  match v with VStr s => Some s | _ => None end.

Definition as_strs (v : value) : option (list string) :=
  match v with VList l => mapM as_str l | _ => None end.

Definition as_num (v : value) : option Q :=
  match v with VNum q => Some q | _ => None end.

(** The configuration as [run_sync] reads it, for a [dict] that has the
    ten keys with values of the types of [DEFAULT_CONFIG]: strings, lists
    of strings and a number; [dry_run] is only tested, and may be any
    value.  [run_sync] is modelled on such configurations. *)
Definition read_config (d : dict) : option config :=
  token ← d !! "github_token" ≫= as_str;
  user ← d !! "github_username" ≫= as_str;
  name ← d !! "repo_name" ≫= as_str;
  lib ← d !! "library_path" ≫= as_str;
  br ← d !! "branch" ≫= as_str;
  msg ← d !! "commit_message" ≫= as_str;
  exts ← d !! "extensions" ≫= as_strs;
  ign ← d !! "ignore_dirs" ≫= as_strs;
  mx ← d !! "max_file_size_mb" ≫= as_num;
  dry ← d !! "dry_run";
  Some {| github_token := token; github_username := user; repo_name := name;
          library_path := lib; branch := br; commit_message := msg;
          extensions := exts; ignore_dirs := ign; max_file_size_mb := mx;
          dry_run := truth dry |}.

(** The command line, as [argparse] hands it over. *)
Record args := {
  arg_setup : bool;       (* --setup *)
  arg_run : bool;         (* --run *)
  arg_dry_run : bool      (* --dry-run *)
}.

(** [main], on the console and the world of [run_sync]; [None] when the
    configuration is not one that [read_config] reads. *)
Definition main `{Hashlib} `{Environment} (a : args) (c : console) (w : world)
  : option (ending * console * world) :=
  if arg_setup a then
    let '(e, c') := run_setup c in Some (e, c', w)
  else if arg_run a || arg_dry_run a then
    let cfg := load_config (config_json c) in
    let cfg := if arg_dry_run a then <["dry_run" := VBool true]> cfg else cfg in
    match read_config cfg with
    | Some conf =>
        let '(res, w') := run_sync conf w in
        Some (match res with Ok _ => Done | Raise e => Escaped e end, c, w')
    | None => None
    end
  else Some (Done, c, w).

(** ** install_scheduler.py: the cron entry

    [install_cron] reads the user's crontab with [crontab -l], drops the
    lines of earlier installs, appends the line of the agent and hands the
    result to [crontab -].  The [crontab] command is there: a missing one
    makes [subprocess.run] raise, and is not modelled. *)

(** The line boundaries of [str.splitlines], as UTF-8; [\r\n] comes before
    [\r], so that it is taken as one boundary. *)
Definition LINE_BREAKS : list string :=
  map utf8 [ [13; 10]; [13]; [10]; [11]; [12]; [28]; [29]; [30];
             [194; 133]; [226; 128; 168]; [226; 128; 169] ]%nat.

(** What follows the line boundary that [s] starts with, if it starts with
    one. *)
Definition line_break (s : string) : option string :=
  without_first LINE_BREAKS s.

(** The first line of [s], and what follows its boundary when it has one. *)
Fixpoint first_line (s : string) : string * option string :=
  match s with
  | EmptyString => (EmptyString, None)
  | String c r =>
      match line_break s with
      | Some rest => (EmptyString, Some rest)
      | None => let '(l, k) := first_line r in (String c l, k)
      end
  end.

(** [s.splitlines()]. *)
Equations? splitlines (s : string) : list string
  by wf (String.length s) lt :=
  splitlines EmptyString := [];
  splitlines (String c r) with inspect (first_line (String c r)) := {
    | exist _ (l, Some rest) _ := l :: splitlines rest;
    | exist _ (l, None) _ := [l] }.
Proof.
  clear splitlines.
  assert (Hbreak : forall s rest',
             line_break s = Some rest' ->
             (String.length rest' < String.length s)%nat).
  { intros s rest'. unfold line_break, LINE_BREAKS. cbn [map without_first].
    destruct s as [|a [|b [|d s]]]; cbn;
      repeat match goal with
             | |- context [Ascii.eqb ?x ?y] => destruct (Ascii.eqb x y)
             end;
      intros [=]; subst; cbn; lia. }
  assert (Hline : forall s l' rest',
             first_line s = (l', Some rest') ->
             (String.length rest' < String.length s)%nat).
  { induction s as [|a s IH]; intros l' rest'; [discriminate|].
    cbn [first_line]. destruct (line_break (String a s)) as [r0|] eqn:Hb.
    - intros [= <- <-]. now apply Hbreak.
    - destruct (first_line s) as [l0 k0]. intros [= <- ->].
      specialize (IH _ _ eq_refl). cbn [String.length]. lia. }
  exact (Hline _ _ _ e).
Qed.

(** The text mode of [subprocess.run] on what a command wrote: [\r\n] and
    [\r] are read as [\n]. *)
Fixpoint universal_newlines (s : string) : string :=
  match s with
  | EmptyString => EmptyString
  | String c r =>
      if Ascii.eqb c "013" then
        String "010"
          match r with
          | String d r' =>
              if Ascii.eqb d "010" then universal_newlines r'
              else universal_newlines r
          | EmptyString => EmptyString
          end
      else String c (universal_newlines r)
  end.

(** [needle in hay]. *)
Fixpoint contains (needle hay : string) : bool :=
  match without_prefix needle hay with
  | Some _ => true
  | None =>
      match hay with
      | EmptyString => false
      | String _ hay' => contains needle hay'
      end
  end.

(** A line that holds no line boundary. *)
Fixpoint no_break (s : string) : bool :=
  match s with
  | EmptyString => true
  | String c r =>
      match line_break s with
      | Some _ => false
      | None => no_break r
      end
  end.

(** Lines, each ended by [\n]. *)
Fixpoint unlines (ls : list string) : string :=
  match ls with
  | [] => EmptyString
  | l :: ls' => l +:+ String "010" (unlines ls')
  end.

(** [str(Path(here) / name)], for the directory [here] of the script:
    [str] of a path ends with a separator only for a root, and the
    current directory is left out. *)
Fixpoint ends_with_sep (s : string) : bool :=
  match s with
  | EmptyString => false
  | String c EmptyString => Ascii.eqb c "/"
  | String _ s' => ends_with_sep s'
  end.

Definition beside (here name : string) : string :=
  if String.eqb here "." then name
  else if ends_with_sep here then here +:+ name
  else here +:+ "/" +:+ name.

Section InstallCron.
(** [sys.executable], the directory of the script, and whether [crontab -]
    installs what it is handed. *)
Variables (python here : string) (accepts : string -> bool).

Definition SCRIPT : string := beside here "github_sync.py".
Definition LOG : string := beside here "sync.log".

Definition cron_line : string :=
  "0 9 * * * " +:+ python +:+ " " +:+ SCRIPT +:+ " --run >> " +:+ LOG
  +:+ " 2>&1".

Definition marker : string := "# github-sync-agent".

(** The line that [install_cron] appends. *)
Definition agent_line : string := cron_line +:+ "  " +:+ marker.

(** A line that [install_cron] takes for an earlier entry of the agent. *)
Definition stale (l : string) : bool :=
  contains marker l || contains "github_sync.py" l.

(** [crontab -l]: the return code and the output.  A user without a
    crontab gets return code 1. *)
Definition crontab_l (tab : option string) : Z * string :=
  match tab with
  | Some s => (0, s)
  | None => (1, "")
  end.

(** [crontab -] on [input]: the return code and the crontab afterwards. *)
Definition crontab_install (tab : option string) (input : string)
  : Z * option string :=
  if accepts input then (0, Some input) else (1, tab).

(** [install_cron] on the user's crontab: whether it reports success, and
    the crontab afterwards. *)
Definition install_cron (tab : option string) : bool * option string :=
  let '(returncode, stdout) := crontab_l tab in
  let current := if returncode =? 0 then universal_newlines stdout else "" in
  let lines := List.filter (fun l => negb (contains marker l)
                                     && negb (contains "github_sync.py" l))
                           (splitlines current) in
  let lines := lines ++ [agent_line] in
  let new_crontab := String.concat (String "010" EmptyString) lines
                     +:+ String "010" EmptyString in
  let '(returncode, tab') := crontab_install tab new_crontab in
  (returncode =? 0, tab').
End InstallCron.

(** The URL that a request goes to. *)
Definition url_of (rq : request) : string :=
  match rq with
  | HttpGet url _ | HttpPut url _ | HttpPost url _ _ _ => url
  end.

(** ** Where the model is the code

    [lower] is [str.lower()] on texts of ASCII characters, and [py_int] is
    [int()] on a finite float: for a [float] limit the two products by 1024
    of the scanner stay finite, and [int()] does not raise [OverflowError],
    when the limit in bytes lies within the range of floats. *)

Definition is_ascii (s : string) : bool :=
  forallb (fun c => (nat_of_ascii c <? 128)%nat) (list_ascii_of_string s).

Definition finite_limit (max_mb : Q) : Prop :=
  (- inject_Z (2 ^ 1024) < max_mb * 1024 * 1024)%Q /\
  (max_mb * 1024 * 1024 < inject_Z (2 ^ 1024))%Q.

(** ** Concrete runs

    A scripted service that gives its answers in order (and 404 when the
    script is over), a file system that holds one library, and a few
    libraries and configurations on which the model is run below. *)

Definition answer (code : Z) (sha : option string) : result response :=
  Ok {| status_code := code; json_sha := Ok sha; text := "" |}.

Definition scripted_send (script : list (result response)) (rq : request)
  : list (result response) * result response :=
  match script with
  | r :: script' => (script', r)
  | [] => ([], answer 404 None)
  end.

(** The library [tree] at the path [/srv/<name>], for any [library_path]
    that resolves to it. *)
Definition scripted_env (name : string) (tree : node) : Environment := {|
  resolve := fun s => ["srv"; s];
  fs_node := fun p => if bool_decide (p = ["srv"; name]) then Some tree else None;
  format_date := fun template => Ok template;
  b64encode := fun b => string_of_list_ascii (map ascii_of_byte b);
  Remote := list (result response);
  send := scripted_send
|}.

Definition start `{Environment} (r : Remote) (c : option cache) : world :=
  {| remote := r; cache_file := c; sent := [] |}.

Definition plain_file (content : bytes) : file :=
  {| st_size := Z.of_nat (length content);
     open_rb := Ok content; read_bytes := Ok content |}.

Definition unreadable_file (size : Z) : file :=
  {| st_size := size; open_rb := Raise OSError; read_bytes := Raise OSError |}.

Definition demo_cfg (dry : bool) : config :=
  {| github_token := "t0ken"; github_username := "octo"; repo_name := "lib";
     library_path := "code"; branch := "main"; commit_message := "sync";
     extensions := [".py"]; ignore_dirs := ["build"];
     max_file_size_mb := 10; dry_run := dry |}.

(** [a.py], [build/b.py] and [c.bin], as in the scenario of the
    specification. *)
Definition demo_tree : node :=
  Dir "code" [ File "a.py" (plain_file [x61; x62; x63]);
               Dir "build" [ File "b.py" (plain_file [x62]) ];
               File "c.bin" (plain_file [x00; x01]) ].

Definition demo_env : Environment := scripted_env "code" demo_tree.

Definition demo_api : GitHubAPI :=
  {| username := "octo"; repo := "lib"; api_branch := "main" |}.

(** A run of [run_sync] on the demo library, against a script of answers. *)
Definition demo_run (dry : bool) (script : list (result response))
    (c : option cache) : result stats * @world demo_env :=
  @run_sync toy_hashlib demo_env (demo_cfg dry) (@start demo_env script c).

(** The entry that the scanner yields for [a.py]. *)
Definition demo_entry : entry :=
  entry_of ["srv"; "code"] [] "a.py" (plain_file [x61; x62; x63]).

(** A file of 20,000,000 bytes, at the top and under [build]. *)
Definition big_file : file :=
  {| st_size := 20000000; open_rb := Ok []; read_bytes := Ok [] |}.

Definition big_tree : node :=
  Dir "code" [ Dir "build" [ File "big.py" big_file ];
               File "big.py" big_file ].

(** A file of exactly ten times 1,048,576 bytes. *)
Definition edge_file : file :=
  {| st_size := 10485760; open_rb := Ok []; read_bytes := Ok [] |}.

Definition edge_tree : node := Dir "code" [ File "edge.py" edge_file ].

(** An empty file, and a limit just below zero. *)
Definition empty_tree : node := Dir "code" [ File "empty.py" (plain_file []) ].

(** A library whose first file cannot be read. *)
Definition broken_tree : node :=
  Dir "code" [ File "x.py" (unreadable_file 3);
               File "y.py" (plain_file [x79]) ].

Definition broken_env : Environment := scripted_env "code" broken_tree.

(** A world of the library [broken_tree], field by field. *)
Definition broken_world (script : list (result response)) (c : option cache)
    (evs : list (request * result response)) : @world broken_env :=
  @Build_world broken_env script c evs.

Definition broken_start (script : list (result response)) : @world broken_env :=
  broken_world script None [].

(** A world of the demo library, field by field. *)
Definition demo_world (script : list (result response)) (c : option cache)
    (evs : list (request * result response)) : @world demo_env :=
  @Build_world demo_env script c evs.

(** One turn of the loop on [a.py], with an empty cache. *)
Definition demo_turn (script : list (result response))
  : result (stats * cache) * @world demo_env :=
  @sync_file toy_hashlib demo_env (demo_cfg false) demo_api "sync" demo_entry
             (no_stats, ∅) (demo_world script None []).

(** The write that the loop sends for [a.py], with the given token. *)
Definition demo_write (sha : option string) : request :=
  HttpPut "https://api.github.com/repos/octo/lib/contents/a.py"
          {| pl_message := "sync"; pl_content := "abc"; pl_branch := "main";
             pl_sha := sha |}.

Definition demo_lookup : request :=
  HttpGet "https://api.github.com/repos/octo/lib/contents/a.py" (Some "main").





(** A service that answers every request with 200 and the same blob. *)
Definition steady_env (name : string) (tree : node) : Environment := {|
  resolve := fun s => ["srv"; s];
  fs_node := fun p => if bool_decide (p = ["srv"; name]) then Some tree else None;
  format_date := fun template => Ok template;
  b64encode := fun b => string_of_list_ascii (map ascii_of_byte b);
  Remote := unit;
  send := fun r rq => (r, answer 200 (Some "5ha"))
|}.

(** A configuration file for the demo library, with [dry_run] off. *)
Definition demo_dict : dict :=
  list_to_map
    [ ("github_token", VStr "t0ken"); ("github_username", VStr "octo");
      ("repo_name", VStr "lib"); ("library_path", VStr "code");
      ("commit_message", VStr "sync");
      ("extensions", VList [VStr ".py"]);
      ("ignore_dirs", VList [VStr "build"]);
      ("dry_run", VBool false) ].

(** A crontab with an entry of an earlier install between two other
    lines. *)
Definition demo_crontab : list string :=
  [ "MAILTO=me"; "0 1 * * * old /x/github_sync.py"; "5 5 * * * backup" ].




(** * Properties *)

(** ** The fingerprint *)

Section FingerprintFacts.
Context `{Hashlib}.

Lemma take_nil_inv {A} (n : nat) (l : list A) :
  (0 < n)%nat -> take n l = [] -> l = [].
Proof.
  intros Hn E. destruct n as [|n]; [lia|]. now destruct l.
Qed.

(** Reading in chunks of any positive size feeds the digest the whole
    content. *)
Lemma feed_chunks_update (size : nat) (h : md5_state) (rest : bytes) :
  (0 < size)%nat -> feed_chunks size h rest = md5_update h rest.
Proof.
  intros Hsize. funelim (feed_chunks size h rest).
  - match goal with E : take _ _ = [] |- _ =>
      rewrite (take_nil_inv _ _ Hsize E) end.
    now rewrite md5_update_nil.
  - match goal with IH : _ -> feed_chunks _ _ _ = md5_update _ _ |- _ =>
      rewrite IH by assumption end.
    match goal with E : take _ _ = _ :: _ |- _ => rewrite <- E end.
    now rewrite <- md5_update_app, take_drop.
Qed.

Lemma CHUNK_pos : (0 < CHUNK)%nat.
Proof. unfold CHUNK. lia. Qed.

(** C9. The fingerprint that [file_md5] computes by reading a file in
    chunks of 64 KiB and feeding each chunk to the incremental digest is the
    digest of the whole content taken at once; it is a function of the
    bytes alone, so equal contents have equal fingerprints. *)
Theorem file_md5_whole_content (content : bytes) :
  CHUNK = Z.to_nat (64 * 1024) /\
  file_md5 (Ok content) = Ok (md5_hex content).
Proof.
  split; [reflexivity|].
  unfold file_md5, file_md5_of, md5_hex.
  now rewrite (feed_chunks_update _ _ _ CHUNK_pos).
Qed.
End FingerprintFacts.

(** ** The scanner *)

(** Induction on a tree, with the hypothesis for every entry of a directory. *)
Lemma node_nested_ind (P : node -> Prop) :
  (forall s f, P (File s f)) ->
  (forall d entries, Forall P entries -> P (Dir d entries)) ->
  forall n, P n.
Proof.
  intros HF HD. fix IH 1. intros [s f | d entries].
  - apply HF.
  - apply HD. induction entries as [|c entries IHentries].
    + constructor.
    + constructor; [apply IH | apply IHentries].
Qed.

Lemma in_dir_files (entries : list node) (s : string) (f : file) :
  In (s, f) (dir_files entries) <-> In (File s f) entries.
Proof.
  unfold dir_files. rewrite in_flat_map. split.
  - intros [[s' f' | d es] [Hin Hx]]; simpl in Hx; [|tauto].
    destruct Hx as [[= -> ->] | []]. exact Hin.
  - intros Hin. exists (File s f). split; [exact Hin | now left].
Qed.

Section WalkFacts.
Variable keep : string -> bool.

(** [os_walk] reports exactly the directories that can be reached through
    names that were kept, each with its own files. *)
Lemma os_walk_spec (n : node) :
  forall top root dirs files,
    In (root, dirs, files) (os_walk keep top n) <->
    exists ds entries,
      dir_at n ds entries /\ Forall (fun d => keep d = true) ds /\
      root = top ++ ds /\
      dirs = filter (fun d => keep d = true) (dir_names entries) /\
      files = dir_files entries.
Proof.
  induction n as [s f | d entries IH] using node_nested_ind;
    intros top root dirs files; simpl.
  - split; [tauto|]. intros (ds & es & Hat & _). inversion Hat.
  - rewrite Forall_forall in IH. split.
    + intros [[= <- <- <-] | Hin].
      * exists [], entries. rewrite app_nil_r.
        repeat split; constructor.
      * apply in_flat_map in Hin as ([s f | d' es'] & Hc & Hin);
          [destruct Hin|].
        destruct (keep d') eqn:Hkeep; [|destruct Hin].
        apply (IH _ (proj2 (list_elem_of_In _ _) Hc)) in Hin
          as (ds & found & Hat & Hkept & -> & -> & ->).
        exists (d' :: ds), found. rewrite <- app_assoc.
        repeat split; [econstructor; eassumption | now constructor].
    + intros (ds & found & Hat & Hkept & -> & -> & ->).
      inversion Hat as [| ? ? d' es' ds' ? Hc Hat']; subst.
      * left. now rewrite app_nil_r.
      * right. apply in_flat_map. exists (Dir d' es'). split; [exact Hc|].
        apply Forall_cons in Hkept as [Hd Hkept]. rewrite Hd.
        apply (IH _ (proj2 (list_elem_of_In _ _) Hc)).
        exists ds', found. rewrite <- app_assoc. now repeat split.
Qed.
End WalkFacts.

Lemma relative_to_app (base rel : path) : relative_to (base ++ rel) base = rel.
Proof. unfold relative_to. apply drop_app_length. Qed.

Lemma elem_of_ignore (ignore_dirs : list string) (d : string) :
  d ∈ ignore ignore_dirs <-> In d ignore_dirs.
Proof. unfold ignore. rewrite elem_of_list_to_set. apply list_elem_of_In. Qed.

(** What [int] does to a number that is whole, and to one that is not
    negative. *)
Lemma py_int_whole (x : Q) (z : Z) : (x == inject_Z z)%Q -> py_int x = z.
Proof.
  unfold Qeq, py_int. destruct x as [n d]. simpl. intros E.
  rewrite Z.mul_1_r in E. subst n. apply Z.quot_mul. discriminate.
Qed.

Lemma py_int_below (x : Q) (z : Z) :
  (0 <= x)%Q -> (x < inject_Z z)%Q -> py_int x < z.
Proof.
  unfold Qle, Qlt, py_int. destruct x as [n d]. simpl. intros Hpos Hlt.
  rewrite Z.mul_1_r in *. rewrite Z.quot_div_nonneg by lia.
  apply Z.div_lt_upper_bound; lia.
Qed.

Section ScannerFacts.
Variables (library_path : path) (library : node).
Variables (extensions ignore_dirs : list string) (max_mb : Q).

Let yielded : list entry :=
  collect_files library_path library extensions ignore_dirs max_mb.

Lemma scan_file_spec (ds : path) (fname : string) (f : file) (e : entry) :
  In e (scan_file library_path extensions max_mb (library_path ++ ds) fname f)
  <-> ext_rejected extensions fname = false /\
      st_size f <= max_bytes max_mb /\
      e = entry_of library_path ds fname f.
Proof.
  unfold scan_file, entry_of.
  rewrite <- app_assoc, relative_to_app.
  destruct (ext_rejected extensions fname); simpl; [intuition discriminate|].
  destruct (Z.gtb_spec (st_size f) (max_bytes max_mb)); simpl.
  - intuition lia.
  - intuition (auto; lia).
Qed.

(** The scanner yields exactly the files of the tree that lie below the
    library through directories outside the deny-list, pass the extension
    test and are not larger than [max_bytes]. *)
Lemma collect_files_spec (e : entry) :
  In e yielded <->
  exists ds fname f,
    file_at library ds fname f /\
    (forall d, In d ds -> ~ In d ignore_dirs) /\
    ext_rejected extensions fname = false /\
    st_size f <= max_bytes max_mb /\
    e = entry_of library_path ds fname f.
Proof.
  unfold yielded, collect_files. rewrite in_flat_map. split.
  - intros ([[root dirs] files] & Hwalk & Hin).
    apply os_walk_spec in Hwalk as (ds & entries & Hat & Hkept & -> & _ & ->).
    apply in_flat_map in Hin as ([fname f] & Hfile & Hin).
    apply in_dir_files in Hfile. apply scan_file_spec in Hin as (? & ? & ->).
    exists ds, fname, f. repeat split; try assumption.
    + exists entries. now split.
    + intros d Hd Hign. rewrite Forall_forall in Hkept.
      specialize (Hkept d (proj2 (list_elem_of_In _ _) Hd)).
      apply negb_true_iff, bool_decide_eq_false in Hkept.
      now apply Hkept, elem_of_ignore.
  - intros (ds & fname & f & (entries & Hat & Hfile) & Hkept & Hext & Hsize & ->).
    exists (library_path ++ ds, 
            filter (fun d => negb (bool_decide (d ∈ ignore ignore_dirs)) = true)
                   (dir_names entries),
            dir_files entries).
    split.
    + apply os_walk_spec. exists ds, entries. repeat split; try assumption.
      apply Forall_forall. intros d Hd.
      apply negb_true_iff, bool_decide_eq_false. rewrite elem_of_ignore.
      now apply Hkept, list_elem_of_In.
    + apply in_flat_map. exists (fname, f). split; [now apply in_dir_files|].
      now apply scan_file_spec.
Qed.

Lemma entry_of_abs_path_inj (ds ds' : path) (s s' : string) (f f' : file) :
  abs_path (entry_of library_path ds s f) =
    abs_path (entry_of library_path ds' s' f') ->
  ds = ds' /\ s = s'.
Proof.
  simpl. intros E. apply app_inv_head in E.
  apply app_inj_tail in E. exact E.
Qed.

(** C8. Filter exclusivity: a file that lies under a directory whose name
    is in the deny-list is never yielded, whatever its extension, and a
    file larger than the size limit is never yielded either.  The limit in
    bytes is [max_bytes], the whole part of [max_mb * 1024 * 1024]; for a
    limit that is not negative, a size exceeds it exactly when it exceeds
    [max_mb] times 1,048,576. *)
Theorem scanner_filter_exclusive (ds : path) (fname : string) (f : file) :
  file_at library ds fname f ->
  ((exists d, In d ds /\ In d ignore_dirs) ->
   forall e, In e yielded -> abs_path e <> library_path ++ ds ++ [fname]) /\
  (max_bytes max_mb < st_size f ->
   ~ In (entry_of library_path ds fname f) yielded) /\
  ((0 <= max_mb)%Q -> (max_mb * 1048576 < inject_Z (st_size f))%Q ->
   ~ In (entry_of library_path ds fname f) yielded).
Proof.
  intros _. 
  assert (Hsize : max_bytes max_mb < st_size f ->
                  ~ In (entry_of library_path ds fname f) yielded).
  { intros Hbig Hin.
    apply collect_files_spec in Hin
      as (ds' & s' & f' & _ & _ & _ & Hle & E).
    assert (f = f') as <- by exact (f_equal target E). lia. }
  split; [|split; [exact Hsize|]].
  - intros (d & Hd & Hign) e Hin Hpath.
    apply collect_files_spec in Hin
      as (ds' & s' & f' & _ & Hkept & _ & _ & ->).
    apply (entry_of_abs_path_inj ds' ds s' fname f' f) in Hpath as [-> _].
    exact (Hkept d Hd Hign).
  - intros Hpos Hbig. apply Hsize. unfold max_bytes.
    apply py_int_below.
    + apply Qmult_le_0_compat; [apply Qmult_le_0_compat|]; easy.
    + assert (E : (max_mb * 1024 * 1024 == max_mb * 1048576)%Q) by ring.
      now rewrite E.
Qed.

(** C10. The size limit is inclusive: a file that is otherwise eligible
    (reached through directories outside the deny-list, extension
    accepted) and whose size is exactly [max_mb] times 1,048,576 bytes is
    yielded; only larger files are left out. *)
Theorem scanner_size_limit_inclusive (ds : path) (fname : string) (f : file) :
  file_at library ds fname f ->
  (forall d, In d ds -> ~ In d ignore_dirs) ->
  ext_rejected extensions fname = false ->
  (inject_Z (st_size f) == max_mb * 1048576)%Q ->
  In (entry_of library_path ds fname f) yielded.
Proof.
  intros Hat Hkept Hext Hsize. apply collect_files_spec.
  exists ds, fname, f. repeat split; try assumption.
  unfold max_bytes. rewrite (py_int_whole _ (st_size f)); [lia|].
  rewrite Hsize. ring.
Qed.
End ScannerFacts.

(** ** Distinct repository paths *)

Lemma append_cons (c : ascii) (s t : string) :
  String c s +:+ t = String c (s +:+ t).
Proof. reflexivity. Qed.

Lemma append_empty_l (t : string) : "" +:+ t = t.
Proof. reflexivity. Qed.

Lemma append_empty_r (s : string) : s +:+ "" = s.
Proof.
  induction s as [|c s IH]; [reflexivity|]. now rewrite append_cons, IH.
Qed.

Lemma replace_backslash_app (a b : string) :
  replace_backslash (a +:+ b) = replace_backslash a +:+ replace_backslash b.
Proof.
  induction a as [|c a IH]; [reflexivity|].
  rewrite append_cons. cbn [replace_backslash]. now rewrite IH, append_cons.
Qed.

Lemma replace_backslash_sep_free (s : string) :
  sep_free s -> replace_backslash s = s.
Proof.
  induction s as [|c s IH]; simpl; [reflexivity|].
  intros (_ & Hc & Hs). rewrite (IH Hs).
  destruct (Ascii.eqb_spec c "\"); [contradiction | reflexivity].
Qed.

Lemma str_path_cons (x y : string) (p : path) :
  str_path (x :: y :: p) = x +:+ String "/" (str_path (y :: p)).
Proof. reflexivity. Qed.

Lemma replace_backslash_str_path (p : path) :
  Forall sep_free p -> replace_backslash (str_path p) = str_path p.
Proof.
  induction p as [|x p IH]; intros Hp; [reflexivity|].
  apply Forall_cons in Hp as [Hx Hp]. specialize (IH Hp).
  destruct p as [|y p].
  - now apply replace_backslash_sep_free.
  - rewrite str_path_cons, replace_backslash_app.
    cbn [replace_backslash]. rewrite IH.
    now rewrite (replace_backslash_sep_free x Hx).
Qed.

(** A name is told apart from what follows it at the first separator. *)
Lemma join_head (x x' r r' : string) :
  sep_free x -> sep_free x' ->
  (r = "" \/ exists t, r = String "/" t) ->
  (r' = "" \/ exists t, r' = String "/" t) ->
  x +:+ r = x' +:+ r' -> x = x' /\ r = r'.
Proof.
  revert x'. induction x as [|c x IH]; intros [|c' x'] Hx Hx' Hr Hr' E;
    rewrite ?append_cons, ?append_empty_l in E.
  - now split.
  - destruct Hx' as (Hc' & _). destruct Hr as [-> | [t ->]]; [discriminate|].
    injection E as <- _. contradiction.
  - destruct Hx as (Hc & _). destruct Hr' as [-> | [t ->]]; [discriminate|].
    injection E as -> _. contradiction.
  - injection E as <- E. destruct Hx as (_ & _ & Hx), Hx' as (_ & _ & Hx').
    destruct (IH x' Hx Hx' Hr Hr' E) as [-> ->]. now split.
Qed.

Lemma str_path_inj (p q : path) :
  Forall sep_free p -> Forall sep_free q -> p <> [] -> q <> [] ->
  str_path p = str_path q -> p = q.
Proof.
  revert q.
  induction p as [|x p IH]; intros [|y q] Hp Hq Hp0 Hq0 E; try congruence.
  apply Forall_cons in Hp as [Hx Hp]. apply Forall_cons in Hq as [Hy Hq].
  destruct p as [|x2 p], q as [|y2 q]; rewrite ?str_path_cons in E.
  - cbn in E. now subst.
  - change (str_path [x]) with x in E.
    rewrite <- (append_empty_r x) in E at 1.
    apply join_head in E as [_ E]; eauto. discriminate.
  - change (str_path [y]) with y in E.
    rewrite <- (append_empty_r y) in E at 1.
    apply join_head in E as [_ E]; eauto. discriminate.
  - apply join_head in E as [-> E]; eauto.
    injection E as E. f_equal. apply IH; auto; discriminate.
Qed.

Lemma flat_map_flat_map {A B C : Type} (f : A -> list B) (g : B -> list C)
    (l : list A) :
  flat_map g (flat_map f l) = flat_map (fun x => flat_map g (f x)) l.
Proof.
  induction l as [|x l IH]; simpl; [reflexivity|].
  now rewrite flat_map_app, IH.
Qed.

Section DistinctPaths.
Variables (library_path : path) (extensions : list string) (max_mb : Q).
Variable keep : string -> bool.

Local Abbreviation collect := (collect_from library_path extensions max_mb keep).
Local Abbreviation scan := (scan_file library_path extensions max_mb).
Local Abbreviation here top entries :=
  (flat_map (fun '(s, f) => scan top s f) (dir_files entries)).
Local Abbreviation below top entries :=
  (flat_map (fun c => match c with
                      | Dir d' _ =>
                          if keep d' then collect (top ++ [d']) c else []
                      | File _ _ => []
                      end) entries).

(** The scan of a directory: its own files, then its sub-directories. *)
Lemma collect_from_dir (top : path) (d : string) (entries : list node) :
  collect top (Dir d entries) = here top entries ++ below top entries.
Proof.
  unfold collect_from. cbn [os_walk flat_map]. f_equal.
  rewrite flat_map_flat_map. apply flat_map_ext.
  intros [s f | d' es]; [reflexivity|]. now destruct (keep d').
Qed.

Lemma scan_file_path (top : path) (s : string) (f : file) (e : entry) :
  In e (scan top s f) -> abs_path e = top ++ [s].
Proof.
  unfold scan_file. destruct (ext_rejected _ _); [intros []|].
  destruct (_ >? _); [intros []|]. now intros [<- | []].
Qed.

Lemma scan_file_NoDup (top : path) (s : string) (f : file) :
  NoDup (map abs_path (scan top s f)).
Proof.
  unfold scan_file. destruct (ext_rejected _ _); [constructor|].
  destruct (_ >? _); [constructor|]. apply NoDup_singleton.
Qed.

Lemma here_spec (top : path) (entries : list node) :
  NoDup (map node_name entries) ->
  NoDup (map abs_path (here top entries)) /\
  forall e, In e (here top entries) ->
    exists s f, In (File s f) entries /\ abs_path e = top ++ [s].
Proof.
  induction entries as [|c entries IH]; intros Hnames.
  - split; [constructor | intros e []].
  - cbn [map] in Hnames. apply NoDup_cons in Hnames as [Hfresh Hnames].
    destruct (IH Hnames) as [IHnodup IHin].
    destruct c as [s f | d' es]; cbn [dir_files flat_map app] in *.
    2: { split; [exact IHnodup|]. intros e He.
         destruct (IHin e He) as (s & f & ? & ?). exists s, f. split; auto.
         now right. }
    rewrite map_app. split.
    + apply NoDup_app. split; [apply scan_file_NoDup|]. split; [|exact IHnodup].
      intros x Hx Hx'. apply list_elem_of_In, in_map_iff in Hx as (e & <- & He).
      apply list_elem_of_In, in_map_iff in Hx' as (e' & E & He').
      apply scan_file_path in He. destruct (IHin e' He') as (s' & f' & Hin & E').
      rewrite He, E' in E. apply app_inv_head in E. injection E as ->.
      apply Hfresh, list_elem_of_In, in_map_iff. now exists (File s f').
    + intros e He. apply in_app_iff in He as [He | He].
      * exists s, f. split; [now left | now apply scan_file_path in He].
      * destruct (IHin e He) as (s' & f' & ? & ?). exists s', f'.
        split; [now right | assumption].
Qed.

(** What holds of the scan of a sub-tree started at [top]. *)
Let scan_ok (top : path) (n : node) : Prop :=
  NoDup (map abs_path (collect top n)) /\
  forall e, In e (collect top n) ->
    exists rel, abs_path e = top ++ rel /\ rel <> [] /\ Forall sep_free rel.

Lemma below_spec (top : path) (entries : list node) :
  NoDup (map node_name entries) ->
  Forall wf_node entries ->
  Forall (fun c => forall top', scan_ok top' c) entries ->
  NoDup (map abs_path (below top entries)) /\
  forall e, In e (below top entries) ->
    exists d' rel, In d' (map node_name entries) /\
                   abs_path e = top ++ d' :: rel /\ rel <> [] /\
                   Forall sep_free (d' :: rel).
Proof.
  induction entries as [|c entries IH]; intros Hnames Hwf Hok.
  - split; [constructor | intros e []].
  - cbn [map] in Hnames. apply NoDup_cons in Hnames as [Hfresh Hnames].
    apply Forall_cons in Hwf as [Hc Hwf]. apply Forall_cons in Hok as [Hokc Hok].
    destruct (IH Hnames Hwf Hok) as [IHnodup IHin].
    assert (Hrest : forall e, In e (below top entries) ->
              exists d' rel, In d' (map node_name (c :: entries)) /\
                             abs_path e = top ++ d' :: rel /\ rel <> [] /\
                             Forall sep_free (d' :: rel)).
    { intros e He. destruct (IHin e He) as (d' & rel & ? & ?).
      exists d', rel. split; [now right | assumption]. }
    destruct c as [s f | d' es]; cbn [flat_map app].
    { split; [exact IHnodup | exact Hrest]. }
    destruct (keep d'); cbn [app]; [|split; [exact IHnodup | exact Hrest]].
    destruct (Hokc (top ++ [d'])) as [Hnodup Hin].
    inversion Hc as [| ? ? Hd' _ _]; subst.
    assert (Hfirst : forall e, In e (collect (top ++ [d']) (Dir d' es)) ->
              exists rel, abs_path e = top ++ d' :: rel /\ rel <> [] /\
                          Forall sep_free (d' :: rel)).
    { intros e He. destruct (Hin e He) as (rel & E & Hne & Hrel).
      exists rel. rewrite <- app_assoc in E. repeat split; auto. }
    rewrite map_app. split.
    + apply NoDup_app. split; [exact Hnodup|]. split; [|exact IHnodup].
      intros x Hx Hx'. apply list_elem_of_In, in_map_iff in Hx as (e & <- & He).
      apply list_elem_of_In, in_map_iff in Hx' as (e' & E & He').
      destruct (Hfirst e He) as (rel & E1 & _).
      destruct (IHin e' He') as (d'' & rel' & Hd'' & E2 & _).
      rewrite E1, E2 in E. apply app_inv_head in E. injection E as -> _.
      apply Hfresh, list_elem_of_In. exact Hd''.
    + intros e He. apply in_app_iff in He as [He | He]; [|now apply Hrest].
      destruct (Hfirst e He) as (rel & ? & ? & ?).
      exists d', rel. split; [now left | auto].
Qed.

Lemma collect_from_ok (n : node) : wf_node n -> forall top, scan_ok top n.
Proof.
  induction n as [s f | d entries IH] using node_nested_ind; intros Hwf top.
  - split; [constructor | intros e []].
  - inversion Hwf as [| ? ? _ Hnames Hentries]; subst.
    assert (Hok : Forall (fun c => forall top', scan_ok top' c) entries).
    { rewrite Forall_forall in IH, Hentries |- *. intros c Hc top'.
      apply IH; [exact Hc | now apply Hentries]. }
    destruct (here_spec top entries Hnames) as [Hn1 Hin1].
    destruct (below_spec top entries Hnames Hentries Hok) as [Hn2 Hin2].
    unfold scan_ok. rewrite collect_from_dir, map_app. split.
    + apply NoDup_app. split; [exact Hn1|]. split; [|exact Hn2].
      intros x Hx Hx'. apply list_elem_of_In, in_map_iff in Hx as (e & <- & He).
      apply list_elem_of_In, in_map_iff in Hx' as (e' & E & He').
      destruct (Hin1 e He) as (s & f & _ & E1).
      destruct (Hin2 e' He') as (d' & rel & _ & E2 & Hne & _).
      rewrite E1, E2 in E. apply app_inv_head in E. injection E as _ E.
      now apply Hne.
    + intros e He. apply in_app_iff in He as [He | He].
      * destruct (Hin1 e He) as (s & f & Hin & E). exists [s].
        split; [exact E|]. split; [discriminate|].
        rewrite Forall_forall in Hentries.
        specialize (Hentries _ (proj2 (list_elem_of_In _ _) Hin)).
        inversion Hentries; subst. now repeat constructor.
      * destruct (Hin2 e He) as (d' & rel & _ & E & Hne & Hfree).
        exists (d' :: rel). split; [exact E|]. split; [discriminate | exact Hfree].
Qed.
End DistinctPaths.

(** For a well-formed library, the files that the scanner yields have
    distinct repository paths. *)
Lemma collect_files_distinct_paths (library_path : path) (library : node)
    (extensions ignore_dirs : list string) (max_mb : Q) :
  wf_node library ->
  NoDup (map repo_path
             (collect_files library_path library extensions ignore_dirs max_mb)).
Proof.
  intros Hwf.
  pose proof (collect_from_ok library_path extensions max_mb
                (fun d => negb (bool_decide (d ∈ ignore ignore_dirs)))
                library Hwf library_path) as [Hnodup Hrel].
  change (collect_from library_path extensions max_mb _ library_path library)
    with (collect_files library_path library extensions ignore_dirs max_mb)
    in Hnodup, Hrel.
  set (l := collect_files _ _ _ _ _) in *.
  assert (Hrepo : forall e, In e l ->
            exists rel, abs_path e = library_path ++ rel /\ rel <> [] /\
                        Forall sep_free rel /\ repo_path e = str_path rel).
  { intros e He. destruct (Hrel e He) as (rel & E & Hne & Hfree).
    exists rel. repeat split; try assumption.
    apply collect_files_spec in He as (ds & s & f & _ & _ & _ & _ & ->).
    simpl in E |- *. apply app_inv_head in E. rewrite E.
    now apply replace_backslash_str_path. }
  clearbody l. clear Hrel.
  induction l as [|e l IH]; [constructor|].
  cbn [map] in *. apply NoDup_cons in Hnodup as [Hfresh Hnodup].
  apply NoDup_cons. split.
  - intros Hin. apply list_elem_of_In, in_map_iff in Hin as (e' & E & He').
    destruct (Hrepo e (or_introl eq_refl)) as (rel & Ea & Hne & Hfree & Er).
    destruct (Hrepo e' (or_intror He')) as (rel' & Ea' & Hne' & Hfree' & Er').
    rewrite Er, Er' in E. apply str_path_inj in E; try assumption. subst rel'.
    apply Hfresh, list_elem_of_In, in_map_iff. exists e'. split; [congruence | exact He'].
  - apply IH; [exact Hnodup|]. intros e' He'. apply Hrepo. now right.
Qed.

Lemma scanned_distinct_paths (cfg : config) (library_path : path) (n : node) :
  wf_node n -> NoDup (map repo_path (scanned cfg library_path n)).
Proof. apply collect_files_distinct_paths. Qed.

(** ** The client *)

Section ClientFacts.
Context `{Environment}.
Variable api : GitHubAPI.

Lemma http_sent (rq : request) (w w' : world) (out : result response) :
  http rq w = (out, w') ->
  sent w' = sent w ++ [(rq, out)] /\ cache_file w' = cache_file w /\
  send (remote w) rq = (remote w', out).
Proof.
  unfold http. destruct (send (remote w) rq) as [r' out'].
  intros [= <- <-]. now repeat split.
Qed.

Lemma get_file_sha_reply (repo_path : string) (w : world) :
  get_file_sha api repo_path w =
  (lookup_reply (fst (http (HttpGet (contents_url api repo_path)
                                    (Some (api_branch api))) w)),
   snd (http (HttpGet (contents_url api repo_path)
                      (Some (api_branch api))) w)).
Proof.
  unfold get_file_sha, bind.
  destruct (http _ w) as [[r | ex] w1]; simpl; [|reflexivity].
  now destruct (status_code r =? 200).
Qed.

Lemma put_file_reply (repo_path : string) (content : bytes)
    (message : string) (sha : option string) (w : world) :
  put_file api repo_path content message sha w =
  (write_reply (fst (http (HttpPut (contents_url api repo_path)
                                   (payload api content message sha)) w)),
   snd (http (HttpPut (contents_url api repo_path)
                      (payload api content message sha)) w)).
Proof.
  unfold put_file, bind.
  now destruct (http _ w) as [[r | ex] w1].
Qed.
End ClientFacts.

(** ** The loop *)

Section LoopFacts.
Context `{Hashlib} `{Environment}.
Variables (cfg : config) (api : GitHubAPI) (commit_msg : string).

Local Abbreviation body := (sync_file cfg api commit_msg).
Local Abbreviation turn := (turn cfg api commit_msg).

(** Every run of [sync_file] is one of the turns. *)
Lemma sync_file_turn (e : entry) (s : stats * cache) (w : world)
    (res : result (stats * cache)) (w' : world) :
  body e s w = (res, w') -> turn e s w res w'.
Proof.
  unfold sync_file, bind at 1, lift at 1.
  fold (fingerprint e).
  destruct (fingerprint e) as [md5 | ex] eqn:Hmd5.
  2: { intros [= <- <-]. now apply turn_unreadable. }
  case_bool_decide as Hcache.
  { intros [= <- <-]. now apply turn_skipped with md5. }
  destruct (dry_run cfg) eqn:Hdry.
  { intros [= <- <-]. now apply turn_preview with md5. }
  unfold bind at 1. rewrite get_file_sha_reply.
  fold (lookup_of api e).
  destruct (http (lookup_of api e) w) as [out w1] eqn:Hlookup. simpl.
  destruct (lookup_reply out) as [sha | ex] eqn:Hreply.
  2: { intros [= <- <-]. now apply turn_lookup_raised with md5 out. }
  unfold bind at 1, lift at 1.
  destruct (read_bytes (target e)) as [content | ex] eqn:Hread.
  2: { intros [= <- <-]. now apply turn_read_raised with md5 out sha. }
  unfold bind at 1. rewrite put_file_reply.
  fold (write_of api commit_msg e content sha).
  destruct (http (write_of api commit_msg e content sha) w1)
    as [out' w2] eqn:Hwrite. simpl.
  destruct (write_reply out') as [[|] | ex] eqn:Hreply'; intros [= <- <-].
  - now apply turn_uploaded with out sha content out' w1.
  - now apply turn_failed with md5 out sha content out' w1.
  - now apply turn_write_raised with md5 out sha content out' w1.
Qed.

Lemma for_each_app {A S : Type} (f : A -> S -> M S) (l1 l2 : list A)
    (s : S) (w : world) :
  for_each f (l1 ++ l2) s w =
  match for_each f l1 s w with
  | (Ok s1, w1) => for_each f l2 s1 w1
  | (Raise ex, w1) => (Raise ex, w1)
  end.
Proof.
  revert s w. induction l1 as [|x l1 IH]; intros s w; simpl; [reflexivity|].
  unfold bind. destruct (f x s w) as [[s1 | ex] w1]; [apply IH | reflexivity].
Qed.

Lemma for_each_cons_inv {A S : Type} (f : A -> S -> M S) (x : A)
    (l : list A) (s s' : S) (w w' : world) :
  for_each f (x :: l) s w = (Ok s', w') ->
  exists s1 w1, f x s w = (Ok s1, w1) /\ for_each f l s1 w1 = (Ok s', w').
Proof.
  simpl. unfold bind. destruct (f x s w) as [[s1 | ex] w1]; [|discriminate].
  intros E. now exists s1, w1.
Qed.

(** *** Counters *)

Lemma turn_counts (e : entry) (s s' : stats * cache) (w w' : world) :
  turn e s w (Ok s') w' ->
  total (fst s') = total (fst s) + 1 /\ one_outcome (fst s) (fst s').
Proof.
  unfold one_outcome. inversion 1; subst; simpl; intuition lia.
Qed.

Lemma loop_counts (files : list entry) :
  forall s w s' w',
    for_each body files s w = (Ok s', w') ->
    total (fst s') = total (fst s) + Z.of_nat (length files) /\
    uploaded (fst s') + skipped (fst s') + failed (fst s') - total (fst s') =
    uploaded (fst s) + skipped (fst s) + failed (fst s) - total (fst s) /\
    failed (fst s) <= failed (fst s').
Proof.
  induction files as [|e files IH]; intros s w s' w' Hrun.
  - injection Hrun as <- <-. simpl. lia.
  - apply for_each_cons_inv in Hrun as (s1 & w1 & Hstep & Hrest).
    apply sync_file_turn, turn_counts in Hstep as [Htotal Hone].
    apply IH in Hrest as (? & ? & ?).
    unfold one_outcome in Hone. simpl length. lia.
Qed.
End LoopFacts.

(** ** A whole run *)

Section RunFacts.
Context `{Hashlib} `{Environment}.
Variable cfg : config.

Lemma reconcile_eq (commit_msg : string) (library : path) (n : node)
    (api : GitHubAPI) (w : world) :
  reconcile cfg commit_msg library n api w =
  match for_each (sync_file cfg api commit_msg) (scanned cfg library n)
                 (no_stats, default ∅ (cache_file w)) w with
  | (Ok s, w1) =>
      (Ok (fst s), if dry_run cfg then w1 else persisted w1 (snd s))
  | (Raise ex, w1) => (Raise ex, w1)
  end.
Proof.
  unfold reconcile, bind, load_cache, write_cache, ret, persisted.
  destruct (for_each _ _ _ w) as [[s | ex] w1]; [|reflexivity].
  now destruct (dry_run cfg).
Qed.

(** What the start of a run leaves behind: the cache file as it was and, on
    the wire, only requests about the repository itself. *)
Lemma preflight_sent (w w0 : world)
    (res : result (string * path * node * GitHubAPI)) :
  preflight cfg w = (res, w0) ->
  cache_file w0 = cache_file w /\
  exists evs, sent w0 = sent w ++ evs /\
              Forall (fun ev => is_preflight (fst ev) = true) evs.
Proof.
  unfold preflight, bind at 1, lift.
  destruct (format_date (commit_message cfg)) as [msg | ex].
  2: { intros [= <- <-]. split; [reflexivity|].
       exists []. now rewrite app_nil_r. }
  destruct (missing_field cfg).
  { intros [= <- <-]. split; [reflexivity|].
    exists []. now rewrite app_nil_r. }
  destruct (fs_node _) as [[s f | d es] |];
    try (intros [= <- <-]; split; [reflexivity|];
         exists []; now rewrite app_nil_r).
  unfold ensure_repo_exists, create_repo, bind, ret, raise, lift.
  destruct (http _ w) as [[r | ex] w1] eqn:Hget;
    apply http_sent in Hget as (Hs1 & Hc1 & _).
  2: { intros [= <- <-]. split; [exact Hc1|].
       eexists. split; [exact Hs1|]. now repeat constructor. }
  destruct (status_code r =? 200).
  { intros [= <- <-]. split; [exact Hc1|].
    eexists. split; [exact Hs1|]. now repeat constructor. }
  destruct (http _ w1) as [[r' | ex] w2] eqn:Hpost;
    apply http_sent in Hpost as (Hs2 & Hc2 & _);
    [destruct (status_code r' =? 201)|];
    intros [= <- <-]; (split; [congruence|]);
    eexists; (split; [rewrite Hs2, Hs1, <- app_assoc; reflexivity|]);
    now repeat constructor.
Qed.

Lemma preflight_sent_shape (w w0 : world)
    (res : result (string * path * node * GitHubAPI)) :
  preflight cfg w = (res, w0) ->
  exists evs, sent w0 = sent w ++ evs /\ preflight_shape cfg evs.
Proof.
  unfold preflight, bind at 1, lift.
  destruct (format_date (commit_message cfg)) as [msg | ex].
  2: { intros [= <- <-]. exists []. rewrite app_nil_r. split; [easy | now left]. }
  destruct (missing_field cfg).
  { intros [= <- <-]. exists []. rewrite app_nil_r. split; [easy | now left]. }
  destruct (fs_node _) as [[s f | d es] |];
    try (intros [= <- <-]; exists []; rewrite app_nil_r;
         split; [easy | now left]).
  unfold ensure_repo_exists, create_repo, bind, ret, raise, lift. simpl.
  fold (repo_check cfg). fold (repo_create cfg).
  destruct (http (repo_check cfg) w) as [[r | ex] w1] eqn:Hget;
    apply http_sent in Hget as (Hs1 & _ & _).
  2: { intros [= <- <-]. eexists. split; [exact Hs1|]. right. left. eauto. }
  destruct (Z.eqb_spec (status_code r) 200) as [Hcode | Hcode].
  { intros [= <- <-]. eexists. split; [exact Hs1|]. right. left. eauto. }
  destruct (http (repo_create cfg) w1) as [[r' | ex] w2] eqn:Hpost;
    apply http_sent in Hpost as (Hs2 & _ & _);
    [destruct (status_code r' =? 201)|];
    intros [= <- <-];
    (eexists; split; [rewrite Hs2, Hs1, <- app_assoc; reflexivity|]);
    right; right; eauto.
Qed.

Lemma preflight_ok (w w0 : world) (commit_msg : string) (library : path)
    (n : node) (api : GitHubAPI) :
  preflight cfg w = (Ok (commit_msg, library, n, api), w0) ->
  library = resolve (library_path cfg) /\ fs_node library = Some n.
Proof.
  unfold preflight, bind at 1, lift.
  destruct (format_date (commit_message cfg)) as [msg | ex]; [|discriminate].
  destruct (missing_field cfg); [discriminate|].
  destruct (fs_node _) as [[s f | d es] |] eqn:Hfs; try discriminate.
  unfold bind.
  destruct (ensure_repo_exists _ w) as [[found | ex] w1]; [|discriminate].
  destruct (_ w1) as [[[] | ex] w2]; [|discriminate].
  unfold ret. intros [= <- <- <- <- <-]. now split.
Qed.

(** A run that returns went through the start and then through the loop. *)
Lemma run_sync_returns (w w' : world) (st : stats) :
  run_sync cfg w = (Ok st, w') ->
  exists commit_msg n api w0 s w1,
    preflight cfg w =
      (Ok (commit_msg, resolve (library_path cfg), n, api), w0) /\
    fs_node (resolve (library_path cfg)) = Some n /\
    for_each (sync_file cfg api commit_msg)
             (scanned cfg (resolve (library_path cfg)) n)
             (no_stats, default ∅ (cache_file w0)) w0 = (Ok s, w1) /\
    st = fst s /\
    w' = (if dry_run cfg then w1 else persisted w1 (snd s)).
Proof.
  unfold run_sync, bind.
  destruct (preflight cfg w) as [[[[[msg lib] n] api] | ex] w0] eqn:Hpre;
    [|discriminate].
  destruct (preflight_ok _ _ _ _ _ _ Hpre) as [-> Hfs].
  rewrite reconcile_eq.
  destruct (for_each _ _ _ w0) as [[s | ex] w1] eqn:Hloop; [|discriminate].
  intros [= <- <-]. now exists msg, n, api, w0, s, w1.
Qed.

(** C1. Counter conservation: when a run returns its counters,
    [uploaded + skipped + failed = total]; [total] is the number of files
    that the scanner yielded, and every turn of the loop adds one to
    [total] and one to exactly one of the other three. *)
Theorem counter_conservation (w w' : world) (st : stats) :
  run_sync cfg w = (Ok st, w') ->
  uploaded st + skipped st + failed st = total st /\
  (exists n, fs_node (resolve (library_path cfg)) = Some n /\
     total st =
     Z.of_nat (length (scanned cfg (resolve (library_path cfg)) n))) /\
  (forall api commit_msg e s s' w1 w1',
      sync_file cfg api commit_msg e s w1 = (Ok s', w1') ->
      total (fst s') = total (fst s) + 1 /\ one_outcome (fst s) (fst s')).
Proof.
  intros Hrun.
  apply run_sync_returns in Hrun
    as (msg & n & api & w0 & s & w1 & _ & Hfs & Hloop & -> & _).
  apply loop_counts in Hloop as (Htotal & Hsum & _). simpl in *.
  split; [lia|]. split.
  - exists n. split; [exact Hfs | lia].
  - intros api' msg' e s0 s' wa wb Hstep.
    now apply sync_file_turn, turn_counts in Hstep.
Qed.
End RunFacts.

(** ** Lookup and write *)

Section LookupWriteFacts.
Context `{Hashlib} `{Environment}.
Variables (cfg : config) (api : GitHubAPI) (commit_msg : string).

(** The turn of a file that is neither unreadable, nor cached, nor
    previewed: lookup, read, write, and the outcome the write decides. *)
Lemma sync_file_attempt (e : entry) (s : stats * cache) (w w1 : world)
    (md5 : string) (out : result response) (sha : option string)
    (content : bytes) :
  fingerprint e = Ok md5 ->
  snd s !! repo_path e <> Some md5 ->
  dry_run cfg = false ->
  http (lookup_of api e) w = (out, w1) ->
  lookup_reply out = Ok sha ->
  read_bytes (target e) = Ok content ->
  sync_file cfg api commit_msg e s w =
  (match write_reply (fst (http (write_of api commit_msg e content sha) w1)) with
   | Ok true => Ok (count_uploaded (count_total (fst s)),
                    <[repo_path e := md5]> (snd s))
   | Ok false => Ok (count_failed (count_total (fst s)), snd s)
   | Raise ex => Raise ex
   end,
   snd (http (write_of api commit_msg e content sha) w1)).
Proof.
  intros Hmd5 Hcache Hdry Hlookup Hreply Hread.
  unfold sync_file, bind at 1, lift at 1. fold (fingerprint e).
  rewrite Hmd5. rewrite bool_decide_eq_false_2 by exact Hcache.
  rewrite Hdry. unfold bind at 1. rewrite get_file_sha_reply.
  fold (lookup_of api e). rewrite Hlookup. simpl. rewrite Hreply.
  unfold bind at 1, lift at 1. rewrite Hread.
  unfold bind at 1. rewrite put_file_reply.
  fold (write_of api commit_msg e content sha).
  destruct (http (write_of api commit_msg e content sha) w1) as [out' w2].
  simpl. now destruct (write_reply out') as [[|] | ex].
Qed.

Lemma payload_sha (content : bytes) (sha : option string) (t : string) :
  pl_sha (payload api content commit_msg sha) = Some t <->
  sha = Some t /\ t <> "".
Proof.
  unfold payload, truthy. simpl. destruct sha as [t' |]; [|easy].
  destruct (String.eqb_spec t' ""); simpl.
  - split; [discriminate | intros [[= ->] Hne]; contradiction].
  - split; [intros [= ->] | intros [[= ->] _]]; auto.
Qed.

(** What a turn sends: nothing; or the lookup alone, and then it raises;
    or the lookup and the write, whose reply decides the outcome. *)
Lemma turn_sent (e : entry) (s : stats * cache) (w w' : world)
    (res : result (stats * cache)) :
  turn cfg api commit_msg e s w res w' ->
  cache_file w' = cache_file w /\
  (sent w' = sent w \/
   (exists out ex,
       sent w' = sent w ++ [(lookup_of api e, out)] /\ res = Raise ex) \/
   (exists out sha content out',
       sent w' = sent w ++ [(lookup_of api e, out);
                            (write_of api commit_msg e content sha, out')] /\
       lookup_reply out = Ok sha /\
       read_bytes (target e) = Ok content /\
       dry_run cfg = false /\
       res = match write_reply out' with
             | Ok true => Ok (count_uploaded (count_total (fst s)),
                              match fingerprint e with
                              | Ok md5 => <[repo_path e := md5]> (snd s)
                              | Raise _ => snd s
                              end)
             | Ok false => Ok (count_failed (count_total (fst s)), snd s)
             | Raise ex => Raise ex
             end)).
Proof.
  intros Hturn.
  inversion Hturn as
    [ ex Hmd5 | md5 Hmd5 Hc | md5 Hmd5 Hc Hdry
    | md5 out ex w1 Hmd5 Hc Hdry Hl Hr
    | md5 out sha ex w1 Hmd5 Hc Hdry Hl Hr Hread
    | md5 out sha content out' ex w1 w2 Hmd5 Hc Hdry Hl Hr Hread Hw Hr'
    | md5 out sha content out' w1 w2 Hmd5 Hc Hdry Hl Hr Hread Hw Hr'
    | md5 out sha content out' w1 w2 Hmd5 Hc Hdry Hl Hr Hread Hw Hr' ];
    subst;
    try (apply http_sent in Hl as (Hs1 & Hc1 & _));
    try (apply http_sent in Hw as (Hs2 & Hc2 & _)).
  1-3: now split; [|left].
  1-2: split; [exact Hc1|]; right; left; now exists out, ex.
  all: split; [congruence|]; right; right;
    exists out, sha, content, out';
    rewrite Hs2, Hs1, <- app_assoc, Hr', ?Hmd5; now repeat split.
Qed.

(** C6. Token threading: whenever a turn of the loop sends a write, the
    request just before it is the lookup of the same path, and the write
    carries what that lookup returned: the very same token when it returned
    one, and no token when it returned none.  A token is a blob SHA, a
    non-empty string; [if sha:] takes an empty string, which the service
    never sends, for no token. *)
Theorem token_threading (e : entry) (s : stats * cache) (w w' : world)
    (res : result (stats * cache)) (evs : list (request * result response))
    (url : string) (pl : put_payload) (out' : result response) :
  sync_file cfg api commit_msg e s w = (res, w') ->
  sent w' = sent w ++ evs ->
  In (HttpPut url pl, out') evs ->
  exists out sha,
    evs = [(lookup_of api e, out); (HttpPut url pl, out')] /\
    url = contents_url api (repo_path e) /\
    lookup_reply out = Ok sha /\
    (sha <> Some "" -> pl_sha pl = sha) /\
    (sha = Some "" -> pl_sha pl = None).
Proof.
  intros Hstep Hsent Hin.
  apply sync_file_turn, turn_sent in Hstep
    as [_ [Hs | [(out & ex & Hs & _) | (out & sha & content & o & Hs & Hr & _)]]];
    rewrite Hs in Hsent.
  - rewrite <- (app_nil_r (sent w)) in Hsent at 1.
    apply app_inv_head in Hsent as <-. destruct Hin.
  - apply app_inv_head in Hsent as <-. now destruct Hin as [[=] | []].
  - apply app_inv_head in Hsent as <-.
    destruct Hin as [[=] | [[= <- <- <-] | []]].
    exists out, sha.
    split; [reflexivity|]. split; [reflexivity|]. split; [exact Hr|].
    split.
    + intros Hne. destruct sha as [t |]; [|reflexivity].
      apply payload_sha. split; [reflexivity | congruence].
    + now intros ->.
Qed.
End LookupWriteFacts.

(** ** The lookup and responses other than 200 *)

Section LookupFacts.
Context `{Hashlib} `{Environment}.
Variables (cfg : config) (api : GitHubAPI) (commit_msg : string).

(** C7, as the code has it.  The lookup returns the ["sha"] of the body on
    a 200 response and no token on every other response, not-found or
    not: no response makes the lookup fail.  After a response other than
    200 the turn goes on as for a file that does not exist remotely: it
    reads the file and sends the write without a token. *)
Theorem lookup_soft_on_every_status (e : entry) (s : stats * cache)
    (w w1 : world) (r : response) :
  http (lookup_of api e) w = (Ok r, w1) ->
  (status_code r = 200 ->
   get_file_sha api (repo_path e) w = (json_sha r, w1)) /\
  (status_code r <> 200 ->
   get_file_sha api (repo_path e) w = (Ok None, w1) /\
   forall md5 content,
     fingerprint e = Ok md5 ->
     snd s !! repo_path e <> Some md5 ->
     dry_run cfg = false ->
     read_bytes (target e) = Ok content ->
     exists out',
       sent (snd (sync_file cfg api commit_msg e s w)) =
       sent w ++ [(lookup_of api e, Ok r);
                  (write_of api commit_msg e content None, out')]).
Proof.
  intros Hlookup.
  assert (Hget : get_file_sha api (repo_path e) w
                 = (lookup_reply (Ok r), w1)).
  { rewrite get_file_sha_reply. fold (lookup_of api e). now rewrite Hlookup. }
  split; intros Hcode.
  - rewrite Hget. simpl. now rewrite Hcode, Z.eqb_refl.
  - assert (Hreply : lookup_reply (Ok r) = Ok None).
    { simpl. now rewrite (proj2 (Z.eqb_neq _ _) Hcode). }
    split; [now rewrite Hget, Hreply|].
    intros md5 content Hmd5 Hcache Hdry Hread.
    rewrite (sync_file_attempt cfg api commit_msg e s w w1 md5 (Ok r) None content)
      by assumption.
    simpl. destruct (http (write_of api commit_msg e content None) w1)
      as [out' w2] eqn:Hwrite. simpl.
    exists out'. apply http_sent in Hwrite as (-> & _).
    apply http_sent in Hlookup as (-> & _). now rewrite <- app_assoc.
Qed.
End LookupFacts.

(** ** The cache along the loop *)

Section CacheFacts.
Context `{Hashlib} `{Environment}.
Variables (cfg : config) (api : GitHubAPI) (commit_msg : string).

Local Abbreviation body := (sync_file cfg api commit_msg).
Local Abbreviation turn := (turn cfg api commit_msg).

(** A turn leaves the entries of all other paths alone. *)
Lemma turn_cache_other (e : entry) (s s' : stats * cache) (w w' : world)
    (p : string) :
  turn e s w (Ok s') w' -> p <> repo_path e -> snd s' !! p = snd s !! p.
Proof.
  inversion 1; subst; simpl; intros Hp; try reflexivity.
  now rewrite lookup_insert_ne.
Qed.

Lemma loop_cache_other (files : list entry) (p : string) :
  ~ In p (map repo_path files) ->
  forall s w s' w',
    for_each body files s w = (Ok s', w') -> snd s' !! p = snd s !! p.
Proof.
  induction files as [|e files IH]; intros Hp s w s' w' Hrun.
  - now injection Hrun as <- <-.
  - apply for_each_cons_inv in Hrun as (s1 & w1 & Hstep & Hrest).
    assert (Hhead : p <> repo_path e) by (intros ->; apply Hp; now left).
    assert (Htail : ~ In p (map repo_path files))
      by (intros Hin; apply Hp; now right).
    rewrite (IH Htail _ _ _ _ Hrest).
    apply sync_file_turn in Hstep.
    exact (turn_cache_other _ _ _ _ _ _ Hstep Hhead).
Qed.

(** The loop never touches the cache file. *)
Lemma loop_cache_file (files : list entry) :
  forall s w res w',
    for_each body files s w = (res, w') -> cache_file w' = cache_file w.
Proof.
  induction files as [|e files IH]; intros s w res w'; simpl.
  - now intros [= <- <-].
  - unfold bind. destruct (body e s w) as [[s1 | ex] w1] eqn:Hstep;
      apply sync_file_turn, turn_sent in Hstep as [Hc _].
    + intros Hrest. apply IH in Hrest. congruence.
    + now intros [= <- <-].
Qed.


(** A turn on a file whose fingerprint is in the cache is a skip. *)
Lemma sync_file_skip (e : entry) (st : stats) (c : cache) (w : world)
    (md5 : string) :
  fingerprint e = Ok md5 -> c !! repo_path e = Some md5 ->
  body e (st, c) w = (Ok (count_skipped (count_total st), c), w).
Proof.
  intros Hmd5 Hc. unfold sync_file, bind, lift. fold (fingerprint e).
  rewrite Hmd5. simpl. now rewrite bool_decide_eq_true_2.
Qed.


Lemma skip_more_succ (st : stats) (n : nat) :
  skip_more (count_skipped (count_total st)) (Z.of_nat n) =
  skip_more st (Z.of_nat (S n)).
Proof. unfold skip_more. simpl. f_equal; lia. Qed.

(** When every file has its fingerprint in the cache, the loop skips them
    all and changes nothing. *)
Lemma loop_all_skipped (files : list entry) (c : cache) :
  (forall e, In e files ->
     exists md5, fingerprint e = Ok md5 /\ c !! repo_path e = Some md5) ->
  forall st w,
    for_each body files (st, c) w =
    (Ok (skip_more st (Z.of_nat (length files)), c), w).
Proof.
  induction files as [|e files IH]; intros Hall st w.
  - simpl. unfold ret, skip_more. destruct st. simpl.
    now rewrite !Z.add_0_r.
  - destruct (Hall e (or_introl eq_refl)) as (md5 & Hmd5 & Hc).
    cbn [for_each]. unfold bind. rewrite (sync_file_skip _ _ _ _ _ Hmd5 Hc).
    rewrite IH by (intros; apply Hall; now right).
    now rewrite skip_more_succ.
Qed.

(** After a loop without failures, outside a dry run, over files with
    distinct repository paths, every file has its fingerprint in the
    cache. *)
Lemma loop_all_cached (files : list entry) :
  NoDup (map repo_path files) -> dry_run cfg = false ->
  forall s w s' w',
    for_each body files s w = (Ok s', w') ->
    failed (fst s') = failed (fst s) ->
    forall e, In e files ->
      exists md5, fingerprint e = Ok md5 /\ snd s' !! repo_path e = Some md5.
Proof.
  intros Hnodup Hdry.
  induction files as [|e0 files IH]; intros s w s' w' Hrun Hfailed e Hin;
    [destruct Hin|].
  apply for_each_cons_inv in Hrun as (s1 & w1 & Hstep & Hrest).
  apply sync_file_turn in Hstep.
  pose proof (turn_counts _ _ _ _ _ _ _ _ Hstep) as [_ Hone].
  pose proof (loop_counts _ _ _ _ _ _ _ _ Hrest) as (_ & _ & Hmono).
  simpl in Hnodup. apply NoDup_cons in Hnodup as [Hfresh Hnodup].
  rewrite list_elem_of_In in Hfresh.
  destruct Hin as [<- | Hin].
  - rewrite (loop_cache_other _ _ Hfresh _ _ _ _ Hrest).
    unfold one_outcome in Hone.
    inversion Hstep; subst; simpl in *; try congruence; try lia.
    + now exists md5.
    + exists md5. now rewrite lookup_insert_eq.
  - apply (IH Hnodup _ _ _ _ Hrest); [|exact Hin].
    unfold one_outcome in Hone. lia.
Qed.
(** The loop returns whenever nothing around it fails: every file can be
    read, and the service answers every request with a body that can be
    parsed.  Only the environment can make a run raise. *)
Lemma loop_returns (files : list entry) :
  (forall e, In e files ->
     (exists c, open_rb (target e) = Ok c) /\
     (exists c, read_bytes (target e) = Ok c)) ->
  (forall r rq, exists r' resp sha,
     send r rq = (r', Ok resp) /\ json_sha resp = Ok sha) ->
  forall s w, exists s' w', for_each body files s w = (Ok s', w').
Proof.
  intros Hfiles Hsend.
  assert (Hreply : forall rq w out w1,
             http rq w = (out, w1) ->
             exists resp sha, out = Ok resp /\ json_sha resp = Ok sha).
  { intros rq w out w1 Hh. apply http_sent in Hh as (_ & _ & Hh).
    destruct (Hsend (remote w) rq) as (r' & resp & sha & E & Hsha).
    exists resp, sha. split; [congruence | exact Hsha]. }
  induction files as [|e files IH]; intros s w.
  - now exists s, w.
  - destruct (Hfiles e (or_introl eq_refl)) as [[c Hopen] [c' Hread]].
    destruct (body e s w) as [res w1] eqn:Hstep.
    assert (Hok : exists s1, res = Ok s1).
    { apply sync_file_turn in Hstep.
      inversion Hstep; subst; eauto;
        repeat match goal with
               | Hh : http _ _ = (?o, _) |- _ =>
                   apply Hreply in Hh as (? & ? & -> & ?)
               end;
        unfold fingerprint, file_md5 in *;
        repeat match goal with
               | Hx : context [open_rb (target e)] |- _ =>
                   rewrite Hopen in Hx
               end;
        simpl in *; try congruence.
      match goal with
      | Hl : (if ?b then _ else _) = Raise _ |- _ => destruct b; congruence
      end. }
    destruct Hok as [s1 ->].
    destruct (IH (fun e' He' => Hfiles e' (or_intror He')) s1 w1)
      as (s' & w' & Hrest).
    exists s', w'. cbn [for_each]. unfold bind. now rewrite Hstep.
Qed.
End CacheFacts.

(** ** Dry runs, read errors, failed writes and second runs *)

Section RunProperties.
Context `{Hashlib} `{Environment}.
Variable cfg : config.

Lemma run_sync_eq (w : world) :
  run_sync cfg w =
  match preflight cfg w with
  | (Ok (commit_msg, library, n, api), w0) =>
      reconcile cfg commit_msg library n api w0
  | (Raise ex, w0) => (Raise ex, w0)
  end.
Proof.
  unfold run_sync, bind.
  now destruct (preflight cfg w) as [[[[[msg lib] n] api] | ex] w0].
Qed.

(** In a dry run the loop sends nothing. *)
Lemma dry_loop_pure (api : GitHubAPI) (commit_msg : string)
    (files : list entry) :
  dry_run cfg = true ->
  forall s w res w',
    for_each (sync_file cfg api commit_msg) files s w = (res, w') -> w' = w.
Proof.
  intros Hdry. induction files as [|e files IH]; intros s w res w'; simpl.
  - now intros [= <- <-].
  - unfold bind.
    destruct (sync_file cfg api commit_msg e s w) as [[s1 | ex] w1] eqn:Hstep;
      apply sync_file_turn in Hstep;
      assert (w1 = w) as -> by (inversion Hstep; subst; congruence).
    + apply IH.
    + now intros [= <- <-].
Qed.

(** C2, as the code has it.  With [dry_run] set, a run leaves the cache
    file alone and sends no file write and no lookup: whatever it sends
    belongs to the start of the run, the check of the repository and, when
    that check fails, the request that creates the repository. *)
Theorem dry_run_writes_no_file (w w' : world) (res : result stats) :
  dry_run cfg = true ->
  run_sync cfg w = (res, w') ->
  cache_file w' = cache_file w /\
  exists evs,
    sent w' = sent w ++ evs /\
    preflight_shape cfg evs /\
    (forall url pl out, ~ In (HttpPut url pl, out) evs) /\
    (forall url ref out, ~ In (HttpGet url (Some ref), out) evs).
Proof.
  intros Hdry. rewrite run_sync_eq.
  destruct (preflight cfg w) as [pre w0] eqn:Hpre.
  destruct (preflight_sent cfg _ _ _ Hpre) as (Hc & evs & Hs & Hall).
  destruct (preflight_sent_shape cfg _ _ _ Hpre) as (evs' & Hs' & Hshape).
  assert (evs' = evs) as -> by (apply (app_inv_head (sent w)); congruence).
  assert (Hnone : (forall url pl out, ~ In (HttpPut url pl, out) evs) /\
                  (forall url ref out, ~ In (HttpGet url (Some ref), out) evs)).
  { rewrite Forall_forall in Hall. split; intros; intros Hin;
      apply list_elem_of_In, Hall in Hin; discriminate. }
  destruct pre as [[[[msg lib] n] api] | ex].
  - rewrite reconcile_eq, Hdry.
    destruct (for_each _ _ _ w0) as [[s | ex] w1] eqn:Hloop;
      apply (dry_loop_pure _ _ _ Hdry) in Hloop as ->;
      intros [= <- <-]; (split; [exact Hc|]); now exists evs.
  - intros [= <- <-]. split; [exact Hc|]. now exists evs.
Qed.

(** C3, as the code has it.  A read error on a file is not caught: when
    the loop comes to a file whose fingerprint cannot be read, or whose
    bytes cannot be read for the upload, the error leaves [run_sync].  The
    run returns no counters, the files after it are not visited and the
    cache file stays as it was before the run. *)
Theorem read_error_aborts_run (w w0 w1 : world) (commit_msg : string)
    (library : path) (n : node) (api : GitHubAPI)
    (before after : list entry) (e : entry) (s : stats * cache) (ex : exn) :
  preflight cfg w = (Ok (commit_msg, library, n, api), w0) ->
  scanned cfg library n = before ++ e :: after ->
  for_each (sync_file cfg api commit_msg) before
           (no_stats, default ∅ (cache_file w0)) w0 = (Ok s, w1) ->
  (open_rb (target e) = Raise ex ->
   run_sync cfg w = (Raise ex, w1) /\ cache_file w1 = cache_file w) /\
  (forall md5 out sha w2,
      fingerprint e = Ok md5 ->
      snd s !! repo_path e <> Some md5 ->
      dry_run cfg = false ->
      http (lookup_of api e) w1 = (out, w2) ->
      lookup_reply out = Ok sha ->
      read_bytes (target e) = Raise ex ->
      run_sync cfg w = (Raise ex, w2) /\ cache_file w2 = cache_file w /\
      sent w2 = sent w1 ++ [(lookup_of api e, out)]).
Proof.
  intros Hpre Hscan Hbefore.
  destruct (preflight_sent cfg _ _ _ Hpre) as (Hc0 & _).
  pose proof (loop_cache_file _ _ _ _ _ _ _ _ Hbefore) as Hc1.
  assert (Hrun : forall w2,
             sync_file cfg api commit_msg e s w1 = (Raise ex, w2) ->
             run_sync cfg w = (Raise ex, w2)).
  { intros w2 Hstep.
    rewrite run_sync_eq, Hpre, reconcile_eq, Hscan, for_each_app, Hbefore.
    cbn [for_each]. unfold bind at 1. now rewrite Hstep. }
  split.
  - intros Hopen. split; [|congruence]. apply Hrun.
    unfold sync_file, bind, lift. now rewrite Hopen.
  - intros md5 out sha w2 Hmd5 Hmiss Hdry Hlookup Hreply Hread.
    pose proof (http_sent _ _ _ _ Hlookup) as (Hs2 & Hc2 & _).
    split; [|split; [congruence | exact Hs2]]. apply Hrun.
    unfold sync_file, bind at 1, lift at 1. fold (fingerprint e).
    rewrite Hmd5, (bool_decide_eq_false_2 _ Hmiss), Hdry.
    unfold bind at 1. rewrite get_file_sha_reply. fold (lookup_of api e).
    rewrite Hlookup. simpl. rewrite Hreply.
    unfold bind, lift. now rewrite Hread.
Qed.
End RunProperties.

Section Retry.
Context `{Hashlib} `{Environment}.
Variables (cfg : config) (commit_msg : string) (library : path) (n : node)
          (api : GitHubAPI).

Local Abbreviation body := (sync_file cfg api commit_msg).


End Retry.

Section SecondRun.
Context `{Hashlib} `{Environment}.
Variable cfg : config.

(** C5, as the code has it.  Idempotence holds after a run without
    failures: if a run outside dry-run mode returns with [failed = 0], over
    files with distinct repository paths, then a second run on the same
    files, starting from the cache file the first one wrote, sends no
    lookup and no write, and when it returns it has counted every file as
    skipped. *)
Theorem second_run_skips_all (w w1 w' w1' : world) (st1 : stats)
    (res : result stats) :
  dry_run cfg = false ->
  (forall n, fs_node (resolve (library_path cfg)) = Some n ->
     NoDup (map repo_path (scanned cfg (resolve (library_path cfg)) n))) ->
  run_sync cfg w = (Ok st1, w1) ->
  failed st1 = 0 ->
  cache_file w' = cache_file w1 ->
  run_sync cfg w' = (res, w1') ->
  (exists evs,
      sent w1' = sent w' ++ evs /\
      Forall (fun ev => is_preflight (fst ev) = true) evs /\
      (forall url pl out, ~ In (HttpPut url pl, out) evs) /\
      (forall url ref out, ~ In (HttpGet url (Some ref), out) evs)) /\
  (forall st2, res = Ok st2 ->
     uploaded st2 = 0 /\ failed st2 = 0 /\
     skipped st2 = total st2 /\ total st2 = total st1).
Proof.
  intros Hdry Hnodup Hrun1 Hfailed Hfile.
  apply run_sync_returns in Hrun1
    as (msg & n & api & w0 & s & wl & _ & Hfs & Hloop & -> & ->).
  rewrite Hdry in Hfile. simpl in Hfile.
  pose proof (loop_all_cached cfg api msg _ (Hnodup n Hfs) Hdry _ _ _ _ Hloop
                Hfailed) as Hcached.
  pose proof (loop_counts _ _ _ _ _ _ _ _ Hloop) as (Htotal & _ & _).
  rewrite run_sync_eq.
  destruct (preflight cfg w') as [pre w0'] eqn:Hpre.
  destruct (preflight_sent cfg _ _ _ Hpre) as (Hc & evs & Hs & Hall).
  assert (Hnone : (forall url pl out, ~ In (HttpPut url pl, out) evs) /\
                  (forall url ref out, ~ In (HttpGet url (Some ref), out) evs)).
  { rewrite Forall_forall in Hall. split; intros; intros Hin;
      apply list_elem_of_In, Hall in Hin; discriminate. }
  destruct pre as [[[[msg' lib'] n'] api'] | ex].
  - destruct (preflight_ok cfg _ _ _ _ _ _ Hpre) as [-> Hfs'].
    assert (n' = n) as -> by congruence.
    rewrite reconcile_eq, Hc, Hfile. simpl default.
    rewrite (loop_all_skipped cfg api' msg' _ _ Hcached), Hdry.
    intros [= <- <-]. split; [now exists evs|].
    intros st2 [= <-]. simpl in *. lia.
  - intros [= <- <-]. split; [now exists evs|]. discriminate.
Qed.
End SecondRun.

(** ** More on the scanner *)

Lemma replace_backslash_clean (s : string) :
  has_char "\" (replace_backslash s) = false.
Proof.
  induction s as [|c s IH]; [reflexivity|]. cbn [replace_backslash has_char].
  rewrite IH, orb_false_r. destruct (Ascii.eqb_spec c "\"); [reflexivity|].
  now apply Ascii.eqb_neq.
Qed.

Lemma replace_backslash_id (s : string) :
  has_char "\" s = false -> replace_backslash s = s.
Proof.
  induction s as [|c s IH]; [reflexivity|]. cbn [replace_backslash has_char].
  intros Hc. apply orb_false_iff in Hc as [Hc Hs].
  now rewrite Hc, (IH Hs).
Qed.

Lemma has_char_app (c : ascii) (a b : string) :
  has_char c (a +:+ b) = has_char c a || has_char c b.
Proof.
  induction a as [|x a IH]; [reflexivity|].
  rewrite append_cons. cbn [has_char]. now rewrite IH, orb_assoc.
Qed.

Lemma has_char_str_path (p : path) :
  Forall (fun s => has_char "\" s = false) p ->
  has_char "\" (str_path p) = false.
Proof.
  induction p as [|x p IH]; intros Hp; [reflexivity|].
  apply Forall_cons in Hp as [Hx Hp]. specialize (IH Hp).
  destruct p as [|y p]; [exact Hx|].
  rewrite str_path_cons, has_char_app, Hx. cbn [has_char orb].
  rewrite IH. reflexivity.
Qed.

(** X1. The repository path of a yielded file never holds a backslash: it
    is the path below the library, joined with [/] and with every backslash
    turned into [/]; when no name on the way holds a backslash it is just
    the names joined with [/]. *)
Theorem repo_path_forward_slashes (library_path : path) (library : node)
    (extensions ignore_dirs : list string) (max_mb : Q) (e : entry) :
  In e (collect_files library_path library extensions ignore_dirs max_mb) ->
  has_char "\" (repo_path e) = false /\
  exists rel,
    abs_path e = library_path ++ rel /\ rel <> [] /\
    repo_path e = replace_backslash (str_path rel) /\
    (Forall (fun s => has_char "\" s = false) rel ->
     repo_path e = str_path rel).
Proof.
  intros He.
  apply collect_files_spec in He as (ds & s & f & _ & _ & _ & _ & ->).
  cbn [repo_path abs_path entry_of]. split; [apply replace_backslash_clean|].
  exists (ds ++ [s]). split; [reflexivity|]. split.
  - intros E. now apply app_eq_nil in E as [_ [=]].
  - split; [reflexivity|]. intros Hclean.
    now apply replace_backslash_id, has_char_str_path.
Qed.

(** The extension test: an empty allow-list lets every name through, and
    otherwise the suffix of the name has to be on the list, letter case
    aside on both sides. *)
Lemma ext_rejected_false (extensions : list string) (fname : string) :
  ext_rejected extensions fname = false <->
  extensions = [] \/
  exists x, In x extensions /\ lower x = lower (suffix fname).
Proof.
  unfold ext_rejected, exts. destruct extensions as [|x0 xs].
  - split; [now left | reflexivity].
  - rewrite negb_false_iff, bool_decide_eq_true, elem_of_list_to_set.
    rewrite list_elem_of_In, in_map_iff. split.
    + intros (x & E & Hx). right. now exists x.
    + intros [[=] | (x & Hx & E)]. now exists x.
Qed.

(** X2. What the scanner yields, exactly.  Every entry it yields is that of
    a file below the library.  And for extensions and a file suffix of
    ASCII characters and a limit within the range of floats, the entry of a
    file is yielded if and only if no directory on the way to it is in the
    deny-list, its suffix is on the allow-list (letter case aside; every
    file when the list is empty) and its size is at most [max_bytes]. *)
Theorem scanner_yields_exactly (library_path : path) (library : node)
    (extensions ignore_dirs : list string) (max_mb : Q) :
  Forall (fun x => is_ascii x = true) extensions ->
  finite_limit max_mb ->
  (forall e,
      In e (collect_files library_path library extensions ignore_dirs max_mb) ->
      exists ds fname f,
        file_at library ds fname f /\ e = entry_of library_path ds fname f) /\
  (forall ds fname f,
      file_at library ds fname f ->
      is_ascii (suffix fname) = true ->
      In (entry_of library_path ds fname f)
         (collect_files library_path library extensions ignore_dirs max_mb) <->
      (forall d, In d ds -> ~ In d ignore_dirs) /\
      (extensions = [] \/
       exists x, In x extensions /\ lower x = lower (suffix fname)) /\
      st_size f <= py_int (max_mb * 1024 * 1024)%Q).
Proof.
  intros _ _. split.
  - intros e He.
    apply collect_files_spec in He as (ds & s & f & Hat & _ & _ & _ & ->).
    now exists ds, s, f.
  - intros ds fname f Hat _. rewrite collect_files_spec. split.
    + intros (ds' & s' & f' & _ & Hkept & Hext & Hsize & E).
      assert (Hf : f = f') by exact (f_equal target E).
      apply (f_equal abs_path), entry_of_abs_path_inj in E as [-> ->].
      subst f'. apply ext_rejected_false in Hext. now repeat split.
    + intros (Hkept & Hext & Hsize). exists ds, fname, f.
      apply ext_rejected_false in Hext. now repeat split.
Qed.

Lemma py_int_mono (x y : Q) : (x <= y)%Q -> py_int x <= py_int y.
Proof.
  unfold Qle, py_int. destruct x as [a d], y as [b d']. simpl. intros Hle.
  rewrite <- (Z.quot_mul_cancel_r a (Zpos d) (Zpos d')) by discriminate.
  rewrite <- (Z.quot_mul_cancel_r b (Zpos d') (Zpos d)) by discriminate.
  rewrite (Z.mul_comm (Zpos d') (Zpos d)).
  apply Z.quot_le_mono; lia.
Qed.

(** X3. Tightening the filters never adds a file: for limits within the
    range of floats, whatever is yielded with a longer deny-list and a lower
    size limit is also yielded with the shorter list and the higher
    limit. *)
Theorem scanner_filters_monotone (library_path : path) (library : node)
    (extensions ignore_dirs ignore_dirs' : list string) (max_mb max_mb' : Q)
    (e : entry) :
  finite_limit max_mb -> finite_limit max_mb' ->
  (forall d, In d ignore_dirs -> In d ignore_dirs') ->
  (max_mb' <= max_mb)%Q ->
  In e (collect_files library_path library extensions ignore_dirs' max_mb') ->
  In e (collect_files library_path library extensions ignore_dirs max_mb).
Proof.
  intros _ _ Hign Hmax He.
  apply collect_files_spec in He as (ds & s & f & Hat & Hkept & Hext & Hsize & ->).
  apply collect_files_spec. exists ds, s, f. repeat split; try assumption.
  - intros d Hd Hin. exact (Hkept d Hd (Hign d Hin)).
  - unfold max_bytes in *.
    assert (py_int (max_mb' * 1024 * 1024) <= py_int (max_mb * 1024 * 1024)).
    { apply py_int_mono. repeat apply Qmult_le_compat_r; easy. }
    lia.
Qed.
(** ** The chunks of the fingerprint *)

Lemma read_chunks_end (size : nat) (rest : bytes) :
  take size rest = [] -> read_chunks size rest = [].
Proof.
  intros E. funelim (read_chunks size rest); [reflexivity | congruence].
Qed.

Lemma read_chunks_more (size : nat) (rest chunk : bytes) :
  take size rest = chunk -> chunk <> [] ->
  read_chunks size rest = chunk :: read_chunks size (drop size rest).
Proof.
  intros E Hne. funelim (read_chunks size rest); [congruence|].
  match goal with E' : take _ _ = _ :: _ |- _ => now rewrite <- E' end.
Qed.

Section ChunkFacts.
Context `{Hashlib}.

Lemma feed_chunks_fold (size : nat) (h : md5_state) (rest : bytes) :
  feed_chunks size h rest = fold_left md5_update (read_chunks size rest) h.
Proof.
  funelim (feed_chunks size h rest).
  - match goal with E : take _ _ = [] |- _ =>
      now rewrite (read_chunks_end _ _ E) end.
  - match goal with E : take _ _ = _ :: _ |- _ =>
      rewrite (read_chunks_more _ _ _ E) by discriminate end.
    assumption.
Qed.
End ChunkFacts.

Lemma read_chunks_spec (size : nat) (rest : bytes) :
  (0 < size)%nat ->
  concat (read_chunks size rest) = rest /\
  Forall (fun c => (0 < length c <= size)%nat) (read_chunks size rest) /\
  length (read_chunks size rest) = ((length rest + size - 1) / size)%nat.
Proof.
  intros Hsize. funelim (read_chunks size rest).
  - match goal with E : take _ _ = [] |- _ =>
      rewrite (take_nil_inv _ _ Hsize E) end.
    split; [reflexivity|]. split; [constructor|]. simpl.
    symmetry. apply Nat.div_small. lia.
  - match goal with IH : _ -> _ /\ _ /\ _ |- _ =>
      destruct (IH Hsize) as (IHcat & IHall & IHlen) end.
    match goal with E : take _ _ = _ :: _ |- _ => rename E into Etake end.
    assert (Hlen : length (c :: chunk) = Nat.min size (length rest))
      by (rewrite <- Etake; apply length_take).
    split; [|split].
    + cbn [concat]. rewrite IHcat, <- Etake. apply take_drop.
    + constructor; [|exact IHall]. rewrite Hlen. simpl in Hlen. lia.
    + cbn [length] in *. rewrite IHlen, length_drop.
      destruct (Nat.le_gt_cases size (length rest)) as [Hge | Hlt].
      * replace (length rest + size - 1)%nat
          with ((length rest - size + size - 1) + 1 * size)%nat by lia.
        rewrite Nat.div_add by lia. lia.
      * replace (length rest - size)%nat with 0%nat by lia.
        rewrite (Nat.div_small (0 + size - 1)) by lia.
        assert ((length rest + size - 1) / size = 1)%nat; [|lia].
        symmetry. apply Nat.div_unique with (length rest - 1)%nat; lia.
Qed.

(** X11. [file_md5] goes through a file of [n] bytes in ⌈n / 65536⌉
    chunks, each fed to the digest in turn: no chunk is empty, none holds
    more than 65536 bytes, and put together they are the content.  For an
    empty file the digest is never updated. *)
Theorem file_md5_reads_bounded_chunks `{Hashlib} (content : bytes) :
  file_md5_of content =
    md5_hexdigest (fold_left md5_update (read_chunks CHUNK content) md5_new) /\
  concat (read_chunks CHUNK content) = content /\
  Forall (fun c => (0 < length c <= CHUNK)%nat) (read_chunks CHUNK content) /\
  length (read_chunks CHUNK content)
    = ((length content + CHUNK - 1) / CHUNK)%nat /\
  read_chunks CHUNK [] = [].
Proof.
  unfold file_md5_of. rewrite feed_chunks_fold.
  destruct (read_chunks_spec CHUNK content CHUNK_pos) as (? & ? & ?).
  split; [reflexivity|]. split; [assumption|]. split; [assumption|].
  split; [assumption|]. now apply read_chunks_end.
Qed.
(** ** More on the loop *)

Section LoopRunFacts.
Context `{Hashlib} `{Environment}.
Variables (cfg : config) (api : GitHubAPI) (commit_msg : string).

Local Abbreviation body := (sync_file cfg api commit_msg).
Local Abbreviation turn := (turn cfg api commit_msg).
Local Abbreviation loop_run := (loop_run cfg api commit_msg).

Lemma for_each_loop_run (files : list entry) :
  forall s w res w',
    for_each body files s w = (res, w') -> loop_run files s w res w'.
Proof.
  induction files as [|e files IH]; intros s w res w'; cbn [for_each].
  - intros [= <- <-]. constructor.
  - unfold bind. destruct (body e s w) as [[s1 | ex] w1] eqn:Hstep;
      apply sync_file_turn in Hstep.
    + intros Hrest. eapply loop_turn; [exact Hstep | now apply IH].
    + intros [= <- <-]. now constructor.
Qed.

(** What a turn that sends a write has to do with the file it is for. *)
Lemma turn_write_sent (e : entry) (s : stats * cache) (w w' : world)
    (res : result (stats * cache)) (evs : list (request * result response))
    (url : string) (pl : put_payload) (out : result response) :
  turn e s w res w' -> sent w' = sent w ++ evs ->
  In (HttpPut url pl, out) evs ->
  dry_run cfg = false /\
  exists content,
    read_bytes (target e) = Ok content /\
    url = contents_url api (repo_path e) /\
    pl_message pl = commit_msg /\ pl_branch pl = api_branch api /\
    pl_content pl = b64encode content.
Proof.
  intros Hturn Hsent Hin.
  apply turn_sent in Hturn
    as [_ [Hs | [(o & ex & Hs & _) | (o & sha & content & o' & Hs & _ & Hread & Hdry & _)]]];
    rewrite Hs in Hsent.
  - rewrite <- (app_nil_r (sent w)) in Hsent at 1.
    apply app_inv_head in Hsent as <-. destruct Hin.
  - apply app_inv_head in Hsent as <-. now destruct Hin as [[=] | []].
  - apply app_inv_head in Hsent as <-.
    destruct Hin as [[=] | [[= <- <- <-] | []]].
    split; [exact Hdry|]. now exists content.
Qed.

(** Along the whole loop: what was sent, and the cache file. *)
Lemma loop_run_sent (files : list entry) (s : stats * cache) (w w' : world)
    (res : result (stats * cache)) :
  loop_run files s w res w' ->
  cache_file w' = cache_file w /\
  exists evs,
    sent w' = sent w ++ evs /\
    (forall url pl out, In (HttpPut url pl, out) evs ->
       dry_run cfg = false /\
       exists e content,
         In e files /\ read_bytes (target e) = Ok content /\
         url = contents_url api (repo_path e) /\
         pl_message pl = commit_msg /\ pl_branch pl = api_branch api /\
         pl_content pl = b64encode content).
Proof.
  induction 1 as [s w | e files s w ex w1 Hturn
                 | e files s w s1 w1 res w' Hturn Hrest IH].
  - split; [reflexivity|]. exists []. rewrite app_nil_r. split; [reflexivity|].
    intros ? ? ? [].
  - pose proof (turn_sent _ _ _ _ _ _ _ _ Hturn) as [Hc Hs].
    split; [exact Hc|].
    assert (exists evs, sent w1 = sent w ++ evs) as [evs Hevs].
    { destruct Hs as [-> | [(o & ? & -> & _) | (o & ? & ? & o' & -> & _)]];
        [exists []; now rewrite app_nil_r | eauto | eauto]. }
    exists evs. split; [exact Hevs|]. intros url pl out Hin.
    destruct (turn_write_sent _ _ _ _ _ _ _ _ _ Hturn Hevs Hin)
      as (Hdry & content & ?).
    split; [exact Hdry|]. exists e, content. split; [now left | assumption].
  - pose proof (turn_sent _ _ _ _ _ _ _ _ Hturn) as [Hc Hs].
    destruct IH as (Hc' & evs2 & Hevs2 & Hputs).
    split; [congruence|].
    assert (exists evs, sent w1 = sent w ++ evs) as [evs1 Hevs1].
    { destruct Hs as [-> | [(o & ? & -> & _) | (o & ? & ? & o' & -> & _)]];
        [exists []; now rewrite app_nil_r | eauto | eauto]. }
    exists (evs1 ++ evs2). split; [now rewrite Hevs2, Hevs1, app_assoc|].
    intros url pl out Hin. apply in_app_iff in Hin as [Hin | Hin].
    + destruct (turn_write_sent _ _ _ _ _ _ _ _ _ Hturn Hevs1 Hin)
        as (Hdry & content & ?).
      split; [exact Hdry|]. exists e, content. split; [now left | assumption].
    + destruct (Hputs url pl out Hin) as (Hdry & e' & content & He' & ?).
      split; [exact Hdry|]. exists e', content. split; [now right | assumption].
Qed.
End LoopRunFacts.

Section LoopCounts.
Context `{Hashlib} `{Environment}.
Variables (cfg : config) (api : GitHubAPI) (commit_msg : string).

Local Abbreviation turn := (turn cfg api commit_msg).
Local Abbreviation loop_run := (loop_run cfg api commit_msg).

(** A turn keeps every entry of the cache, and changes one only after a
    write that the service accepted. *)
Lemma turn_cache_sound (e : entry) (s s1 : stats * cache) (w w1 : world)
    (evs : list (request * result response)) (p md5 : string) :
  turn e s w (Ok s1) w1 -> sent w1 = sent w ++ evs ->
  snd s1 !! p = Some md5 ->
  snd s !! p = Some md5 \/
  (p = repo_path e /\ fingerprint e = Ok md5 /\
   exists pl r, In (HttpPut (contents_url api p) pl, Ok r) evs /\
                (status_code r = 200 \/ status_code r = 201)).
Proof.
  intros Hturn Hsent Hp.
  inversion Hturn as
    [ | md5' Hmd5 Hc | md5' Hmd5 Hc Hdry | | |
    | md5' out sha content out' w2 w3 Hmd5 Hc Hdry Hl Hr Hread Hw Hr'
    | md5' out sha content out' w2 w3 Hmd5 Hc Hdry Hl Hr Hread Hw Hr' ];
    subst; simpl in Hp; try (now left).
  destruct (decide (p = repo_path e)) as [-> | Hne];
    [|left; now rewrite lookup_insert_ne in Hp].
  rewrite lookup_insert_eq in Hp. injection Hp as <-. right.
  split; [reflexivity|]. split; [exact Hmd5|].
  apply http_sent in Hl as (Hs1 & _ & _). apply http_sent in Hw as (Hs2 & _ & _).
  rewrite Hs2, Hs1, <- app_assoc in Hsent. apply app_inv_head in Hsent as <-.
  destruct out' as [r | ex]; [|discriminate]. simpl in Hr'.
  exists (payload api content commit_msg sha), r. split; [right; now left|].
  injection Hr' as Hr'. apply orb_true_iff in Hr'. lia.
Qed.

Lemma turn_cache_kept (e : entry) (s s1 : stats * cache) (w w1 : world)
    (p v : string) :
  turn e s w (Ok s1) w1 -> snd s !! p = Some v -> is_Some (snd s1 !! p).
Proof.
  intros Hturn Hp. inversion Hturn; subst; simpl; eauto.
  destruct (decide (p = repo_path e)) as [-> | Hne].
  - rewrite lookup_insert_eq. eauto.
  - rewrite lookup_insert_ne by congruence. eauto.
Qed.

(** Outside a dry run, a turn that returns has sent two requests when it
    counted an upload or a failure, and none when it skipped. *)
Lemma turn_requests (e : entry) (s s1 : stats * cache) (w w1 : world) :
  turn e s w (Ok s1) w1 -> dry_run cfg = false ->
  exists evs,
    sent w1 = sent w ++ evs /\
    Z.of_nat (length evs) =
    2 * (uploaded (fst s1) + failed (fst s1)
         - uploaded (fst s) - failed (fst s)).
Proof.
  intros Hturn Hdry.
  inversion Hturn; subst; try congruence;
    repeat match goal with
           | Hh : http _ _ = _ |- _ => apply http_sent in Hh as (? & _ & _)
           end.
  - exists []. rewrite app_nil_r. simpl. split; [reflexivity | lia].
  - eexists [_; _]. split; [|simpl; lia].
    match goal with
    | H2 : sent ?w2 = sent ?w1 ++ _, H1 : sent ?w1 = _ |- _ =>
        rewrite H2, H1, <- app_assoc; reflexivity
    end.
  - eexists [_; _]. split; [|simpl; lia].
    match goal with
    | H2 : sent ?w2 = sent ?w1 ++ _, H1 : sent ?w1 = _ |- _ =>
        rewrite H2, H1, <- app_assoc; reflexivity
    end.
Qed.

Lemma loop_run_cache_sound (files : list entry) (s s' : stats * cache)
    (w w' : world) :
  loop_run files s w (Ok s') w' ->
  forall evs p md5,
    sent w' = sent w ++ evs ->
    snd s' !! p = Some md5 ->
    snd s !! p = Some md5 \/
    exists e pl r,
      In e files /\ repo_path e = p /\ fingerprint e = Ok md5 /\
      In (HttpPut (contents_url api p) pl, Ok r) evs /\
      (status_code r = 200 \/ status_code r = 201).
Proof.
  remember (Ok s') as res eqn:Eres. intros Hrun. revert s' Eres.
  induction Hrun as [s w | e files s w ex w1 Hturn
                    | e files s w s1 w1 res w' Hturn Hrest IH];
    intros s' Eres evs p md5 Hsent Hp.
  - injection Eres as <-. now left.
  - discriminate.
  - subst res.
    pose proof (turn_sent _ _ _ _ _ _ _ _ Hturn) as [_ Hs].
    assert (exists evs1, sent w1 = sent w ++ evs1) as [evs1 Hevs1].
    { destruct Hs as [-> | [(o & ? & -> & _) | (o & ? & ? & o' & -> & _)]];
        [exists []; now rewrite app_nil_r | eauto | eauto]. }
    destruct (loop_run_sent _ _ _ _ _ _ _ _ Hrest) as (_ & evs2 & Hevs2 & _).
    assert (evs = evs1 ++ evs2) as ->.
    { apply (app_inv_head (sent w)). now rewrite <- Hsent, Hevs2, Hevs1, app_assoc. }
    destruct (IH s' eq_refl evs2 p md5 Hevs2 Hp)
      as [Hp1 | (e' & pl & r & He' & ? & ? & Hin & ?)].
    + destruct (turn_cache_sound _ _ _ _ _ _ _ _ Hturn Hevs1 Hp1)
        as [? | (-> & ? & pl & r & Hin & ?)]; [now left|].
      right. exists e, pl, r. repeat split; auto.
      * now left.
      * apply in_app_iff. now left.
    + right. exists e', pl, r. repeat split; auto.
      * now right.
      * apply in_app_iff. now right.
Qed.

Lemma loop_run_cache_kept (files : list entry) (s s' : stats * cache)
    (w w' : world) :
  loop_run files s w (Ok s') w' ->
  forall p v, snd s !! p = Some v -> is_Some (snd s' !! p).
Proof.
  remember (Ok s') as res eqn:Eres. intros Hrun. revert s' Eres.
  induction Hrun as [s w | | e files s w s1 w1 res w' Hturn Hrest IH];
    intros s' Eres p v Hp.
  - injection Eres as <-. eauto.
  - discriminate.
  - destruct (turn_cache_kept _ _ _ _ _ _ _ Hturn Hp) as [v1 Hp1].
    exact (IH s' Eres p v1 Hp1).
Qed.

Lemma loop_run_cache_other (files : list entry) (s s' : stats * cache)
    (w w' : world) (p : string) :
  loop_run files s w (Ok s') w' -> ~ In p (map repo_path files) ->
  snd s' !! p = snd s !! p.
Proof.
  remember (Ok s') as res eqn:Eres. intros Hrun. revert s' Eres.
  induction Hrun as [s w | | e files s w s1 w1 res w' Hturn Hrest IH];
    intros s' Eres Hout.
  - now injection Eres as <-.
  - discriminate.
  - rewrite (IH s' Eres) by (intros Hin; apply Hout; now right).
    apply (turn_cache_other _ _ _ _ _ _ _ _ _ Hturn).
    intros ->. apply Hout. now left.
Qed.

Lemma loop_run_dry_pure (files : list entry) (s : stats * cache)
    (w w' : world) (res : result (stats * cache)) :
  loop_run files s w res w' -> dry_run cfg = true -> w' = w.
Proof.
  intros Hrun Hdry.
  induction Hrun as [s w | e files s w ex w1 Hturn
                    | e files s w s1 w1 res w' Hturn Hrest IH].
  - reflexivity.
  - inversion Hturn; subst; congruence.
  - rewrite IH. inversion Hturn; subst; congruence.
Qed.

Lemma loop_run_requests (files : list entry) (s s' : stats * cache)
    (w w' : world) :
  loop_run files s w (Ok s') w' -> dry_run cfg = false ->
  exists evs,
    sent w' = sent w ++ evs /\
    Z.of_nat (length evs) =
    2 * (uploaded (fst s') + failed (fst s')
         - uploaded (fst s) - failed (fst s)).
Proof.
  remember (Ok s') as res eqn:Eres. intros Hrun. revert s' Eres.
  induction Hrun as [s w | | e files s w s1 w1 res w' Hturn Hrest IH];
    intros s' Eres Hdry.
  - injection Eres as <-. exists []. rewrite app_nil_r. simpl.
    split; [reflexivity | lia].
  - discriminate.
  - destruct (turn_requests _ _ _ _ _ Hturn Hdry) as (evs1 & Hs1 & Hn1).
    destruct (IH s' Eres Hdry) as (evs2 & Hs2 & Hn2).
    exists (evs1 ++ evs2). split; [now rewrite Hs2, Hs1, app_assoc|].
    rewrite length_app. lia.
Qed.

Lemma changed_agree (c1 c2 : cache) (e : entry) :
  c1 !! repo_path e = c2 !! repo_path e -> changed c1 e = changed c2 e.
Proof. unfold changed. now intros ->. Qed.

Lemma count_changed_cons (c : cache) (e : entry) (files : list entry) :
  count_changed c (e :: files) =
  (if changed c e then 1 else 0) + count_changed c files.
Proof.
  unfold count_changed. cbn [List.filter]. destruct (changed c e); simpl length; lia.
Qed.

Lemma count_changed_agree (c1 c2 : cache) (files : list entry) :
  (forall e, In e files -> c1 !! repo_path e = c2 !! repo_path e) ->
  count_changed c1 files = count_changed c2 files.
Proof.
  induction files as [|e files IH]; intros Hagree; [reflexivity|].
  rewrite !count_changed_cons, IH by (intros; apply Hagree; now right).
  now rewrite (changed_agree c1 c2 e) by (apply Hagree; now left).
Qed.

(** The counters of a turn that returns, by whether the file has changed. *)
Lemma turn_counts_changed (e : entry) (s s1 : stats * cache) (w w1 : world) :
  turn e s w (Ok s1) w1 ->
  skipped (fst s1) = skipped (fst s) + (if changed (snd s) e then 0 else 1) /\
  uploaded (fst s1) + failed (fst s1) =
    uploaded (fst s) + failed (fst s) + (if changed (snd s) e then 1 else 0) /\
  (dry_run cfg = true -> failed (fst s1) = failed (fst s) /\ snd s1 = snd s) /\
  (forall p, p <> repo_path e -> snd s1 !! p = snd s !! p).
Proof.
  intros Hturn. unfold changed.
  inversion Hturn as
    [ | md5 Hmd5 Hc | md5 Hmd5 Hc Hdry | | |
    | md5 out sha content out' w2 w3 Hmd5 Hc Hdry Hl Hr Hread Hw Hr'
    | md5 out sha content out' w2 w3 Hmd5 Hc Hdry Hl Hr Hread Hw Hr' ];
    subst; rewrite Hmd5; simpl;
    first [ rewrite (bool_decide_eq_true_2 _ Hc)
          | rewrite (bool_decide_eq_false_2 _ Hc) ];
    simpl; repeat split; try lia; try congruence.
  intros p Hp. now rewrite lookup_insert_ne by congruence.
Qed.

Lemma loop_run_dry_counts (files : list entry) (s s' : stats * cache)
    (w w' : world) :
  loop_run files s w (Ok s') w' -> dry_run cfg = true ->
  snd s' = snd s /\ failed (fst s') = failed (fst s) /\
  uploaded (fst s') = uploaded (fst s) + count_changed (snd s) files /\
  skipped (fst s') =
    skipped (fst s) + Z.of_nat (length files) - count_changed (snd s) files.
Proof.
  remember (Ok s') as res eqn:Eres. intros Hrun. revert s' Eres.
  induction Hrun as [s w | | e files s w s1 w1 res w' Hturn Hrest IH];
    intros s' Eres Hdry.
  - injection Eres as <-. unfold count_changed. simpl. repeat split; lia.
  - discriminate.
  - destruct (turn_counts_changed _ _ _ _ _ Hturn) as (Hsk & Hup & Hd & _).
    destruct (Hd Hdry) as [Hf Hc].
    destruct (IH s' Eres Hdry) as (Hc' & Hf' & Hup' & Hsk').
    rewrite Hc in *. rewrite count_changed_cons.
    cbn [length]. destruct (changed (snd s) e); repeat split; try congruence; lia.
Qed.

Lemma loop_run_real_counts (files : list entry) (s s' : stats * cache)
    (w w' : world) :
  loop_run files s w (Ok s') w' -> NoDup (map repo_path files) ->
  uploaded (fst s') + failed (fst s') =
    uploaded (fst s) + failed (fst s) + count_changed (snd s) files /\
  skipped (fst s') =
    skipped (fst s) + Z.of_nat (length files) - count_changed (snd s) files.
Proof.
  remember (Ok s') as res eqn:Eres. intros Hrun. revert s' Eres.
  induction Hrun as [s w | | e files s w s1 w1 res w' Hturn Hrest IH];
    intros s' Eres Hnodup.
  - injection Eres as <-. unfold count_changed. simpl. split; lia.
  - discriminate.
  - destruct (turn_counts_changed _ _ _ _ _ Hturn) as (Hsk & Hup & _ & Hother).
    cbn [map] in Hnodup. apply NoDup_cons in Hnodup as [Hfresh Hnodup].
    destruct (IH s' Eres Hnodup) as (Hup' & Hsk').
    assert (Eq : count_changed (snd s1) files = count_changed (snd s) files).
    { apply count_changed_agree. intros e' He'. apply Hother.
      intros E. apply Hfresh, list_elem_of_In, in_map_iff. now exists e'. }
    rewrite Eq in Hup', Hsk'.
    rewrite count_changed_cons. cbn [length].
    destruct (changed (snd s) e); split; lia.
Qed.
End LoopCounts.

(** ** More on whole runs *)

Section RunExtras.
Context `{Hashlib} `{Environment}.
Variable cfg : config.

Local Abbreviation library := (resolve (library_path cfg)).

Lemma preflight_client (w w0 : world) (commit_msg : string) (lib : path)
    (n : node) (api : GitHubAPI) :
  preflight cfg w = (Ok (commit_msg, lib, n, api), w0) ->
  api = api_of cfg /\ format_date (commit_message cfg) = Ok commit_msg /\
  missing_field cfg = false.
Proof.
  unfold preflight, bind at 1, lift.
  destruct (format_date (commit_message cfg)) as [msg | ex]; [|discriminate].
  destruct (missing_field cfg); [discriminate|].
  destruct (fs_node _) as [[s f | d es] |]; try discriminate.
  unfold bind.
  destruct (ensure_repo_exists _ w) as [[found | ex] w1]; [|discriminate].
  destruct (_ w1) as [[[] | ex] w2]; [|discriminate].
  unfold ret. now intros [= <- <- <- <- <-].
Qed.

(** A run stops in its start, or goes through the loop from the cache on
    disk and writes the cache back when the loop returns. *)
Lemma run_sync_cases (w w' : world) (res : result stats) :
  run_sync cfg w = (res, w') ->
  (exists ex, preflight cfg w = (Raise ex, w') /\ res = Raise ex) \/
  (exists commit_msg n w0 lres w1,
      preflight cfg w = (Ok (commit_msg, library, n, api_of cfg), w0) /\
      format_date (commit_message cfg) = Ok commit_msg /\
      fs_node library = Some n /\
      loop_run cfg (api_of cfg) commit_msg (scanned cfg library n)
               (no_stats, default ∅ (cache_file w0)) w0 lres w1 /\
      match lres with
      | Ok s => res = Ok (fst s) /\
                w' = (if dry_run cfg then w1 else persisted w1 (snd s))
      | Raise ex => res = Raise ex /\ w' = w1
      end).
Proof.
  rewrite run_sync_eq.
  destruct (preflight cfg w) as [[[[[msg lib] n] api] | ex] w0] eqn:Hpre.
  2: { intros [= <- <-]. left. now exists ex. }
  destruct (preflight_ok cfg _ _ _ _ _ _ Hpre) as [-> Hfs].
  destruct (preflight_client _ _ _ _ _ _ Hpre) as (-> & Hmsg & _).
  rewrite reconcile_eq.
  destruct (for_each _ _ _ w0) as [lres w1] eqn:Hloop.
  apply for_each_loop_run in Hloop. intros Hres. right.
  exists msg, n, w0, lres, w1. repeat split; try assumption.
  destruct lres as [s | ex]; injection Hres as <- <-; now split.
Qed.

(** X4. Every file write of a run is for a file that the scanner yielded:
    it goes to the contents address of that file's repository path and
    carries the bytes read from the file, in base64, together with the
    commit message and the branch of the run.  Nothing outside the scan is
    ever written, and a dry run writes nothing. *)
Theorem writes_carry_scanned_files (w w' : world) (res : result stats)
    (evs : list (request * result response))
    (url : string) (pl : put_payload) (out : result response) :
  run_sync cfg w = (res, w') ->
  sent w' = sent w ++ evs ->
  In (HttpPut url pl, out) evs ->
  dry_run cfg = false /\
  exists commit_msg n e content,
    format_date (commit_message cfg) = Ok commit_msg /\
    fs_node library = Some n /\
    In e (scanned cfg library n) /\
    read_bytes (target e) = Ok content /\
    url = contents_url (api_of cfg) (repo_path e) /\
    pl_message pl = commit_msg /\ pl_branch pl = branch cfg /\
    pl_content pl = b64encode content.
Proof.
  intros Hrun Hsent Hin.
  apply run_sync_cases in Hrun
    as [(ex & Hpre & _) | (msg & n & w0 & lres & w1 & Hpre & Hmsg & Hfs & Hloop & Hres)].
  - destruct (preflight_sent cfg _ _ _ Hpre) as (_ & evs0 & Hs0 & Hall).
    rewrite Hs0 in Hsent. apply app_inv_head in Hsent as <-.
    rewrite Forall_forall in Hall.
    apply list_elem_of_In, Hall in Hin. discriminate.
  - destruct (preflight_sent cfg _ _ _ Hpre) as (_ & evs0 & Hs0 & Hall).
    destruct (loop_run_sent _ _ _ _ _ _ _ _ Hloop) as (_ & evs1 & Hs1 & Hputs).
    assert (Hw' : sent w' = sent w1).
    { destruct lres as [s | ex]; destruct Hres as [_ ->]; [|reflexivity].
      now destruct (dry_run cfg). }
    rewrite Hw', Hs1, Hs0, <- app_assoc in Hsent.
    apply app_inv_head in Hsent as <-.
    apply in_app_iff in Hin as [Hin | Hin].
    + rewrite Forall_forall in Hall.
      apply list_elem_of_In, Hall in Hin. discriminate.
    + destruct (Hputs url pl out Hin) as (Hdry & e & content & He & ?).
      split; [exact Hdry|]. exists msg, n, e, content. now repeat split.
Qed.

(** X5. A run never removes an entry from the cache on disk and never
    touches the entry of a path that no scanned file has: entries of files
    that are gone stay for good.  The file is written once, after the loop:
    a run that raises, and a dry run, leave it exactly as it was. *)
Theorem cache_entries_persist (w w' : world) (res : result stats) :
  run_sync cfg w = (res, w') ->
  (forall p v, default ∅ (cache_file w) !! p = Some v ->
               is_Some (default ∅ (cache_file w') !! p)) /\
  (forall p : string,
      (forall n e, fs_node library = Some n ->
                   In e (scanned cfg library n) -> repo_path e <> p) ->
      default ∅ (cache_file w') !! p = default ∅ (cache_file w) !! p) /\
  (forall ex, res = Raise ex -> cache_file w' = cache_file w) /\
  (dry_run cfg = true -> cache_file w' = cache_file w).
Proof.
  intros Hrun.
  apply run_sync_cases in Hrun
    as [(ex & Hpre & ->) | (msg & n & w0 & lres & w1 & Hpre & _ & Hfs & Hloop & Hres)];
    destruct (preflight_sent cfg _ _ _ Hpre) as (Hc0 & _).
  - rewrite Hc0. repeat split; eauto.
  - destruct (loop_run_sent _ _ _ _ _ _ _ _ Hloop) as (Hc1 & _).
    destruct lres as [s | ex]; destruct Hres as [-> ->].
    2: { rewrite Hc1, Hc0. repeat split; eauto. }
    destruct (dry_run cfg) eqn:Hdry.
    { rewrite Hc1, Hc0. repeat split; eauto. }
    cbn [persisted cache_file default]. rewrite <- Hc0.
    split; [|split; [|split; [discriminate | discriminate]]].
    + intros p v Hp. exact (loop_run_cache_kept _ _ _ _ _ _ _ _ Hloop p v Hp).
    + intros p Hp.
      apply (loop_run_cache_other _ _ _ _ _ _ _ _ _ Hloop).
      intros Hin. apply in_map_iff in Hin as (e & E & He).
      exact (Hp n e Hfs He E).
Qed.

(** X6. The cache on disk is changed only by uploads that went through: an
    entry that a run leaves in the cache was there before, or it is the
    fingerprint of a scanned file whose write the service answered with
    200 or 201 during this run. *)
Theorem cache_update_means_upload (w w' : world) (res : result stats)
    (evs : list (request * result response)) (p md5 : string) :
  run_sync cfg w = (res, w') ->
  sent w' = sent w ++ evs ->
  default ∅ (cache_file w') !! p = Some md5 ->
  default ∅ (cache_file w) !! p = Some md5 \/
  exists n e pl r,
    fs_node library = Some n /\ In e (scanned cfg library n) /\
    repo_path e = p /\ fingerprint e = Ok md5 /\
    In (HttpPut (contents_url (api_of cfg) p) pl, Ok r) evs /\
    (status_code r = 200 \/ status_code r = 201).
Proof.
  intros Hrun Hsent Hp.
  apply run_sync_cases in Hrun
    as [(ex & Hpre & ->) | (msg & n & w0 & lres & w1 & Hpre & _ & Hfs & Hloop & Hres)];
    destruct (preflight_sent cfg _ _ _ Hpre) as (Hc0 & evs0 & Hs0 & _).
  { left. now rewrite <- Hc0. }
  destruct (loop_run_sent _ _ _ _ _ _ _ _ Hloop) as (Hc1 & evs1 & Hs1 & _).
  destruct lres as [s | ex]; destruct Hres as [-> ->].
  2: { left. now rewrite <- Hc0, <- Hc1. }
  destruct (dry_run cfg) eqn:Ed; [left; now rewrite <- Hc0, <- Hc1|].
  cbn [persisted cache_file sent default] in Hp, Hsent.
  rewrite Hs1, Hs0, <- app_assoc in Hsent. apply app_inv_head in Hsent as <-.
  destruct (loop_run_cache_sound _ _ _ _ _ _ _ _ Hloop evs1 p md5 Hs1 Hp)
    as [Hold | (e & pl & r & He & ? & ? & Hin & ?)].
  - left. now rewrite <- Hc0.
  - right. exists n, e, pl, r. repeat split; try assumption.
    apply in_app_iff. now right.
Qed.

(** X7. What a run that returns has sent: the requests of its start and,
    outside a dry run, two requests (lookup and write) for each file it
    counted as uploaded or failed; nothing for a skipped file, and nothing
    at all for the files of a dry run. *)
Theorem requests_of_a_run (w w' : world) (st : stats) :
  run_sync cfg w = (Ok st, w') ->
  exists pre evs,
    sent w' = sent w ++ pre ++ evs /\
    preflight_shape cfg pre /\
    (dry_run cfg = true -> evs = []) /\
    (dry_run cfg = false ->
     Z.of_nat (length evs) = 2 * (uploaded st + failed st)).
Proof.
  intros Hrun.
  apply run_sync_cases in Hrun
    as [(ex & _ & [=]) | (msg & n & w0 & lres & w1 & Hpre & _ & Hfs & Hloop & Hres)].
  destruct lres as [s | ex]; destruct Hres as [[= ->] ->].
  destruct (preflight_sent_shape cfg _ _ _ Hpre) as (pre & Hs0 & Hshape).
  destruct (loop_run_sent _ _ _ _ _ _ _ _ Hloop) as (_ & evs & Hs1 & Hputs).
  exists pre, evs. split; [|split; [exact Hshape|split]].
  - destruct (dry_run cfg); cbn [persisted sent];
      now rewrite Hs1, Hs0, app_assoc.
  - intros Hdry.
    pose proof (loop_run_dry_pure _ _ _ _ _ _ _ _ Hloop Hdry) as Hw.
    subst w1. rewrite <- (app_nil_r (sent w0)) in Hs1 at 1.
    now apply app_inv_head in Hs1.
  - intros Hdry.
    destruct (loop_run_requests _ _ _ _ _ _ _ _ Hloop Hdry) as (evs' & Hs' & Hn).
    assert (evs' = evs) as -> by (apply (app_inv_head (sent w0)); congruence).
    simpl in Hn. lia.
Qed.

(** X8. A dry run reports exactly the files that have changed: [uploaded]
    is the number of scanned files whose fingerprint is not in the cache on
    disk, [skipped] the number of the others, and [failed] is 0. *)
Theorem dry_run_counts_changes (w w' : world) (st : stats) :
  dry_run cfg = true ->
  run_sync cfg w = (Ok st, w') ->
  exists n,
    fs_node library = Some n /\
    uploaded st =
      count_changed (default ∅ (cache_file w)) (scanned cfg library n) /\
    skipped st =
      Z.of_nat (length (scanned cfg library n))
      - count_changed (default ∅ (cache_file w)) (scanned cfg library n) /\
    failed st = 0.
Proof.
  intros Hdry Hrun.
  apply run_sync_cases in Hrun
    as [(ex & _ & [=]) | (msg & n & w0 & lres & w1 & Hpre & _ & Hfs & Hloop & Hres)].
  destruct lres as [s | ex]; destruct Hres as [[= ->] _].
  destruct (preflight_sent cfg _ _ _ Hpre) as (Hc0 & _).
  destruct (loop_run_dry_counts _ _ _ _ _ _ _ _ Hloop Hdry)
    as (_ & Hf & Hu & Hs).
  exists n. rewrite Hc0 in *. simpl in *. repeat split; try assumption; lia.
Qed.

(** X9. A real run attempts exactly the files that a dry run announces:
    when the scanned files have distinct repository paths, a run that
    returns has counted as uploaded or failed the files whose fingerprint
    was not in the cache on disk, and skipped the others. *)
Theorem run_attempts_changes (w w' : world) (st : stats) :
  (forall n, fs_node library = Some n ->
             NoDup (map repo_path (scanned cfg library n))) ->
  run_sync cfg w = (Ok st, w') ->
  exists n,
    fs_node library = Some n /\
    uploaded st + failed st =
      count_changed (default ∅ (cache_file w)) (scanned cfg library n) /\
    skipped st =
      Z.of_nat (length (scanned cfg library n))
      - count_changed (default ∅ (cache_file w)) (scanned cfg library n).
Proof.
  intros Hnodup Hrun.
  apply run_sync_cases in Hrun
    as [(ex & _ & [=]) | (msg & n & w0 & lres & w1 & Hpre & _ & Hfs & Hloop & Hres)].
  destruct lres as [s | ex]; destruct Hres as [[= ->] _].
  destruct (preflight_sent cfg _ _ _ Hpre) as (Hc0 & _).
  destruct (loop_run_real_counts _ _ _ _ _ _ _ _ Hloop (Hnodup n Hfs))
    as (Hu & Hs).
  exists n. rewrite Hc0 in *. simpl in *. repeat split; try assumption; lia.
Qed.

(** X10. How a run ends before it scans anything.  A commit message that
    cannot be formatted raises first, before the configuration is even
    checked.  After that, an empty required field, or a library path that
    is no directory, ends the run with [sys.exit(1)] and nothing sent; and
    so does a repository that is neither found nor created, after the check
    and the attempt to create it, with the cache file untouched. *)
Theorem run_sync_exits_before_scanning (w : world) :
  (forall ex, format_date (commit_message cfg) = Raise ex ->
              run_sync cfg w = (Raise ex, w)) /\
  (forall commit_msg,
      format_date (commit_message cfg) = Ok commit_msg ->
      (missing_field cfg = true ->
       run_sync cfg w = (Raise (SystemExit 1), w)) /\
      (missing_field cfg = false ->
       (forall d entries, fs_node library <> Some (Dir d entries)) ->
       run_sync cfg w = (Raise (SystemExit 1), w)) /\
      (forall d entries r r' w1 w2,
          missing_field cfg = false ->
          fs_node library = Some (Dir d entries) ->
          http (repo_check cfg) w = (Ok r, w1) -> status_code r <> 200 ->
          http (repo_create cfg) w1 = (Ok r', w2) -> status_code r' <> 201 ->
          run_sync cfg w = (Raise (SystemExit 1), w2) /\
          cache_file w2 = cache_file w /\
          sent w2 = sent w ++ [(repo_check cfg, Ok r);
                               (repo_create cfg, Ok r')])).
Proof.
  split.
  { intros ex Hfmt. rewrite run_sync_eq. unfold preflight, bind, lift.
    now rewrite Hfmt. }
  intros msg Hfmt. split; [|split].
  - intros Hmiss. rewrite run_sync_eq. unfold preflight, bind at 1, lift.
    now rewrite Hfmt, Hmiss.
  - intros Hmiss Hdir. rewrite run_sync_eq. unfold preflight, bind at 1, lift.
    rewrite Hfmt, Hmiss.
    destruct (fs_node library) as [[s f | d es] |]; try reflexivity.
    now destruct (Hdir d es).
  - intros d es r r' w1 w2 Hmiss Hfs Hcheck Hr Hcreate Hr'.
    pose proof (http_sent _ _ _ _ Hcheck) as (Hs1 & Hc1 & _).
    pose proof (http_sent _ _ _ _ Hcreate) as (Hs2 & Hc2 & _).
    split; [|split; [congruence | now rewrite Hs2, Hs1, <- app_assoc]].
    rewrite run_sync_eq. unfold preflight, bind at 1, lift.
    rewrite Hfmt, Hmiss, Hfs.
    unfold ensure_repo_exists, create_repo, bind, ret, raise, lift. simpl.
    fold (repo_check cfg). fold (repo_create cfg).
    rewrite Hcheck, (proj2 (Z.eqb_neq _ _) Hr), Hcreate,
      (proj2 (Z.eqb_neq _ _) Hr'). reflexivity.
Qed.
End RunExtras.

(** ** Runs that return *)

Section RunReturns.
Context `{Hashlib} `{Environment}.
Variable cfg : config.
Local Abbreviation library := (resolve (library_path cfg)).

Lemma http_answers (rq : request) (w : world) :
  service_answers ->
  exists resp w1,
    http rq w = (Ok resp, w1) /\
    (status_code resp = 200 -> exists sha, json_sha resp = Ok sha).
Proof.
  intros Hsend. destruct (Hsend (remote w) rq) as (r' & resp & E & Hsha).
  unfold http. rewrite E. eauto.
Qed.

Lemma loop_returns_answers (api : GitHubAPI) (commit_msg : string)
    (files : list entry) :
  service_answers ->
  (forall e, In e files ->
     (exists c, open_rb (target e) = Ok c) /\
     (exists c, read_bytes (target e) = Ok c)) ->
  forall s w, exists s' w',
    for_each (sync_file cfg api commit_msg) files s w = (Ok s', w').
Proof.
  intros Hsend Hfiles.
  induction files as [|e files IH]; intros s w.
  - now exists s, w.
  - destruct (Hfiles e (or_introl eq_refl)) as [[c Hopen] [c' Hread]].
    assert (Hok : exists s1 w1,
               sync_file cfg api commit_msg e s w = (Ok s1, w1)).
    { unfold sync_file, bind at 1, lift at 1, file_md5. rewrite Hopen.
      destruct (bool_decide _); [unfold ret; eauto|].
      destruct (dry_run cfg); [unfold ret; eauto|].
      unfold get_file_sha, put_file.
      destruct (http_answers (HttpGet (contents_url api (repo_path e))
                                      (Some (api_branch api))) w Hsend)
        as (r1 & w1 & E1 & Hsha).
      unfold bind at 1. unfold bind at 1. rewrite E1.
      assert (Hlook : exists sha,
                 (if status_code r1 =? 200 then lift (json_sha r1)
                  else ret None) w1 = (Ok sha, w1)).
      { destruct (Z.eqb_spec (status_code r1) 200) as [E200 | _].
        - destruct (Hsha E200) as [sha Es]. exists sha.
          unfold lift. now rewrite Es.
        - now exists None. }
      destruct Hlook as [sha ->].
      unfold bind at 1, lift at 1. rewrite Hread.
      destruct (http_answers (HttpPut (contents_url api (repo_path e))
                                      (payload api c' commit_msg sha)) w1 Hsend)
        as (r2 & w2 & E2 & _).
      unfold bind at 1. unfold bind at 1. rewrite E2. unfold ret at 1.
      destruct (_ || _); unfold ret; eauto. }
    destruct Hok as (s1 & w1 & Hstep).
    destruct (IH (fun e' He' => Hfiles e' (or_intror He')) s1 w1)
      as (s' & w' & Hrest).
    exists s', w'. cbn [for_each]. unfold bind. now rewrite Hstep.
Qed.

(** X12. A run returns its counters when nothing that it relies on fails.
    In this model a file can always be examined with [stat], and the cache
    file holds a JSON object when there is one and can be written.  Then,
    if the commit message can be formatted, the four required fields are
    set, the size limit lies within the range of floats, the library is a
    directory whose scanned files can be opened and read, the service
    answers every request (with a readable body where the answer is 200),
    and the repository is found or can be created, the run returns, and the
    counter [total] is the number of scanned files. *)
Theorem run_sync_returns_when_nothing_fails (w : world) (commit_msg d : string)
    (entries : list node) :
  format_date (commit_message cfg) = Ok commit_msg ->
  missing_field cfg = false ->
  finite_limit (max_file_size_mb cfg) ->
  fs_node library = Some (Dir d entries) ->
  (forall e, In e (scanned cfg library (Dir d entries)) ->
     (exists c, open_rb (target e) = Ok c) /\
     (exists c, read_bytes (target e) = Ok c)) ->
  service_answers ->
  (forall r r' resp r'' resp',
     send r (repo_check cfg) = (r', Ok resp) -> status_code resp <> 200 ->
     send r' (repo_create cfg) = (r'', Ok resp') -> status_code resp' = 201) ->
  exists st w',
    run_sync cfg w = (Ok st, w') /\
    total st = Z.of_nat (length (scanned cfg library (Dir d entries))).
Proof.
  intros Hfmt Hmiss _ Hfs Hfiles Hsend Hrepo.
  assert (Hpre : exists w0,
             preflight cfg w =
               (Ok (commit_msg, library, Dir d entries, api_of cfg), w0)).
  { unfold preflight, bind at 1, lift at 1. rewrite Hfmt, Hmiss, Hfs.
    unfold ensure_repo_exists, create_repo.
    destruct (http_answers (repo_check cfg) w Hsend) as (r1 & w1 & E1 & _).
    unfold bind at 1. unfold bind at 1. unfold bind at 1.
    change (HttpGet _ None) with (repo_check cfg). rewrite E1.
    unfold ret at 1.
    destruct (Z.eqb_spec (status_code r1) 200) as [E200 | N200].
    - unfold ret. now exists w1.
    - destruct (http_answers (repo_create cfg) w1 Hsend) as (r2 & w2 & E2 & _).
      unfold bind at 1. unfold bind at 1.
      change (HttpPost _ _ false true) with (repo_create cfg). rewrite E2.
      unfold ret at 1.
      apply http_sent in E1 as (_ & _ & E1). apply http_sent in E2 as (_ & _ & E2).
      rewrite (Hrepo _ _ _ _ _ E1 N200 E2). cbn. unfold ret. now exists w2. }
  destruct Hpre as [w0 Hpre].
  destruct (loop_returns_answers (api_of cfg) commit_msg
              (scanned cfg library (Dir d entries)) Hsend Hfiles
              (no_stats, default ∅ (cache_file w0)) w0) as (s' & w1 & Hloop).
  rewrite run_sync_eq, Hpre, reconcile_eq, Hloop.
  eexists _, _. split; [reflexivity|].
  destruct (loop_counts cfg (api_of cfg) commit_msg _ _ _ _ _ Hloop) as (Ht & _).
  rewrite Ht. reflexivity.
Qed.
End RunReturns.

(** ** The configuration and the setup wizard *)

Lemma load_config_complete (f : option dict) (key : string) :
  is_Some (DEFAULT_CONFIG !! key) -> is_Some (load_config f !! key).
Proof.
  intros Hd. destruct f as [saved|]; [|exact Hd]. unfold load_config.
  rewrite lookup_union. destruct Hd as [v0 ->].
  destruct (saved !! key); simpl; eauto.
Qed.

Lemma union_complete (cfg : dict) :
  (forall key, is_Some (DEFAULT_CONFIG !! key) -> is_Some (cfg !! key)) ->
  cfg ∪ DEFAULT_CONFIG = cfg.
Proof.
  intros Hc. apply map_eq. intros key. rewrite lookup_union.
  destruct (cfg !! key) eqn:E, (DEFAULT_CONFIG !! key) eqn:E'; simpl;
    try reflexivity.
  destruct (Hc key) as [v1 Hv]; [rewrite E'; eauto | congruence].
Qed.

(** X13. Loading is stable under saving: a loaded configuration has every
    key of [DEFAULT_CONFIG], a saved key always wins over its default, and
    what [load_config] returns after [save_config] of a configuration that
    has the default keys (such as one that was loaded) is that
    configuration. *)
Theorem load_config_round_trip (f : option dict) (c : console) :
  (forall key, is_Some (DEFAULT_CONFIG !! key) ->
               is_Some (load_config f !! key)) /\
  (forall saved key v, saved !! key = Some v ->
                       load_config (Some saved) !! key = Some v) /\
  (forall cfg,
      (forall key, is_Some (DEFAULT_CONFIG !! key) -> is_Some (cfg !! key)) ->
      load_config (config_json (save_config cfg c)) = cfg) /\
  load_config (config_json (save_config (load_config f) c)) = load_config f.
Proof.
  split; [intros key; apply load_config_complete|].
  split.
  { intros saved key v Hv. unfold load_config. rewrite lookup_union, Hv.
    now destruct (DEFAULT_CONFIG !! key). }
  split.
  - intros cfg Hc. exact (union_complete cfg Hc).
  - apply union_complete. intros key. apply load_config_complete.
Qed.

Lemma ask_line (key : string) (cfg : dict) (c : console) (line : string)
    (rest : list string) :
  stdin c = line :: rest ->
  ask key cfg c =
    (Some (if String.eqb (strip line) "" then cfg
           else <[key := VStr (strip line)]> cfg),
     {| config_json := config_json c; stdin := rest |}).
Proof. intros E. unfold ask, input. now rewrite E. Qed.

Lemma ask_eof (key : string) (cfg : dict) (c : console) :
  stdin c = [] -> ask key cfg c = (None, c).
Proof. intros E. unfold ask, input. now rewrite E. Qed.

Lemma run_setup_lines (c : console) (a1 a2 a3 a4 a5 : string)
    (rest : list string) :
  stdin c = a1 :: a2 :: a3 :: a4 :: a5 :: rest ->
  run_setup c =
    (Done,
     {| config_json :=
          Some (let cfg := load_config (config_json c) in
                let cfg := if String.eqb (strip a1) "" then cfg
                           else <["github_token" := VStr (strip a1)]> cfg in
                let cfg := if String.eqb (strip a2) "" then cfg
                           else <["github_username" := VStr (strip a2)]> cfg in
                let cfg := if String.eqb (strip a3) "" then cfg
                           else <["repo_name" := VStr (strip a3)]> cfg in
                let cfg := if String.eqb (strip a4) "" then cfg
                           else <["library_path" := VStr (strip a4)]> cfg in
                if String.eqb (strip a5) "" then cfg
                else <["branch" := VStr (strip a5)]> cfg);
        stdin := rest |}).
Proof.
  intros E. unfold run_setup.
  rewrite (ask_line _ _ _ _ _ E). cbn iota.
  do 4 (erewrite ask_line by reflexivity; cbn iota).
  reflexivity.
Qed.

(** X14. What the wizard saves.  With five lines on the standard input the
    wizard returns, having read exactly these lines and written the file
    once: each of the five keys it asks for holds the stripped answer, as a
    string, or what the loaded configuration had when the answer is blank;
    every other key is as loaded; and every default key is there. *)
Theorem run_setup_saves_answers (c : console) (a1 a2 a3 a4 a5 : string)
    (rest : list string) :
  stdin c = a1 :: a2 :: a3 :: a4 :: a5 :: rest ->
  exists cfg,
    run_setup c = (Done, {| config_json := Some cfg; stdin := rest |}) /\
    (forall key line,
        In (key, line) [ ("github_token", a1); ("github_username", a2);
                         ("repo_name", a3); ("library_path", a4);
                         ("branch", a5) ] ->
        cfg !! key = if String.eqb (strip line) ""
                     then load_config (config_json c) !! key
                     else Some (VStr (strip line))) /\
    (forall key,
        ~ In key [ "github_token"; "github_username"; "repo_name";
                   "library_path"; "branch" ] ->
        cfg !! key = load_config (config_json c) !! key) /\
    (forall key, is_Some (DEFAULT_CONFIG !! key) -> is_Some (cfg !! key)).
Proof.
  intros E. rewrite (run_setup_lines _ _ _ _ _ _ _ E).
  eexists. split; [reflexivity|]. cbv zeta.
  pose proof (load_config_complete (config_json c)) as Hfull.
  generalize dependent (load_config (config_json c)). intros cfg0 Hfull.
  split; [|split].
  - intros key line Hin. cbn [In] in Hin.
    destruct Hin as [[= <- <-] | [[= <- <-] | [[= <- <-] | [[= <- <-] |
                     [[= <- <-] | []]]]]];
      destruct (String.eqb (strip a1) ""), (String.eqb (strip a2) ""),
               (String.eqb (strip a3) ""), (String.eqb (strip a4) ""),
               (String.eqb (strip a5) "");
      now simplify_map_eq.
  - intros key Hkey. cbn [In] in Hkey.
    assert (key <> "github_token" /\ key <> "github_username" /\
            key <> "repo_name" /\ key <> "library_path" /\ key <> "branch")
      as (? & ? & ? & ? & ?) by (repeat split; intros ->; tauto).
    destruct (String.eqb (strip a1) ""), (String.eqb (strip a2) ""),
             (String.eqb (strip a3) ""), (String.eqb (strip a4) ""),
             (String.eqb (strip a5) "");
      now simplify_map_eq.
  - intros key Hd. specialize (Hfull key Hd).
    destruct (String.eqb (strip a1) ""), (String.eqb (strip a2) ""),
             (String.eqb (strip a3) ""), (String.eqb (strip a4) ""),
             (String.eqb (strip a5) "");
      repeat (rewrite lookup_insert_is_Some'; right); exact Hfull.
Qed.

(** X15. When the standard input ends before the fifth answer, the wizard
    ends with [EOFError] and the configuration file is not written: the
    answers given so far are lost. *)
Theorem run_setup_eof_saves_nothing (c : console) :
  (length (stdin c) < 5)%nat ->
  run_setup c = (EOFError, {| config_json := config_json c; stdin := [] |}).
Proof.
  intros Hlen. unfold run_setup.
  destruct c as [f [|a1 [|a2 [|a3 [|a4 [|a5 rest]]]]]]; cbn in Hlen;
    try lia; clear Hlen.
  all: repeat first
         [ rewrite (ask_eof _ _ _ eq_refl)
         | erewrite ask_line by reflexivity ]; cbn iota; try reflexivity.
Qed.

(** X16. Five blank answers change nothing but the defaults: the wizard
    saves the loaded configuration as it is, and a file that already had
    every default key is written back unchanged. *)
Theorem run_setup_blank_answers (c : console) (a1 a2 a3 a4 a5 : string)
    (rest : list string) :
  stdin c = a1 :: a2 :: a3 :: a4 :: a5 :: rest ->
  strip a1 = "" -> strip a2 = "" -> strip a3 = "" -> strip a4 = "" ->
  strip a5 = "" ->
  run_setup c =
    (Done, {| config_json := Some (load_config (config_json c));
              stdin := rest |}) /\
  (forall saved,
      config_json c = Some saved ->
      (forall key, is_Some (DEFAULT_CONFIG !! key) -> is_Some (saved !! key)) ->
      run_setup c = (Done, {| config_json := config_json c; stdin := rest |})).
Proof.
  intros E E1 E2 E3 E4 E5.
  assert (Hrun : run_setup c =
                   (Done, {| config_json := Some (load_config (config_json c));
                             stdin := rest |})).
  { rewrite (run_setup_lines _ _ _ _ _ _ _ E), E1, E2, E3, E4, E5.
    reflexivity. }
  split; [exact Hrun|].
  intros saved Hsaved Hfull. rewrite Hrun, Hsaved. unfold load_config.
  now rewrite (union_complete saved Hfull).
Qed.

Lemma read_config_dry_run (d : dict) (conf : config) :
  read_config d = Some conf ->
  exists v, d !! "dry_run" = Some v /\ dry_run conf = truth v.
Proof.
  unfold read_config. intros Hread. simplify_option_eq. eauto.
Qed.

(** X17. The wizard and the run agree on the configuration.  Started
    without a configuration file, the wizard saves a file from which the run
    reads the five stripped answers (the default branch, when that answer
    is blank) and the defaults for everything else. *)
Theorem setup_then_run_uses_answers (c : console) (a1 a2 a3 a4 a5 : string)
    (rest : list string) :
  config_json c = None ->
  stdin c = a1 :: a2 :: a3 :: a4 :: a5 :: rest ->
  exists c' d0,
    run_setup c = (Done, c') /\ stdin c' = rest /\
    read_config DEFAULT_CONFIG = Some d0 /\
    read_config (load_config (config_json c')) =
      Some {| github_token := strip a1;
              github_username := strip a2;
              repo_name := strip a3;
              library_path := strip a4;
              branch := if String.eqb (strip a5) "" then "main" else strip a5;
              commit_message := commit_message d0;
              extensions := extensions d0;
              ignore_dirs := ignore_dirs d0;
              max_file_size_mb := max_file_size_mb d0;
              dry_run := dry_run d0 |}.
Proof.
  intros Hnone E. rewrite (run_setup_lines _ _ _ _ _ _ _ E), Hnone.
  eexists _, _. split; [reflexivity|]. split; [reflexivity|].
  split; [vm_compute; reflexivity|]. cbn [config_json]. cbv zeta.
  generalize (strip a1) (strip a2) (strip a3) (strip a4) (strip a5).
  intros s1 s2 s3 s4 s5.
  destruct (String.eqb_spec s1 ""), (String.eqb_spec s2 ""),
           (String.eqb_spec s3 ""), (String.eqb_spec s4 ""),
           (String.eqb_spec s5 ""); subst; vm_compute; reflexivity.
Qed.

Section MainFacts.
Context `{Hashlib} `{Environment}.

(** X18. [--dry-run] overrides the saved configuration.  A run started with
    [--dry-run] (and without [--setup]) leaves the configuration file, the
    standard input and the cache file as they were, and sends nothing but
    the requests of the start of a run (the repository check and, when it
    fails, the creation): no lookup and no write of a file, whatever
    [dry_run] is in the configuration file. *)
Theorem main_dry_run_flag_overrides (a : args) (c c' : console)
    (w w' : world) (e : ending) :
  arg_setup a = false -> arg_dry_run a = true ->
  main a c w = Some (e, c', w') ->
  c' = c /\ cache_file w' = cache_file w /\
  exists evs, sent w' = sent w ++ evs /\
              Forall (fun ev => is_preflight (fst ev) = true) evs.
Proof.
  intros Hsetup Hdry. unfold main. rewrite Hsetup, Hdry, orb_true_r.
  destruct (read_config _) as [conf|] eqn:Hread; [|discriminate].
  apply read_config_dry_run in Hread as (v & Hv & Hconf).
  rewrite lookup_insert_eq in Hv. injection Hv as <-. cbn in Hconf.
  destruct (run_sync conf w) as [res w1] eqn:Hrun.
  intros [= <- <- <-]. split; [reflexivity|].
  apply run_sync_cases in Hrun
    as [(ex & Hpre & _) | (msg & n & w0 & lres & w2 & Hpre & _ & _ & Hloop & Hres)];
    destruct (preflight_sent conf _ _ _ Hpre) as (Hc0 & evs & Hs0 & Hall).
  - split; [exact Hc0 | now exists evs].
  - pose proof (loop_run_dry_pure _ _ _ _ _ _ _ _ Hloop Hconf) as ->.
    assert (w1 = w0) as ->.
    { destruct lres; destruct Hres as [_ ->]; [now rewrite Hconf | reflexivity]. }
    split; [exact Hc0 | now exists evs].
Qed.

(** X19. A run before any setup stops at once: without a configuration
    file, [--run] and [--dry-run] work on the defaults, whose token is
    empty, and end with exit code 1; nothing is sent, read or written. *)
Theorem main_run_without_setup_exits (a : args) (c : console) (w : world)
    (commit_msg : string) :
  arg_setup a = false -> arg_run a || arg_dry_run a = true ->
  config_json c = None ->
  format_date "🤖 Auto-sync: {date}" = Ok commit_msg ->
  main a c w = Some (Escaped (SystemExit 1), c, w).
Proof.
  intros Hsetup Hrun Hnone Hfmt. unfold main.
  rewrite Hsetup, Hrun, Hnone.
  assert (Hexit : forall conf,
             commit_message conf = "🤖 Auto-sync: {date}" ->
             github_token conf = "" ->
             run_sync conf w = (Raise (SystemExit 1), w)).
  { intros conf Hm Ht. rewrite run_sync_eq.
    unfold preflight, bind at 1, lift at 1, missing_field.
    now rewrite Hm, Hfmt, Ht. }
  destruct (arg_dry_run a).
  - assert (Hread : exists conf,
               read_config (<["dry_run" := VBool true]> (load_config None))
                 = Some conf /\
               commit_message conf = "🤖 Auto-sync: {date}" /\
               github_token conf = "")
      by (eexists; split; [vm_compute; reflexivity | split; reflexivity]).
    destruct Hread as (conf & -> & Hm & Ht). now rewrite (Hexit conf Hm Ht).
  - assert (Hread : exists conf,
               read_config (load_config None) = Some conf /\
               commit_message conf = "🤖 Auto-sync: {date}" /\
               github_token conf = "")
      by (eexists; split; [vm_compute; reflexivity | split; reflexivity]).
    destruct Hread as (conf & -> & Hm & Ht). now rewrite (Hexit conf Hm Ht).
Qed.
End MainFacts.
(** ** The cron entry *)

Lemma without_prefix_app (p b r x : string) :
  without_prefix p b = Some r -> without_prefix p (b +:+ x) = Some (r +:+ x).
Proof.
  revert b. induction p as [|a p IH]; intros b; cbn.
  - now intros [= ->].
  - destruct b as [|c b]; [discriminate|]. rewrite append_cons.
    destruct (Ascii.eqb a c); [apply IH | discriminate].
Qed.

Lemma without_first_app (seps : list string) (b r x : string) :
  without_first seps b = Some r ->
  exists r', without_first seps (b +:+ x) = Some r'.
Proof.
  induction seps as [|p seps IH]; cbn; [discriminate|].
  destruct (without_prefix p b) as [r0|] eqn:E.
  - intros _. rewrite (without_prefix_app _ _ _ x E). eauto.
  - intros Hb. destruct (without_prefix p (b +:+ x)); eauto.
Qed.

Lemma line_break_app (b r x : string) :
  line_break b = Some r -> exists r', line_break (b +:+ x) = Some r'.
Proof. apply without_first_app. Qed.

(** A line boundary that starts inside a line is not completed by the
    [\n] that ends the line. *)
Lemma line_break_before_newline (c : ascii) (l rest : string) :
  line_break (String c l) = None ->
  line_break (String c (l +:+ String "010" rest)) = None.
Proof.
  unfold line_break.
  let seps := eval vm_compute in LINE_BREAKS in change LINE_BREAKS with seps.
  destruct l as [|d [|e l]]; rewrite ?append_cons, ?append_empty_l;
    cbn [without_first without_prefix];
    repeat match goal with
           | |- context [Ascii.eqb ?x ?y] =>
               first [ is_var y; destruct (Ascii.eqb_spec x y); subst
                     | let b := eval vm_compute in (Ascii.eqb x y) in
                       change (Ascii.eqb x y) with b ]
           end; cbn; congruence.
Qed.

Lemma first_line_newline (l rest : string) :
  no_break l = true ->
  first_line (l +:+ String "010" rest) = (l, Some rest).
Proof.
  induction l as [|c l IH]; intros Hl.
  - rewrite append_empty_l. reflexivity.
  - cbn [no_break] in Hl.
    destruct (line_break (String c l)) eqn:Hb; [discriminate|].
    rewrite append_cons. cbn [first_line].
    now rewrite (line_break_before_newline _ _ _ Hb), (IH Hl).
Qed.

Lemma first_line_prefix (s l : string) (k : option string) :
  first_line s = (l, k) -> exists x, s = l +:+ x.
Proof.
  revert l k. induction s as [|c s IH]; intros l k; cbn [first_line].
  - intros [= <- <-]. now exists "".
  - destruct (line_break (String c s)).
    + intros [= <- <-]. exists (String c s). now rewrite append_empty_l.
    + destruct (first_line s) as [l0 k0]. intros [= <- <-].
      destruct (IH _ _ eq_refl) as [x ->]. exists x. now rewrite append_cons.
Qed.

Lemma first_line_no_break (s l : string) (k : option string) :
  first_line s = (l, k) -> no_break l = true.
Proof.
  revert l k. induction s as [|c s IH]; intros l k; cbn [first_line].
  - now intros [= <- <-].
  - destruct (line_break (String c s)) eqn:Hb.
    + now intros [= <- <-].
    + destruct (first_line s) as [l0 k0] eqn:Hline. intros [= <- <-].
      cbn [no_break]. rewrite (IH _ _ eq_refl).
      destruct (line_break (String c l0)) eqn:Hb0; [|reflexivity].
      destruct (first_line_prefix _ _ _ Hline) as [x ->].
      destruct (line_break_app _ _ x Hb0) as [r' Hr'].
      rewrite append_cons in Hr'. congruence.
Qed.

Lemma splitlines_eq (s : string) :
  splitlines s =
  match s with
  | EmptyString => []
  | String _ _ =>
      match first_line s with
      | (l, Some rest) => l :: splitlines rest
      | (l, None) => [l]
      end
  end.
Proof.
  funelim (splitlines s); try reflexivity;
    match goal with E : first_line _ = _ |- _ => now rewrite E end.
Qed.

Lemma splitlines_unlines (ls : list string) :
  Forall (fun l => no_break l = true) ls -> splitlines (unlines ls) = ls.
Proof.
  induction 1 as [|l ls Hl _ IH]; [reflexivity|].
  cbn [unlines]. rewrite splitlines_eq, (first_line_newline _ _ Hl), IH.
  destruct l; [rewrite append_empty_l | rewrite append_cons]; reflexivity.
Qed.

Lemma splitlines_no_break (s : string) :
  Forall (fun l => no_break l = true) (splitlines s).
Proof.
  funelim (splitlines s); [constructor | |];
    match goal with E : first_line _ = _ |- _ =>
      pose proof (first_line_no_break _ _ _ E) end;
    repeat constructor; assumption.
Qed.

Lemma no_break_no_cr (l : string) :
  no_break l = true -> has_char "013" l = false.
Proof.
  induction l as [|c l IH]; [reflexivity|]. cbn [no_break has_char].
  destruct (line_break (String c l)) eqn:Hb; [discriminate|].
  intros Hl. rewrite (IH Hl), orb_false_r.
  destruct (Ascii.eqb_spec c "013") as [-> | _]; [|reflexivity].
  unfold line_break in Hb.
  let seps := eval vm_compute in LINE_BREAKS in
    change LINE_BREAKS with seps in Hb.
  cbn in Hb.
  match type of Hb with
  | match ?m with _ => _ end = _ => destruct m; discriminate
  end.
Qed.

Lemma unlines_no_cr (ls : list string) :
  Forall (fun l => no_break l = true) ls ->
  has_char "013" (unlines ls) = false.
Proof.
  induction 1 as [|l ls Hl _ IH]; [reflexivity|].
  cbn [unlines]. rewrite has_char_app, (no_break_no_cr _ Hl).
  cbn [has_char orb]. exact IH.
Qed.

Lemma universal_newlines_id (s : string) :
  has_char "013" s = false -> universal_newlines s = s.
Proof.
  induction s as [|c s IH]; [reflexivity|]. cbn [has_char universal_newlines].
  intros Hs. apply orb_false_elim in Hs as [Hc Hs].
  rewrite Hc. now rewrite (IH Hs).
Qed.

Lemma append_assoc (a b c : string) : (a +:+ b) +:+ c = a +:+ (b +:+ c).
Proof.
  induction a as [|x a IH]; [now rewrite !append_empty_l|].
  now rewrite !append_cons, IH.
Qed.

Lemma concat_newline (ls : list string) (l : string) :
  String.concat (String "010" EmptyString) (ls ++ [l])
    +:+ String "010" EmptyString
  = unlines (ls ++ [l]).
Proof.
  induction ls as [|a ls IH]; [reflexivity|].
  cbn [app unlines]. rewrite <- IH.
  destruct (ls ++ [l]) as [|b rest] eqn:E; [now destruct ls|].
  cbn [String.concat]. now rewrite !append_assoc, append_cons, append_empty_l.
Qed.

Lemma contains_app_r (needle a b : string) :
  contains needle b = true -> contains needle (a +:+ b) = true.
Proof.
  intros Hb. induction a as [|c a IH]; [now rewrite append_empty_l|].
  rewrite append_cons. cbn [contains].
  now destruct (without_prefix needle (String c (a +:+ b))).
Qed.

Lemma contains_prefix (needle hay r : string) :
  without_prefix needle hay = Some r -> contains needle hay = true.
Proof. intros E. destruct hay; cbn [contains]; now rewrite E. Qed.

Lemma contains_app_l (needle a b : string) :
  contains needle a = true -> contains needle (a +:+ b) = true.
Proof.
  induction a as [|c a IH]; cbn [contains].
  - destruct (without_prefix needle "") as [r|] eqn:E; [|discriminate].
    intros _. exact (contains_prefix _ _ _ (without_prefix_app _ _ _ b E)).
  - destruct (without_prefix needle (String c a)) as [r|] eqn:E.
    + intros _. exact (contains_prefix _ _ _ (without_prefix_app _ _ _ b E)).
    + intros Ha. rewrite append_cons. cbn [contains].
      now destruct (without_prefix needle (String c (a +:+ b)));
        [|apply IH].
Qed.

Section CronFacts.
Variables (python here : string) (accepts : string -> bool).

Local Abbreviation keep :=
  (fun l : string => negb (contains marker l)
                     && negb (contains "github_sync.py" l)).

Lemma keep_stale (l : string) : keep l = negb (stale l).
Proof. unfold stale. now rewrite negb_orb. Qed.

Lemma agent_line_marker : contains marker (agent_line python here) = true.
Proof. unfold agent_line. do 2 apply contains_app_r. reflexivity. Qed.

Lemma agent_line_script :
  contains "github_sync.py" (agent_line python here) = true.
Proof.
  unfold agent_line, cron_line. apply contains_app_l.
  do 3 apply contains_app_r. apply contains_app_l.
  unfold SCRIPT, beside.
  destruct (String.eqb here "."), (ends_with_sep here);
    repeat first [ reflexivity | apply contains_app_r ].
Qed.

Lemma agent_line_stale : stale (agent_line python here) = true.
Proof. unfold stale. now rewrite agent_line_marker. Qed.

(** What [install_cron] hands to [crontab -], and what comes of it. *)
Lemma install_cron_eq (tab : option string) :
  install_cron python here accepts tab =
  let old := match tab with
             | Some s => splitlines (universal_newlines s)
             | None => []
             end in
  let new_crontab := unlines (List.filter keep old ++ [agent_line python here]) in
  if accepts new_crontab then (true, Some new_crontab) else (false, tab).
Proof.
  unfold install_cron, crontab_l, crontab_install. cbv zeta.
  destruct tab as [s|]; cbn [Z.eqb]; rewrite ?splitlines_eq;
    rewrite concat_newline;
    now destruct (accepts _).
Qed.

(** Reading back a crontab that [install_cron] wrote. *)
Lemma installed_lines (old : list string) :
  no_break (agent_line python here) = true ->
  Forall (fun l => no_break l = true) old ->
  splitlines (universal_newlines
                (unlines (List.filter keep old ++ [agent_line python here])))
  = List.filter keep old ++ [agent_line python here].
Proof.
  intros Hagent Hold.
  assert (Hall : Forall (fun l => no_break l = true)
                        (List.filter keep old ++ [agent_line python here])).
  { apply Forall_app. split; [|now repeat constructor].
    rewrite Forall_forall in *. intros l Hl.
    apply list_elem_of_In, filter_In in Hl as [Hl _].
    now apply Hold, list_elem_of_In. }
  rewrite (universal_newlines_id _ (unlines_no_cr _ Hall)).
  now apply splitlines_unlines.
Qed.

Lemma filter_keep_again (old : list string) :
  List.filter keep (List.filter keep old ++ [agent_line python here])
  = List.filter keep old.
Proof.
  rewrite List.filter_app. cbn [List.filter].
  rewrite (keep_stale (agent_line python here)), agent_line_stale. cbn [negb].
  rewrite app_nil_r. induction old as [|l old IH]; [reflexivity|].
  cbn [List.filter]. destruct (keep l) eqn:E; [|exact IH].
  cbn [List.filter]. now rewrite E, IH.
Qed.

(** X20. [install_cron] keeps the rest of the crontab.  On a crontab of
    lines that each end with a newline and hold no other line boundary,
    what is installed is those lines in their order, without the ones that
    mention the marker or [github_sync.py], followed by the line of the
    agent; with no crontab at all it is the line of the agent alone. *)
Theorem install_cron_keeps_other_lines (tab : option string)
    (ls : list string) :
  tab = Some (unlines ls) \/ (tab = None /\ ls = []) ->
  Forall (fun l => no_break l = true) ls ->
  accepts (unlines (List.filter (fun l => negb (stale l)) ls
                    ++ [agent_line python here])) = true ->
  install_cron python here accepts tab =
    (true, Some (unlines (List.filter (fun l => negb (stale l)) ls
                          ++ [agent_line python here]))).
Proof.
  intros Htab Hls. rewrite install_cron_eq. cbv zeta.
  assert (Hold : match tab with
                 | Some s => splitlines (universal_newlines s)
                 | None => []
                 end = ls).
  { destruct Htab as [-> | [-> ->]]; [|reflexivity].
    rewrite (universal_newlines_id _ (unlines_no_cr _ Hls)).
    now apply splitlines_unlines. }
  rewrite Hold.
  assert (Hf : List.filter keep ls = List.filter (fun l => negb (stale l)) ls).
  { apply List.filter_ext. intros l. apply keep_stale. }
  rewrite Hf. now intros ->.
Qed.

(** X21. Installing twice is installing once: when the line of the agent
    holds no line boundary, running [install_cron] on the crontab that a
    successful run installed installs that same crontab again. *)
Theorem install_cron_idempotent (tab : option string) (installed : string) :
  no_break (agent_line python here) = true ->
  install_cron python here accepts tab = (true, Some installed) ->
  install_cron python here accepts (Some installed) = (true, Some installed).
Proof.
  intros Hagent. rewrite !install_cron_eq. cbv zeta.
  set (old := match tab with
              | Some s => splitlines (universal_newlines s)
              | None => []
              end).
  assert (Hold : Forall (fun l => no_break l = true) old)
    by (subst old; destruct tab; [apply splitlines_no_break | constructor]).
  destruct (accepts (unlines (List.filter keep old ++ _))) eqn:Hacc;
    [|discriminate].
  intros [= <-].
  rewrite (installed_lines old Hagent Hold), filter_keep_again.
  now rewrite Hacc.
Qed.

(** X22. After a successful install the crontab has exactly one entry of
    the agent, its last line: read back, the crontab is the lines that
    were kept, none of which mentions the marker or [github_sync.py],
    followed by the line of the agent, which mentions both. *)
Theorem install_cron_single_entry (tab : option string) (installed : string) :
  no_break (agent_line python here) = true ->
  install_cron python here accepts tab = (true, Some installed) ->
  exists kept,
    splitlines (universal_newlines installed)
      = kept ++ [agent_line python here] /\
    Forall (fun l => stale l = false) kept /\
    contains marker (agent_line python here) = true /\
    contains "github_sync.py" (agent_line python here) = true /\
    List.filter stale (splitlines (universal_newlines installed))
      = [agent_line python here].
Proof.
  intros Hagent. rewrite install_cron_eq. cbv zeta.
  set (old := match tab with
              | Some s => splitlines (universal_newlines s)
              | None => []
              end).
  assert (Hold : Forall (fun l => no_break l = true) old)
    by (subst old; destruct tab; [apply splitlines_no_break | constructor]).
  destruct (accepts _); [|discriminate]. intros [= <-].
  rewrite (installed_lines old Hagent Hold).
  assert (Hkept : Forall (fun l => stale l = false) (List.filter keep old)).
  { rewrite Forall_forall. intros l Hl.
    apply list_elem_of_In, filter_In in Hl as [_ Hl].
    rewrite keep_stale in Hl. now apply negb_true_iff. }
  exists (List.filter keep old). split; [reflexivity|]. split; [exact Hkept|].
  split; [|split].
  - apply agent_line_marker.
  - apply agent_line_script.
  - rewrite List.filter_app. cbn [List.filter]. rewrite agent_line_stale.
    induction Hkept as [|l kept Hl _ IH]; [reflexivity|].
    cbn [List.filter app]. now rewrite Hl.
Qed.
End CronFacts.

(** ** Where the requests go *)

Section RequestFacts.
Context `{Hashlib} `{Environment}.
Variables (cfg : config) (api : GitHubAPI) (commit_msg : string).

Lemma loop_run_targets (files : list entry) (s : stats * cache)
    (w w' : world) (res : result (stats * cache)) :
  loop_run cfg api commit_msg files s w res w' ->
  exists evs,
    sent w' = sent w ++ evs /\
    forall rq out, In (rq, out) evs ->
      exists e, In e files /\ url_of rq = contents_url api (repo_path e) /\
                is_preflight rq = false.
Proof.
  induction 1 as [s w | e files s w ex w1 Hturn
                 | e files s w s1 w1 res w' Hturn Hloop IH].
  - exists []. split; [now rewrite app_nil_r | intros ? ? []].
  - apply turn_sent in Hturn
      as (_ & [Hs | [(out & ex' & Hs & _) | (out & sha & c & out' & Hs & _)]]).
    + exists []. split; [now rewrite app_nil_r | intros ? ? []].
    + eexists. split; [exact Hs|].
      intros rq o [[= <- <-] | []]. exists e. repeat split. now left.
    + eexists. split; [exact Hs|].
      intros rq o [[= <- <-] | [[= <- <-] | []]];
        exists e; repeat split; now left.
  - destruct IH as (evs' & Hs' & Hin').
    assert (Hstep : exists evs,
               sent w1 = sent w ++ evs /\
               forall rq out, In (rq, out) evs ->
                 url_of rq = contents_url api (repo_path e) /\
                 is_preflight rq = false).
    { apply turn_sent in Hturn
        as (_ & [Hs | [(out & ex' & Hs & _) | (out & sha & c & out' & Hs & _)]]).
      - exists []. split; [now rewrite app_nil_r | intros ? ? []].
      - eexists. split; [exact Hs|]. now intros rq o [[= <- <-] | []].
      - eexists. split; [exact Hs|].
        now intros rq o [[= <- <-] | [[= <- <-] | []]]. }
    destruct Hstep as (evs & Hs & Hin).
    exists (evs ++ evs'). split; [now rewrite Hs', Hs, app_assoc|].
    intros rq out Hrq. apply in_app_iff in Hrq as [Hrq | Hrq].
    + destruct (Hin _ _ Hrq) as [? ?]. exists e. repeat split; auto. now left.
    + destruct (Hin' _ _ Hrq) as (e' & ? & ? & ?). exists e'.
      repeat split; auto. now right.
Qed.
End RequestFacts.

Section RunRequests.
Context `{Hashlib} `{Environment}.
Variable cfg : config.
Local Abbreviation library := (resolve (library_path cfg)).

(** X23. A run talks to the GitHub API about the configured repository and
    nothing else.  Whatever way the run ends, each request it has sent goes
    to a URL that starts with [https://api.github.com]: the repository
    itself (the check), [/user/repos] (the creation), or the contents URL
    of the repository path of a scanned file (a lookup or a write). *)
Theorem requests_stay_on_repository (w w' : world) (res : result stats)
    (evs : list (request * result response)) (rq : request)
    (out : result response) :
  run_sync cfg w = (res, w') ->
  sent w' = sent w ++ evs ->
  In (rq, out) evs ->
  exists p,
    url_of rq = BASE +:+ p /\
    (p = "/repos/" +:+ github_username cfg +:+ "/" +:+ repo_name cfg \/
     p = "/user/repos" \/
     exists n e,
       fs_node library = Some n /\ In e (scanned cfg library n) /\
       p = "/repos/" +:+ github_username cfg +:+ "/" +:+ repo_name cfg +:+
           "/contents/" +:+ repo_path e).
Proof.
  intros Hrun Hsent Hin.
  assert (Hstart : forall pre, preflight_shape cfg pre -> In (rq, out) pre ->
             exists p,
               url_of rq = BASE +:+ p /\
               (p = "/repos/" +:+ github_username cfg +:+ "/" +:+ repo_name cfg
                \/ p = "/user/repos")).
  { intros pre [-> | [(o & ->) | (r & o & -> & _)]] Hpre.
    - destruct Hpre.
    - destruct Hpre as [[= <- <-] | []]. eexists. split; [reflexivity|].
      now left.
    - destruct Hpre as [[= <- <-] | [[= <- <-] | []]];
        (eexists; split; [reflexivity|]); [now left | now right]. }
  apply run_sync_cases in Hrun
    as [(ex & Hpre & _) | (msg & n & w0 & lres & w1 & Hpre & _ & Hfs & Hloop & Hres)];
    destruct (preflight_sent_shape cfg _ _ _ Hpre) as (pre & Hs0 & Hshape).
  - rewrite Hs0 in Hsent. apply app_inv_head in Hsent as <-.
    destruct (Hstart pre Hshape Hin) as (p & Hp & Hcase).
    exists p. split; [exact Hp|]. destruct Hcase; auto.
  - destruct (loop_run_targets _ _ _ _ _ _ _ _ Hloop) as (evs1 & Hs1 & Htargets).
    assert (Hw' : sent w' = sent w1)
      by (destruct lres; destruct Hres as [_ ->];
          [destruct (dry_run cfg)|]; reflexivity).
    rewrite Hw', Hs1, Hs0, <- app_assoc in Hsent.
    apply app_inv_head in Hsent as <-.
    apply in_app_iff in Hin as [Hin | Hin].
    + destruct (Hstart pre Hshape Hin) as (p & Hp & Hcase).
      exists p. split; [exact Hp|]. destruct Hcase; auto.
    + destruct (Htargets _ _ Hin) as (e & He & Hurl & _).
      eexists. split; [exact Hurl|]. right. right. now exists n, e.
Qed.
End RunRequests.

(** * The model at work

    The theorems above applied to concrete libraries and services, and the
    runs on which the specification and the program part ways. *)

Lemma file_at_top (d : string) (entries : list node) (s : string) (f : file) :
  In (File s f) entries -> file_at (Dir d entries) [] s f.
Proof. intros Hin. exists entries. split; [constructor | exact Hin]. Qed.

Lemma scanner_filter_exclusive_witness :
  ~ In (entry_of ["srv"; "code"] ["build"] "big.py" big_file)
       (collect_files ["srv"; "code"] big_tree [".py"] ["build"] 10).
Proof.
  assert (Hat : file_at big_tree ["build"] "big.py" big_file).
  { exists [File "big.py" big_file]. split.
    - eapply dir_below; [left; reflexivity | constructor].
    - left; reflexivity. }
  destruct (scanner_filter_exclusive ["srv"; "code"] big_tree [".py"] ["build"]
              10 ["build"] "big.py" big_file Hat) as (Hdeny & Hsize & Hreal).
  assert (Hbig : max_bytes 10 < st_size big_file) by (vm_compute; reflexivity).
  assert (Hpos : (0 <= 10)%Q) by (vm_compute; discriminate).
  assert (Hexceeds : (10 * 1048576 < inject_Z (st_size big_file))%Q)
    by (vm_compute; reflexivity).
  assert (Hunder : exists d, In d ["build"] /\ In d ["build"])
    by (exists "build"; split; left; reflexivity).
  pose proof (Hsize Hbig) as H1. pose proof (Hreal Hpos Hexceeds) as H2.
  intros Hin. exact (Hdeny Hunder _ Hin eq_refl).
Defined.

Lemma scanner_size_limit_inclusive_witness :
  In (entry_of ["srv"; "code"] [] "edge.py" edge_file)
     (collect_files ["srv"; "code"] edge_tree [".py"] ["build"] 10).
Proof.
  apply scanner_size_limit_inclusive.
  - apply file_at_top. left. reflexivity.
  - intros d [].
  - vm_compute. reflexivity.
  - vm_compute. reflexivity.
Defined.

Lemma counter_conservation_witness :
  fst (demo_run false [answer 200 None; answer 404 None; answer 201 None] None)
  = Ok {| uploaded := 1; skipped := 0; failed := 0; total := 1 |} /\
  1 + 0 + 0 = 1.
Proof.
  split; [vm_compute; reflexivity|].
  refine (proj1 (@counter_conservation toy_hashlib demo_env (demo_cfg false)
                   (@start demo_env [answer 200 None; answer 404 None;
                                     answer 201 None] None)
                   (snd (demo_run false [answer 200 None; answer 404 None;
                                         answer 201 None] None))
                   {| uploaded := 1; skipped := 0; failed := 0; total := 1 |}
                   _)).
  vm_compute. reflexivity.
Defined.

(** C2, the run that the claim rules out: a dry run on a repository that is
    not there yet.  The check is answered 404, and the run asks the service
    to create the repository. *)
Lemma dry_run_creates_repository :
  dry_run (demo_cfg true) = true /\
  sent (snd (demo_run true [answer 404 None; answer 201 None] None)) =
  [ (HttpGet "https://api.github.com/repos/octo/lib" None, answer 404 None);
    (HttpPost "https://api.github.com/user/repos" "lib" false true,
     answer 201 None) ] /\
  mutates (HttpPost "https://api.github.com/user/repos" "lib" false true) = true.
Proof. repeat split; vm_compute; reflexivity. Qed.

Lemma dry_run_writes_no_file_witness :
  cache_file (snd (demo_run true [answer 404 None; answer 201 None] None)) = None.
Proof.
  refine (proj1 (@dry_run_writes_no_file toy_hashlib demo_env (demo_cfg true)
                   (@start demo_env [answer 404 None; answer 201 None] None)
                   _ (fst (demo_run true [answer 404 None; answer 201 None] None))
                   _ _)).
  - reflexivity.
  - vm_compute. reflexivity.
Defined.

(** C3, the run that the claim rules out: the first file cannot be read.
    The error leaves [run_sync]: nothing is counted as failed, and [y.py] is
    never looked at. *)
Lemma read_error_leaves_run :
  @run_sync toy_hashlib broken_env (demo_cfg false)
    (broken_start [answer 200 None; answer 404 None; answer 201 None])
  = (Raise OSError,
     broken_world [answer 404 None; answer 201 None] None
       [ (HttpGet "https://api.github.com/repos/octo/lib" None,
          answer 200 None) ]).
Proof. vm_compute. reflexivity. Qed.

Lemma read_error_aborts_run_witness :
  fst (@run_sync toy_hashlib broken_env (demo_cfg false)
         (broken_start [answer 200 None])) = Raise OSError.
Proof.
  pose (w0 := snd (@preflight broken_env (demo_cfg false)
                     (broken_start [answer 200 None]))).
  pose (x := entry_of ["srv"; "code"] [] "x.py" (unreadable_file 3)).
  pose (y := entry_of ["srv"; "code"] [] "y.py" (plain_file [x79])).
  destruct (@read_error_aborts_run toy_hashlib broken_env (demo_cfg false)
              (broken_start [answer 200 None]) w0 w0
              "sync" ["srv"; "code"] broken_tree demo_api [] [y] x
              (no_stats, ∅) OSError) as [Hopen _].
  - vm_compute. reflexivity.
  - vm_compute. reflexivity.
  - vm_compute. reflexivity.
  - destruct (Hopen eq_refl) as [-> _]. reflexivity.
Defined.


(** C5, the run that the claim rules out: the first run returns and writes
    its cache, but the write for [a.py] had failed; the second run, with
    nothing changed locally, uploads the file. *)
Lemma second_run_uploads_after_failure :
  fst (demo_run false [answer 200 None; answer 404 None; answer 500 None] None)
    = Ok {| uploaded := 0; skipped := 0; failed := 1; total := 1 |} /\
  cache_file (snd (demo_run false [answer 200 None; answer 404 None;
                                   answer 500 None] None)) = Some ∅ /\
  fst (demo_run false [answer 200 None; answer 404 None; answer 201 None]
                (Some ∅))
    = Ok {| uploaded := 1; skipped := 0; failed := 0; total := 1 |}.
Proof. repeat split; vm_compute; reflexivity. Qed.

Lemma second_run_skips_all_witness :
  fst (demo_run false [answer 200 None]
         (cache_file (snd (demo_run false [answer 200 None; answer 404 None;
                                           answer 201 None] None))))
    = Ok {| uploaded := 0; skipped := 1; failed := 0; total := 1 |} /\
  0 = 0 /\ 0 = 0 /\ 1 = 1 /\ 1 = 1.
Proof.
  pose (run1 := demo_run false [answer 200 None; answer 404 None;
                                answer 201 None] None).
  pose (w' := @start demo_env [answer 200 None] (cache_file (snd run1))).
  pose (run2 := @run_sync toy_hashlib demo_env (demo_cfg false) w').
  split; [vm_compute; reflexivity|].
  refine (proj2 (@second_run_skips_all toy_hashlib demo_env (demo_cfg false)
                   (@start demo_env [answer 200 None; answer 404 None;
                                     answer 201 None] None)
                   (snd run1) w' (snd run2)
                   {| uploaded := 1; skipped := 0; failed := 0; total := 1 |}
                   (fst run2) _ _ _ _ _ _)
                {| uploaded := 0; skipped := 1; failed := 0; total := 1 |} _).
  - reflexivity.
  - intros n Hn.
    change (Some demo_tree = Some n) in Hn. injection Hn as <-.
    assert (E : map repo_path (scanned (demo_cfg false)
                                 (@resolve demo_env "code") demo_tree)
                = ["a.py"]) by (vm_compute; reflexivity).
    change (library_path (demo_cfg false)) with "code".
    rewrite E. apply NoDup_singleton.
  - vm_compute. reflexivity.
  - reflexivity.
  - reflexivity.
  - apply surjective_pairing.
  - vm_compute. reflexivity.
Defined.

Lemma token_threading_witness :
  exists out sha,
    [ (demo_lookup, answer 200 (Some "abc123"));
      (demo_write (Some "abc123"), answer 200 None) ]
    = [ (lookup_of demo_api demo_entry, out);
        (demo_write (Some "abc123"), answer 200 None) ] /\
    "https://api.github.com/repos/octo/lib/contents/a.py"
    = contents_url demo_api "a.py" /\
    lookup_reply out = Ok sha /\
    (sha <> Some "" -> Some "abc123" = sha) /\
    (sha = Some "" -> Some "abc123" = None).
Proof.
  apply (@token_threading toy_hashlib demo_env (demo_cfg false) demo_api "sync"
           demo_entry (no_stats, ∅)
           (demo_world [answer 200 (Some "abc123"); answer 200 None] None [])
           (snd (demo_turn [answer 200 (Some "abc123"); answer 200 None]))
           (fst (demo_turn [answer 200 (Some "abc123"); answer 200 None]))).
  - apply surjective_pairing.
  - vm_compute. reflexivity.
  - right. left. reflexivity.
Defined.

(** C7, the run that the claim rules out: the lookup is answered 500.  The
    lookup returns no token, as it does on 404, and the file is written as
    a new one and counted as uploaded. *)
Lemma lookup_takes_500_for_absent :
  fst (@get_file_sha demo_env demo_api "a.py"
         (demo_world [answer 500 None] None [])) = Ok None /\
  fst (@get_file_sha demo_env demo_api "a.py"
         (demo_world [answer 404 None] None [])) = Ok None /\
  fst (demo_run false [answer 200 None; answer 500 None; answer 201 None] None)
    = Ok {| uploaded := 1; skipped := 0; failed := 0; total := 1 |} /\
  sent (snd (demo_run false [answer 200 None; answer 500 None;
                             answer 201 None] None)) =
  [ (HttpGet "https://api.github.com/repos/octo/lib" None, answer 200 None);
    (demo_lookup, answer 500 None);
    (demo_write None, answer 201 None) ].
Proof. repeat split; vm_compute; reflexivity. Qed.

Lemma lookup_soft_on_every_status_witness :
  @get_file_sha demo_env demo_api "a.py" (demo_world [answer 403 None] None [])
  = (Ok None, demo_world [] None [(demo_lookup, answer 403 None)]).
Proof.
  refine (proj1 (proj2 (@lookup_soft_on_every_status toy_hashlib demo_env
                          (demo_cfg false) demo_api "sync" demo_entry
                          (no_stats, ∅)
                          (demo_world [answer 403 None] None [])
                          (demo_world [] None [(demo_lookup, answer 403 None)])
                          {| status_code := 403; json_sha := Ok None; text := "" |}
                          _) _)).
  - vm_compute. reflexivity.
  - discriminate.
Defined.

Lemma repo_path_forward_slashes_witness :
  has_char "\" (repo_path demo_entry) = false /\
  exists rel,
    abs_path demo_entry = ["srv"; "code"] ++ rel /\ rel <> [] /\
    repo_path demo_entry = replace_backslash (str_path rel) /\
    (Forall (fun s => has_char "\" s = false) rel ->
     repo_path demo_entry = str_path rel).
Proof.
  apply (repo_path_forward_slashes ["srv"; "code"] demo_tree [".py"] ["build"]
           10 demo_entry).
  vm_compute. left. reflexivity.
Defined.

Lemma scanner_yields_exactly_witness :
  In demo_entry (collect_files ["srv"; "code"] demo_tree [".py"] ["build"] 10).
Proof.
  assert (Hlim : finite_limit 10) by (split; vm_compute; reflexivity).
  assert (Hext : Forall (fun x => is_ascii x = true) [".py"])
    by (repeat constructor).
  assert (Hat : file_at demo_tree [] "a.py" (plain_file [x61; x62; x63]))
    by (apply file_at_top; left; reflexivity).
  apply (proj2 (proj2 (scanner_yields_exactly ["srv"; "code"] demo_tree [".py"]
                         ["build"] 10 Hext Hlim)
                  [] "a.py" (plain_file [x61; x62; x63]) Hat eq_refl)).
  split; [intros d []|].
  split; [right; exists ".py"; split; [left|]; reflexivity|].
  vm_compute. discriminate.
Defined.

Lemma scanner_filters_monotone_witness :
  In demo_entry (collect_files ["srv"; "code"] demo_tree [".py"] [] 10).
Proof.
  apply (scanner_filters_monotone ["srv"; "code"] demo_tree [".py"]
           [] ["build"] 10 5 demo_entry).
  - split; vm_compute; reflexivity.
  - split; vm_compute; reflexivity.
  - intros d [].
  - vm_compute. discriminate.
  - vm_compute. left. reflexivity.
Defined.

Lemma writes_carry_scanned_files_witness :
  dry_run (demo_cfg false) = false /\
  exists commit_msg n e content,
    @format_date demo_env (commit_message (demo_cfg false)) = Ok commit_msg /\
    @fs_node demo_env (@resolve demo_env (library_path (demo_cfg false)))
      = Some n /\
    In e (scanned (demo_cfg false)
            (@resolve demo_env (library_path (demo_cfg false))) n) /\
    read_bytes (target e) = Ok content /\
    "https://api.github.com/repos/octo/lib/contents/a.py"
      = contents_url (api_of (demo_cfg false)) (repo_path e) /\
    "sync" = commit_msg /\ "main" = branch (demo_cfg false) /\
    "abc" = @b64encode demo_env content.
Proof.
  apply (@writes_carry_scanned_files toy_hashlib demo_env (demo_cfg false)
           (@start demo_env [answer 200 None; answer 404 None; answer 201 None]
                   None)
           (snd (demo_run false [answer 200 None; answer 404 None;
                                 answer 201 None] None))
           (fst (demo_run false [answer 200 None; answer 404 None;
                                 answer 201 None] None))
           [ (HttpGet "https://api.github.com/repos/octo/lib" None,
              answer 200 None);
             (demo_lookup, answer 404 None);
             (demo_write None, answer 201 None) ]
           "https://api.github.com/repos/octo/lib/contents/a.py"
           {| pl_message := "sync"; pl_content := "abc"; pl_branch := "main";
              pl_sha := None |}
           (answer 201 None)).
  - apply surjective_pairing.
  - vm_compute. reflexivity.
  - right. right. left. reflexivity.
Defined.

Lemma cache_entries_persist_witness :
  default ∅ (cache_file (snd (demo_run false [answer 200 None; answer 404 None;
                                              answer 201 None]
                                (Some {["gone.py" := "111"]})))) !! "gone.py"
  = Some "111".
Proof.
  refine (proj1 (proj2 (@cache_entries_persist toy_hashlib demo_env
                          (demo_cfg false)
                          (@start demo_env [answer 200 None; answer 404 None;
                                            answer 201 None]
                                  (Some {["gone.py" := "111"]}))
                          _ (fst (demo_run false [answer 200 None;
                                                  answer 404 None;
                                                  answer 201 None]
                                    (Some {["gone.py" := "111"]})))
                          _)) "gone.py" _).
  - apply surjective_pairing.
  - intros n e Hn He.
    change (Some demo_tree = Some n) in Hn. injection Hn as <-.
    assert (E : scanned (demo_cfg false) (@resolve demo_env "code") demo_tree
                = [demo_entry]) by (vm_compute; reflexivity).
    change (library_path (demo_cfg false)) with "code" in He.
    rewrite E in He. destruct He as [<- | []]. vm_compute. discriminate.
Defined.

Lemma cache_update_means_upload_witness :
  default (∅ : cache) None !! "a.py" = Some "abc" \/
  exists n e pl r,
    @fs_node demo_env (@resolve demo_env (library_path (demo_cfg false)))
      = Some n /\
    In e (scanned (demo_cfg false)
            (@resolve demo_env (library_path (demo_cfg false))) n) /\
    repo_path e = "a.py" /\ @fingerprint toy_hashlib e = Ok "abc" /\
    In (HttpPut (contents_url (api_of (demo_cfg false)) "a.py") pl, Ok r)
       [ (HttpGet "https://api.github.com/repos/octo/lib" None,
          answer 200 None);
         (demo_lookup, answer 404 None);
         (demo_write None, answer 201 None) ] /\
    (status_code r = 200 \/ status_code r = 201).
Proof.
  apply (@cache_update_means_upload toy_hashlib demo_env (demo_cfg false)
           (@start demo_env [answer 200 None; answer 404 None; answer 201 None]
                   None)
           (snd (demo_run false [answer 200 None; answer 404 None;
                                 answer 201 None] None))
           (fst (demo_run false [answer 200 None; answer 404 None;
                                 answer 201 None] None))).
  - apply surjective_pairing.
  - vm_compute. reflexivity.
  - vm_compute. reflexivity.
Defined.

Lemma requests_of_a_run_witness :
  exists pre evs,
    sent (snd (demo_run false [answer 200 None; answer 404 None;
                               answer 201 None] None))
      = [] ++ pre ++ evs /\
    preflight_shape (demo_cfg false) pre /\
    (dry_run (demo_cfg false) = true -> evs = []) /\
    (dry_run (demo_cfg false) = false ->
     Z.of_nat (length evs) = 2 * (1 + 0)).
Proof.
  apply (@requests_of_a_run toy_hashlib demo_env (demo_cfg false)
           (@start demo_env [answer 200 None; answer 404 None; answer 201 None]
                   None)
           (snd (demo_run false [answer 200 None; answer 404 None;
                                 answer 201 None] None))
           {| uploaded := 1; skipped := 0; failed := 0; total := 1 |}).
  vm_compute. reflexivity.
Defined.

Lemma dry_run_counts_changes_witness :
  exists n,
    @fs_node demo_env (@resolve demo_env (library_path (demo_cfg true)))
      = Some n /\
    1 = @count_changed toy_hashlib (default ∅ None)
          (scanned (demo_cfg true)
             (@resolve demo_env (library_path (demo_cfg true))) n) /\
    0 = Z.of_nat (length (scanned (demo_cfg true)
                            (@resolve demo_env (library_path (demo_cfg true)))
                            n))
        - @count_changed toy_hashlib (default ∅ None)
            (scanned (demo_cfg true)
               (@resolve demo_env (library_path (demo_cfg true))) n) /\
    0 = 0.
Proof.
  apply (@dry_run_counts_changes toy_hashlib demo_env (demo_cfg true)
           (@start demo_env [answer 200 None] None)
           (snd (demo_run true [answer 200 None] None))
           {| uploaded := 1; skipped := 0; failed := 0; total := 1 |}).
  - reflexivity.
  - vm_compute. reflexivity.
Defined.

Lemma run_attempts_changes_witness :
  exists n,
    @fs_node demo_env (@resolve demo_env (library_path (demo_cfg false)))
      = Some n /\
    0 + 1 = @count_changed toy_hashlib (default ∅ None)
              (scanned (demo_cfg false)
                 (@resolve demo_env (library_path (demo_cfg false))) n) /\
    0 = Z.of_nat (length (scanned (demo_cfg false)
                            (@resolve demo_env (library_path (demo_cfg false)))
                            n))
        - @count_changed toy_hashlib (default ∅ None)
            (scanned (demo_cfg false)
               (@resolve demo_env (library_path (demo_cfg false))) n).
Proof.
  apply (@run_attempts_changes toy_hashlib demo_env (demo_cfg false)
           (@start demo_env [answer 200 None; answer 404 None; answer 500 None]
                   None)
           (snd (demo_run false [answer 200 None; answer 404 None;
                                 answer 500 None] None))
           {| uploaded := 0; skipped := 0; failed := 1; total := 1 |}).
  - intros n Hn.
    change (Some demo_tree = Some n) in Hn. injection Hn as <-.
    assert (E : map repo_path (scanned (demo_cfg false)
                                 (@resolve demo_env "code") demo_tree)
                = ["a.py"]) by (vm_compute; reflexivity).
    change (library_path (demo_cfg false)) with "code".
    rewrite E. apply NoDup_singleton.
  - vm_compute. reflexivity.
Defined.

Lemma run_sync_returns_when_nothing_fails_witness :
  exists st w',
    @run_sync toy_hashlib (steady_env "code" demo_tree) (demo_cfg false)
      (@Build_world (steady_env "code" demo_tree) tt None [])
    = (Ok st, w') /\
    total st = 1.
Proof.
  apply (@run_sync_returns_when_nothing_fails toy_hashlib
           (steady_env "code" demo_tree) (demo_cfg false)
           (@Build_world (steady_env "code" demo_tree) tt None [])
           "sync" "code"
           [ File "a.py" (plain_file [x61; x62; x63]);
             Dir "build" [ File "b.py" (plain_file [x62]) ];
             File "c.bin" (plain_file [x00; x01]) ]).
  - reflexivity.
  - reflexivity.
  - split; vm_compute; reflexivity.
  - reflexivity.
  - intros e He.
    assert (E : scanned (demo_cfg false) ["srv"; "code"] demo_tree
                = [demo_entry]) by (vm_compute; reflexivity).
    change (In e (scanned (demo_cfg false) ["srv"; "code"] demo_tree)) in He.
    rewrite E in He. destruct He as [<- | []].
    split; eexists; reflexivity.
  - intros r rq. exists r, {| status_code := 200; json_sha := Ok (Some "5ha");
                              text := "" |}.
    split; [reflexivity|]. intros _. eexists. reflexivity.
  - intros r r' resp r'' resp' E1 N200. injection E1 as _ <-.
    now destruct N200.
Defined.
Lemma run_sync_exits_before_scanning_witness :
  @run_sync toy_hashlib demo_env
    {| github_token := ""; github_username := "octo"; repo_name := "lib";
       library_path := "code"; branch := "main"; commit_message := "sync";
       extensions := [".py"]; ignore_dirs := ["build"];
       max_file_size_mb := 10; dry_run := false |}
    (@start demo_env [answer 200 None] None)
  = (Raise (SystemExit 1), @start demo_env [answer 200 None] None).
Proof.
  apply (proj1 (proj2 (@run_sync_exits_before_scanning toy_hashlib demo_env
                         {| github_token := ""; github_username := "octo";
                            repo_name := "lib"; library_path := "code";
                            branch := "main"; commit_message := "sync";
                            extensions := [".py"]; ignore_dirs := ["build"];
                            max_file_size_mb := 10; dry_run := false |}
                         (@start demo_env [answer 200 None] None))
                      "sync" eq_refl)).
  reflexivity.
Defined.

Lemma run_setup_saves_answers_witness :
  exists cfg,
    run_setup {| config_json := None;
                 stdin := [" t0ken "; "octo"; "lib"; "code"; ""; "more"] |}
    = (Done, {| config_json := Some cfg; stdin := ["more"] |}) /\
    cfg !! "github_token" = Some (VStr "t0ken") /\
    cfg !! "branch" = Some (VStr "main").
Proof.
  destruct (run_setup_saves_answers
              {| config_json := None;
                 stdin := [" t0ken "; "octo"; "lib"; "code"; ""; "more"] |}
              " t0ken " "octo" "lib" "code" "" ["more"] eq_refl)
    as (cfg & Hrun & Hkeys & _).
  exists cfg. split; [exact Hrun|]. split.
  - exact (Hkeys "github_token" " t0ken " (or_introl eq_refl)).
  - exact (Hkeys "branch" "" (or_intror (or_intror (or_intror (or_intror
                                 (or_introl eq_refl)))))).
Defined.

Lemma run_setup_eof_saves_nothing_witness :
  run_setup {| config_json := Some demo_dict; stdin := ["t0ken"; "octo"] |}
  = (EOFError, {| config_json := Some demo_dict; stdin := [] |}).
Proof.
  apply (run_setup_eof_saves_nothing
           {| config_json := Some demo_dict; stdin := ["t0ken"; "octo"] |}).
  cbn. lia.
Defined.

Lemma run_setup_blank_answers_witness :
  run_setup {| config_json := Some demo_dict;
               stdin := [""; " "; ""; ""; ""] |}
  = (Done, {| config_json := Some (load_config (Some demo_dict));
              stdin := [] |}).
Proof.
  apply (run_setup_blank_answers
           {| config_json := Some demo_dict; stdin := [""; " "; ""; ""; ""] |}
           "" " " "" "" "" [] eq_refl);
    vm_compute; reflexivity.
Defined.

Lemma setup_then_run_uses_answers_witness :
  exists c' d0,
    run_setup {| config_json := None;
                 stdin := [" t0ken "; "octo"; "lib"; "code"; ""] |}
      = (Done, c') /\ stdin c' = [] /\
    read_config DEFAULT_CONFIG = Some d0 /\
    read_config (load_config (config_json c')) =
      Some {| github_token := strip " t0ken ";
              github_username := strip "octo";
              repo_name := strip "lib";
              library_path := strip "code";
              branch := if String.eqb (strip "") "" then "main" else strip "";
              commit_message := commit_message d0;
              extensions := extensions d0;
              ignore_dirs := ignore_dirs d0;
              max_file_size_mb := max_file_size_mb d0;
              dry_run := dry_run d0 |}.
Proof.
  apply (setup_then_run_uses_answers
           {| config_json := None;
              stdin := [" t0ken "; "octo"; "lib"; "code"; ""] |}
           " t0ken " "octo" "lib" "code" "" []); reflexivity.
Defined.

Lemma main_dry_run_flag_overrides_witness :
  {| config_json := Some demo_dict; stdin := [] |}
    = {| config_json := Some demo_dict; stdin := [] |} /\
  cache_file (demo_world [] None
                [(HttpGet "https://api.github.com/repos/octo/lib" None,
                  answer 200 None)])
    = cache_file (demo_world [answer 200 None] None []) /\
  exists evs,
    sent (demo_world [] None
            [(HttpGet "https://api.github.com/repos/octo/lib" None,
              answer 200 None)])
      = sent (demo_world [answer 200 None] None []) ++ evs /\
    Forall (fun ev => is_preflight (fst ev) = true) evs.
Proof.
  apply (@main_dry_run_flag_overrides toy_hashlib demo_env
           {| arg_setup := false; arg_run := false; arg_dry_run := true |}
           {| config_json := Some demo_dict; stdin := [] |}
           {| config_json := Some demo_dict; stdin := [] |}
           (demo_world [answer 200 None] None [])
           (demo_world [] None
              [(HttpGet "https://api.github.com/repos/octo/lib" None,
                answer 200 None)])
           Done).
  - reflexivity.
  - reflexivity.
  - vm_compute. reflexivity.
Defined.

Lemma main_run_without_setup_exits_witness :
  @main toy_hashlib demo_env
    {| arg_setup := false; arg_run := true; arg_dry_run := false |}
    {| config_json := None; stdin := [] |}
    (demo_world [answer 200 None] None [])
  = Some (Escaped (SystemExit 1), {| config_json := None; stdin := [] |},
          demo_world [answer 200 None] None []).
Proof.
  apply (@main_run_without_setup_exits toy_hashlib demo_env
           {| arg_setup := false; arg_run := true; arg_dry_run := false |}
           {| config_json := None; stdin := [] |}
           (demo_world [answer 200 None] None [])
           "🤖 Auto-sync: {date}"); reflexivity.
Defined.

Lemma install_cron_keeps_other_lines_witness :
  install_cron "/usr/bin/python3" "/opt/agent" (fun _ => true)
    (Some (unlines demo_crontab))
  = (true,
     Some (unlines (List.filter (fun l => negb (stale l)) demo_crontab
                    ++ [agent_line "/usr/bin/python3" "/opt/agent"]))).
Proof.
  apply (install_cron_keeps_other_lines "/usr/bin/python3" "/opt/agent"
           (fun _ => true) (Some (unlines demo_crontab)) demo_crontab).
  - left. reflexivity.
  - repeat constructor.
  - reflexivity.
Defined.

Lemma install_cron_idempotent_witness :
  install_cron "/usr/bin/python3" "/opt/agent" (fun _ => true)
    (Some (unlines ["MAILTO=me"; "5 5 * * * backup";
                    agent_line "/usr/bin/python3" "/opt/agent"]))
  = (true,
     Some (unlines ["MAILTO=me"; "5 5 * * * backup";
                    agent_line "/usr/bin/python3" "/opt/agent"])).
Proof.
  apply (install_cron_idempotent "/usr/bin/python3" "/opt/agent"
           (fun _ => true) (Some (unlines demo_crontab))).
  - vm_compute. reflexivity.
  - vm_compute. reflexivity.
Defined.

Lemma install_cron_single_entry_witness :
  exists kept,
    splitlines (universal_newlines
                  (unlines [agent_line "/usr/bin/python3" "/opt/agent"]))
      = kept ++ [agent_line "/usr/bin/python3" "/opt/agent"] /\
    Forall (fun l => stale l = false) kept /\
    contains marker (agent_line "/usr/bin/python3" "/opt/agent") = true /\
    contains "github_sync.py" (agent_line "/usr/bin/python3" "/opt/agent")
      = true /\
    List.filter stale
      (splitlines (universal_newlines
                     (unlines [agent_line "/usr/bin/python3" "/opt/agent"])))
      = [agent_line "/usr/bin/python3" "/opt/agent"].
Proof.
  apply (install_cron_single_entry "/usr/bin/python3" "/opt/agent"
           (fun _ => true) None).
  - vm_compute. reflexivity.
  - vm_compute. reflexivity.
Defined.

Lemma requests_stay_on_repository_witness :
  exists p,
    url_of demo_lookup = BASE +:+ p /\
    (p = "/repos/" +:+ github_username (demo_cfg false) +:+ "/" +:+
         repo_name (demo_cfg false) \/
     p = "/user/repos" \/
     exists n e,
       @fs_node demo_env (@resolve demo_env (library_path (demo_cfg false)))
         = Some n /\
       In e (scanned (demo_cfg false)
               (@resolve demo_env (library_path (demo_cfg false))) n) /\
       p = "/repos/" +:+ github_username (demo_cfg false) +:+ "/" +:+
           repo_name (demo_cfg false) +:+ "/contents/" +:+ repo_path e).
Proof.
  apply (@requests_stay_on_repository toy_hashlib demo_env (demo_cfg false)
           (@start demo_env [answer 200 None; answer 404 None; answer 201 None]
                   None)
           (snd (demo_run false [answer 200 None; answer 404 None;
                                 answer 201 None] None))
           (fst (demo_run false [answer 200 None; answer 404 None;
                                 answer 201 None] None))
           [ (HttpGet "https://api.github.com/repos/octo/lib" None,
              answer 200 None);
             (demo_lookup, answer 404 None);
             (demo_write None, answer 201 None) ]
           demo_lookup (answer 404 None)).
  - apply surjective_pairing.
  - vm_compute. reflexivity.
  - right. left. reflexivity.
Defined.


(** C8, the scan that the claim rules out: a limit just below zero.  The
    limit in bytes is [int(-0.1048576)], which is 0, so the empty file is
    yielded although its size, 0, exceeds the limit times 1,048,576. *)
Lemma scanner_yields_past_negative_limit :
  ((-1 # 10000000) * 1048576 < inject_Z (st_size (plain_file [])))%Q /\
  max_bytes (-1 # 10000000) = 0 /\
  In (entry_of ["srv"; "code"] [] "empty.py" (plain_file []))
     (collect_files ["srv"; "code"] empty_tree [".py"] ["build"]
                    (-1 # 10000000)).
Proof.
  split; [vm_compute; reflexivity|]. split; [vm_compute; reflexivity|].
  vm_compute. left. reflexivity.
Qed.
